(** * next_backend: the wallet ledger, its webhook verifier and its gateway client

    A shallow embedding of the Django application under [wallet/]:
    - [wallet/models.py]: the [Wallet] and [Transaction] tables, with the
      column constraints and the [on_delete] policies they declare;
    - [wallet/services/transactions.py]: [TransactionService];
    - [wallet/utils.py]: [verify_webhook_signature], over an executable
      model of [hmac.new(key, msg, hashlib.sha256).hexdigest()] and of
      [hmac.compare_digest];
    - [wallet/services/payscribe.py]: [PayscribeService];
    - [wallet/views.py]: the handlers that read or write the ledger.

    Conventions.
    - A Python [Decimal] with two decimal places is an integer number of
      hundredths: [Decimal] is [Z], and 5000.00 is [500000].
    - Python values that cross a dynamic boundary (request bodies, JSON
      payloads, metadata) are [pyval]s.  A Python [float] is [VFloat m e],
      the number m * 2^e; JSON text has no NaN and no infinity.
    - A Python [str] is a [string], one [ascii] per code point, which
      covers the code points 0..255 (all that an HTTP header can carry).
      Three of them have an upper-case form that is not one code point
      below 256 (U+00B5, U+00DF, U+00FF); [upper] keeps these three, so
      strings that hold one of them are outside what [upper] models.
    - Code that can raise returns a [res]; code that also talks to the
      database runs in [M], a state monad over the [Store] in which a
      raised exception keeps the writes made so far, and [atomic] undoes
      them.
    - What the program reads from outside (settings, the clock, uuid4, the
      provider's answers, the field converters of the REST framework) is
      collected in the record [Env]. *)

From stdpp Require Import base option list gmap strings pretty.
From Stdlib Require Import ZArith String Ascii List Lia Bool.
From Stdlib Require Strings.Byte.
Import ListNotations.
Local Open Scope string_scope.
Local Open Scope Z_scope.

(** ** Python values and exceptions *)

Local Set Warnings "-register-all".

Inductive pyval :=
| VNone
| VBool (b : bool)
| VInt (n : Z)
| VDec (d : Z)
| VFloat (m e : Z)
| VStr (s : string)
| VList (l : list pyval)
| VDict (kv : list (string * pyval)).

Definition Decimal := Z.

(** The classes of [requests.exceptions] that the client can meet; all of
    them derive from [RequestException]. *)
Inductive request_failure :=
| ConnectionError | Timeout | HTTPError | TooManyRedirects | InvalidJSONError.

Inductive exn :=
| AttributeError (msg : string)
| TypeError (msg : string)
| KeyError (key : string)
| ValueError (msg : string)
| DoesNotExist (model : string)
| MultipleObjectsReturned (model : string)
| IntegrityError (msg : string)
| ProtectedError (msg : string)
| InvalidOperation
| ValidationError (msg : string)
| RequestException (k : request_failure) (msg : string).

(** [isinstance(e, requests.exceptions.RequestException)] *)
Definition is_RequestException (e : exn) : bool :=
  match e with RequestException _ _ => true | _ => false end.

(** [isinstance(e, ValueError)] *)
Definition is_ValueError (e : exn) : bool :=
  match e with ValueError _ => true | _ => false end.

(** [str(e)] *)
Definition str_exn (e : exn) : string :=
  match e with
  | AttributeError m | TypeError m | ValueError m | IntegrityError m
  | ProtectedError m | ValidationError m | RequestException _ m => m
  | KeyError k => "'" ++ k ++ "'"
  | DoesNotExist m => m ++ " matching query does not exist."
  | MultipleObjectsReturned m => "get() returned more than one " ++ m
  | InvalidOperation => "[<class 'decimal.InvalidOperation'>]"
  end.

Inductive res (A : Type) :=
| Ok (a : A)
| Raise (e : exn).
Arguments Ok {A} a.
Arguments Raise {A} e.

(** [d.get(k)]: the first binding of a key in a dict, [VNone] when absent. *)
Fixpoint dict_find (k : string) (kv : list (string * pyval)) : option pyval :=
  match kv with
  | [] => None
  | (k', v) :: rest => if String.eqb k k' then Some v else dict_find k rest
  end.

Definition dict_get (k : string) (kv : list (string * pyval)) : pyval :=
  match dict_find k kv with Some v => v | None => VNone end.

(** [d[k]] raises [KeyError] on a missing key. *)
Definition dict_item (k : string) (kv : list (string * pyval)) : res pyval :=
  match dict_find k kv with Some v => Ok v | None => Raise (KeyError k) end.

(** Truth value of a Python object ([not x], [x or y]). *)
Definition truthy (v : pyval) : bool :=
  match v with
  | VNone => false
  | VBool b => b
  | VInt n => negb (n =? 0)
  | VDec d => negb (d =? 0)
  | VFloat m _ => negb (m =? 0)
  | VStr s => negb (String.eqb s "")
  | VList l => match l with [] => false | _ => true end
  | VDict kv => match kv with [] => false | _ => true end
  end.

(** The numeric value, in hundredths, of an operand that [Decimal]
    arithmetic accepts: an [int] (and [bool], a subclass of [int]) or a
    [Decimal].  A [float], [None], [str], lists and dicts are refused. *)
Definition as_decimal (v : pyval) : option Decimal :=
  match v with
  | VInt n => Some (100 * n)
  | VBool b => Some (if b then 100 else 0)
  | VDec d => Some d
  | _ => None
  end.

(** [d < f] for a [Decimal] of [d] hundredths and the float m * 2^e:
    the two are compared by their exact values. *)
Definition decimal_lt_float (d : Decimal) (m e : Z) : bool :=
  if 0 <=? e then d <? 100 * m * 2 ^ e else d * 2 ^ (- e) <? 100 * m.

(** [balance < amount] with a [Decimal] on the left.  Comparison, unlike
    arithmetic, accepts a [float]. *)
Definition decimal_lt (balance : Decimal) (amount : pyval) : res bool :=
  match amount with
  | VFloat m e => Ok (decimal_lt_float balance m e)
  | _ =>
      match as_decimal amount with
      | Some a => Ok (balance <? a)
      | None => Raise (TypeError "'<' not supported between instances of 'decimal.Decimal' and the operand")
      end
  end.

(** [c.upper()] for one code point: the letters a..z, and the letters
    U+00E0..U+00FE except the division sign U+00F7, lie 32 above their
    upper-case forms. *)
Definition upper_char (c : ascii) : ascii :=
  let n := nat_of_ascii c in
  if ((97 <=? n) && (n <=? 122) || (224 <=? n) && (n <=? 254) && negb (n =? 247))%nat
  then ascii_of_nat (n - 32) else c.

(** [s.upper()] *)
Fixpoint upper (s : string) : string :=
  match s with
  | EmptyString => EmptyString
  | String c s' => String (upper_char c) (upper s')
  end.

(** [v.upper()] on a dynamic value: only [str] has the method. *)
Definition py_upper (v : pyval) : res string :=
  match v with
  | VStr s => Ok (upper s)
  | _ => Raise (AttributeError "object has no attribute 'upper'")
  end.

(** [s[:n]] *)
Definition prefix_of (n : nat) (s : string) : string := substring 0 n s.

(** ** The environment *)

(** What [requests.post] hands back: the status line and what
    [response.json()] does on the body. *)
Record HttpResponse := {
  status_code : Z;
  reason : string;
  json : res pyval
}.

Record Env := {
  (* django.conf.settings *)
  PAYSCRIBE_WEBHOOK_SECRET : string;
  PAYSCRIBE_API_KEY : string;
  PAYSCRIBE_BASE_URL : string;
  (* timezone.now(), uuid.uuid4().hex (32 lowercase hex digits),
     random.choices(ascii_uppercase + digits, k=10) *)
  now : Z;
  uuid4_hex : string;
  random_wallet_suffix : string;
  (* requests.post(url, json=payload, headers=headers) *)
  requests_post : string -> pyval -> list (string * string) -> res HttpResponse;
  (* json.loads(raw.decode('utf-8')) *)
  json_loads : list Byte.byte -> res pyval;
  (* rest_framework field conversion, [None] for a rejected value:
     CharField(max_length), DecimalField(max_digits, decimal_places,
     min_value), DateTimeField() *)
  CharField : nat -> pyval -> option string;
  DecimalField : nat -> nat -> option Decimal -> pyval -> option Decimal;
  DateTimeField : pyval -> option Z
}.

(** ** wallet/models.py *)

Module Wallet.
Record t := {
  id : Z;
  user : Z;
  balance : Decimal;
  wallet_id : string;
  virtual_account_number : option string;
  virtual_bank_name : option string;
  virtual_account_reference : option string;
  is_active : bool;
  created_at : Z;
  updated_at : Z
}.

Definition set_balance (b : Decimal) (w : t) : t :=
  {| id := id w; user := user w; balance := b; wallet_id := wallet_id w;
     virtual_account_number := virtual_account_number w;
     virtual_bank_name := virtual_bank_name w;
     virtual_account_reference := virtual_account_reference w;
     is_active := is_active w; created_at := created_at w;
     updated_at := updated_at w |}.

Definition set_wallet_id (s : string) (w : t) : t :=
  {| id := id w; user := user w; balance := balance w; wallet_id := s;
     virtual_account_number := virtual_account_number w;
     virtual_bank_name := virtual_bank_name w;
     virtual_account_reference := virtual_account_reference w;
     is_active := is_active w; created_at := created_at w;
     updated_at := updated_at w |}.

Definition set_updated_at (ts : Z) (w : t) : t :=
  {| id := id w; user := user w; balance := balance w; wallet_id := wallet_id w;
     virtual_account_number := virtual_account_number w;
     virtual_bank_name := virtual_bank_name w;
     virtual_account_reference := virtual_account_reference w;
     is_active := is_active w; created_at := created_at w;
     updated_at := ts |}.

Definition set_created_at (ts : Z) (w : t) : t :=
  {| id := id w; user := user w; balance := balance w; wallet_id := wallet_id w;
     virtual_account_number := virtual_account_number w;
     virtual_bank_name := virtual_bank_name w;
     virtual_account_reference := virtual_account_reference w;
     is_active := is_active w; created_at := ts;
     updated_at := updated_at w |}.

(** [generate_wallet_id] *)
Definition generate_wallet_id (env : Env) : string :=
  "NEXA" ++ random_wallet_suffix env.
End Wallet.

Module Transaction.
(** [TransactionType.choices] and [TransactionStatus.choices]: the
    stored values the model declares. *)
Definition TransactionType : list string :=
  ["DEPOSIT"; "WITHDRAWAL"; "TRANSFER"; "PAYMENT"; "AIRTIME"; "DATA"].
Definition TransactionStatus : list string :=
  ["PENDING"; "COMPLETED"; "FAILED"; "REVERSED"].

(** [wallet] and [recipient_wallet] hold the primary key of the wallet
    row they reference. *)
Record t := {
  id : Z;
  wallet : Z;
  amount : Decimal;
  transaction_type : string;
  status : string;
  reference : string;
  narration : option string;
  recipient_wallet : option Z;
  metadata : pyval;
  created_at : Z;
  updated_at : Z
}.

Definition set_recipient_wallet (r : option Z) (x : t) : t :=
  {| id := id x; wallet := wallet x; amount := amount x;
     transaction_type := transaction_type x; status := status x;
     reference := reference x; narration := narration x;
     recipient_wallet := r; metadata := metadata x;
     created_at := created_at x; updated_at := updated_at x |}.
End Transaction.

(** ** The database *)

Record Store := {
  wallets : gmap Z Wallet.t;
  transactions : list Transaction.t;
  txn_seq : Z
}.

Definition set_wallets (ws : gmap Z Wallet.t) (st : Store) : Store :=
  {| wallets := ws; transactions := transactions st; txn_seq := txn_seq st |}.

(** Database code: a state monad over the store, with exceptions.  The
    store that comes back with [Raise] holds the writes made before the
    exception. *)
Definition M (A : Type) : Type := Store -> res A * Store.

Definition ret {A} (a : A) : M A := fun st => (Ok a, st).
Definition raise {A} (e : exn) : M A := fun st => (Raise e, st).
Definition bind {A B} (m : M A) (k : A -> M B) : M B :=
  fun st => match m st with
            | (Ok a, st') => k a st'
            | (Raise e, st') => (Raise e, st')
            end.
Definition lift {A} (r : res A) : M A := fun st => (r, st).

Notation "x <- m ;; k" := (bind m (fun x => k))
  (at level 100, m at next level, right associativity).

(** [with transaction.atomic(): body]: when the body raises, the database
    is back to what it was on entry and the exception goes on. *)
Definition atomic {A} (body : M A) : M A :=
  fun st => match body st with
            | (Ok a, st') => (Ok a, st')
            | (Raise e, _) => (Raise e, st)
            end.

(** A [DecimalField(max_digits=12, decimal_places=2)] column holds the
    values below 10^10 in absolute value.  Writing another one raises
    [decimal.InvalidOperation]: on its way to the database the value is
    quantized to two decimal places in a context of 12 digits.  (Where
    the framework hands the value on as it is, what happens is up to the
    database; every statement below that needs a write to go through
    assumes a value that fits.) *)
Definition fits_decimal_12_2 (d : Decimal) : bool := Z.abs d <? 10 ^ 12.

(** [Transaction.objects.create(wallet=.., amount=.., ...)]: one INSERT.
    The amount must fit its column and [reference] is [unique=True].
    [create] does not run the field validators and does not check
    [choices].  The foreign key to the wallet is deferred: the database
    checks it when the enclosing transaction commits, and both callers
    have written the wallet row by then. *)
Definition Transaction_objects_create (env : Env) (wallet : Wallet.t)
    (amount : Decimal) (transaction_type status reference : string)
    (metadata : pyval) : M Transaction.t :=
  fun st =>
    if negb (fits_decimal_12_2 amount) then
      (Raise InvalidOperation, st)
    else if existsb (fun x => String.eqb (Transaction.reference x) reference)
                    (transactions st) then
      (Raise (IntegrityError "UNIQUE constraint failed: wallet_transaction.reference"), st)
    else
      let txn := {| Transaction.id := txn_seq st + 1;
                    Transaction.wallet := Wallet.id wallet;
                    Transaction.amount := amount;
                    Transaction.transaction_type := transaction_type;
                    Transaction.status := status;
                    Transaction.reference := reference;
                    Transaction.narration := None;
                    Transaction.recipient_wallet := None;
                    Transaction.metadata := metadata;
                    Transaction.created_at := now env;
                    Transaction.updated_at := now env |} in
      (Ok txn, {| wallets := wallets st;
                  transactions := txn :: transactions st;
                  txn_seq := txn_seq st + 1 |}).

(** Rows of the wallet table other than [pk] that satisfy [p]. *)
Definition other_wallet_with (p : Wallet.t -> bool) (pk : Z) (st : Store) : bool :=
  existsb (fun '(k, w) => negb (k =? pk) && p w) (map_to_list (wallets st)).

(** The object as [save] writes it.  An empty [wallet_id] is replaced by
    a generated one; [updated_at] is [auto_now]; [created_at] is
    [auto_now_add], set when the row is added. *)
Definition pre_save (env : Env) (adding : bool) (w : Wallet.t) : Wallet.t :=
  let w1 := if String.eqb (Wallet.wallet_id w) ""
            then Wallet.set_wallet_id (Wallet.generate_wallet_id env) w
            else w in
  let w2 := Wallet.set_updated_at (now env) w1 in
  if adding then Wallet.set_created_at (now env) w2 else w2.

(** The primary key has a row. *)
Definition has_row (pk : Z) (st : Store) : bool :=
  bool_decide (is_Some (wallets st !! pk)).

(** [Wallet.save]: every column of the object is written to the row of
    its primary key, which is added when there is none.  [user] and
    [wallet_id] are unique columns.  (The table of users is not part of
    the store: every user id counts as an existing user.) *)
Definition Wallet_save (env : Env) (w : Wallet.t) : M Wallet.t :=
  fun st =>
    let w2 := pre_save env (negb (has_row (Wallet.id w) st)) w in
    if negb (fits_decimal_12_2 (Wallet.balance w2)) then
      (Raise InvalidOperation, st)
    else if other_wallet_with (fun x => Wallet.user x =? Wallet.user w2) (Wallet.id w2) st then
      (Raise (IntegrityError "UNIQUE constraint failed: wallet_wallet.user_id"), st)
    else if other_wallet_with (fun x => String.eqb (Wallet.wallet_id x) (Wallet.wallet_id w2))
                              (Wallet.id w2) st then
      (Raise (IntegrityError "UNIQUE constraint failed: wallet_wallet.wallet_id"), st)
    else
      (Ok w2, set_wallets (<[Wallet.id w2 := w2]> (wallets st)) st).

(** [Wallet.objects.get(...)]: exactly one row must match. *)
Definition Wallet_objects_get (p : Wallet.t -> bool) : M Wallet.t :=
  fun st =>
    match List.filter p (map snd (map_to_list (wallets st))) with
    | [w] => (Ok w, st)
    | [] => (Raise (DoesNotExist "Wallet"), st)
    | _ => (Raise (MultipleObjectsReturned "Wallet"), st)
    end.

(** [wallet.delete()] under the declared policies: [Transaction.wallet] is
    [on_delete=PROTECT], so a wallet that owns a transaction is not
    deleted and [ProtectedError] is raised; [Transaction.recipient_wallet]
    is [on_delete=SET_NULL], so the transactions that name the wallet as
    recipient get [None] there and the wallet row is removed. *)
Definition Wallet_delete (w : Wallet.t) : M unit :=
  fun st =>
    if existsb (fun x => Transaction.wallet x =? Wallet.id w) (transactions st) then
      (Raise (ProtectedError "Cannot delete some instances of model 'Wallet' because they are referenced through protected foreign keys: 'Transaction.wallet'."), st)
    else
      let clear x :=
        match Transaction.recipient_wallet x with
        | Some r => if r =? Wallet.id w
                    then Transaction.set_recipient_wallet None x else x
        | None => x
        end in
      (Ok tt, {| wallets := delete (Wallet.id w) (wallets st);
                 transactions := map clear (transactions st);
                 txn_seq := txn_seq st |}).

(** ** wallet/services/transactions.py *)

Module TransactionService.

(** [generate_reference(prefix)] *)
Definition generate_reference (env : Env) (prefix : string) : string :=
  prefix ++ "-" ++ upper (prefix_of 8 (uuid4_hex env)).

(** [create_deposit(wallet, amount, reference=None, metadata=None)].
    The result carries the transaction and the caller's wallet object
    as the call leaves it. *)
Definition create_deposit (env : Env) (wallet : Wallet.t) (amount : Decimal)
    (reference : option string) (metadata : pyval)
  : M (Transaction.t * Wallet.t) :=
  let reference :=
    match reference with
    | Some r => if String.eqb r "" then generate_reference env "DEP" else r
    | None => generate_reference env "DEP"
    end in
  atomic (
    txn <- Transaction_objects_create env wallet amount "DEPOSIT" "SUCCESS"
             reference (if truthy metadata then metadata else VDict []) ;;
    let wallet := Wallet.set_balance (Wallet.balance wallet + amount) wallet in
    wallet <- Wallet_save env wallet ;;
    ret (txn, wallet)).

(** [create_vas_transaction(wallet, amount, service_type, metadata)] *)
Definition create_vas_transaction (env : Env) (wallet : Wallet.t)
    (amount : Decimal) (service_type : string) (metadata : pyval)
  : M (Transaction.t * Wallet.t) :=
  let reference := generate_reference env (upper (prefix_of 3 service_type)) in
  atomic (
    txn <- Transaction_objects_create env wallet amount service_type "SUCCESS"
             reference metadata ;;
    let wallet := Wallet.set_balance (Wallet.balance wallet - amount) wallet in
    wallet <- Wallet_save env wallet ;;
    ret (txn, wallet)).

End TransactionService.

(** ** hashlib.sha256, hmac.new(...).hexdigest() and hmac.compare_digest

    The digest of FIPS 180-4 on 32-bit words kept in [Z], the keyed hash of
    RFC 2104 over it, and the comparison loop of CPython's [_tscmp]. *)

Module Sha256.

Definition add32 (x y : Z) : Z := (x + y) mod 2 ^ 32.
Definition not32 (x : Z) : Z := Z.lxor x 0xFFFFFFFF.
Definition rotr (n x : Z) : Z :=
  Z.lor (Z.shiftr x n) (Z.land (Z.shiftl x (32 - n)) 0xFFFFFFFF).

Definition Ch (x y z : Z) : Z := Z.lxor (Z.land x y) (Z.land (not32 x) z).
Definition Maj (x y z : Z) : Z :=
  Z.lxor (Z.lxor (Z.land x y) (Z.land x z)) (Z.land y z).
Definition Sigma0 (x : Z) : Z := Z.lxor (Z.lxor (rotr 2 x) (rotr 13 x)) (rotr 22 x).
Definition Sigma1 (x : Z) : Z := Z.lxor (Z.lxor (rotr 6 x) (rotr 11 x)) (rotr 25 x).
Definition sigma0 (x : Z) : Z := Z.lxor (Z.lxor (rotr 7 x) (rotr 18 x)) (Z.shiftr x 3).
Definition sigma1 (x : Z) : Z := Z.lxor (Z.lxor (rotr 17 x) (rotr 19 x)) (Z.shiftr x 10).

(** The round constants are the first 32 bits of the fractional parts of
    the cube roots of the first 64 primes, and the initial hash value the
    same for the square roots of the first 8 primes (FIPS 180-4, 4.2.2 and
    5.3.3).  They are computed from that description. *)
Definition is_prime (n : Z) : bool :=
  (1 <? n) && forallb (fun d => negb (n mod Z.of_nat d =? 0)) (seq 2 (Z.to_nat n - 2)).

Definition primes : list Z :=
  List.filter is_prime (map Z.of_nat (seq 2 310)).

(** The integer cube root, one bit at a time from bit [bits - 1] down. *)
Fixpoint cube_root (bits : nat) (n r : Z) : Z :=
  match bits with
  | O => r
  | S b =>
      let c := r + Z.shiftl 1 (Z.of_nat b) in
      if c * c * c <=? n then cube_root b n c else cube_root b n r
  end.

Definition K : list Z :=
  map (fun p => cube_root 36 (p * 2 ^ 96) 0 mod 2 ^ 32) (firstn 64 primes).

Definition root_word (p : Z) : Z := Z.sqrt (p * 2 ^ 64) mod 2 ^ 32.

(** The eight working words. *)
Record state := {
  ha : Z; hb : Z; hc : Z; hd : Z; he : Z; hf : Z; hg : Z; hh : Z
}.

Definition initial : state :=
  {| ha := root_word 2; hb := root_word 3; hc := root_word 5; hd := root_word 7;
     he := root_word 11; hf := root_word 13; hg := root_word 17; hh := root_word 19 |}.

(** Padding: 0x80, zeros up to 56 mod 64, the bit length on 8 bytes. *)
Definition be_bytes (n : nat) (x : Z) : list Z :=
  map (fun i => Z.land (Z.shiftr x (8 * Z.of_nat i)) 0xFF) (rev (seq 0 n)).

Definition pad (msg : list Z) : list Z :=
  let len := Z.of_nat (length msg) in
  let zeros := Z.to_nat ((55 - len) mod 64) in
  (msg ++ [0x80] ++ repeat 0 zeros ++ be_bytes 8 (8 * len))%list.

Definition be_word (b0 b1 b2 b3 : Z) : Z :=
  Z.lor (Z.lor (Z.lor (Z.shiftl b0 24) (Z.shiftl b1 16)) (Z.shiftl b2 8)) b3.

(** The big-endian words of a byte string (a trailing part shorter than
    four bytes is dropped; padded input has none). *)
Fixpoint words (bs : list Z) : list Z :=
  match bs with
  | b0 :: b1 :: b2 :: b3 :: rest => be_word b0 b1 b2 b3 :: words rest
  | _ => []
  end.

(** The message schedule, newest word first: [extend n] appends W_t for
    the next [n] values of t. *)
Fixpoint extend (n : nat) (w : list Z) : list Z :=
  match n with
  | O => w
  | S n' =>
      let wt := add32 (add32 (sigma1 (nth 1 w 0)) (nth 6 w 0))
                      (add32 (sigma0 (nth 14 w 0)) (nth 15 w 0)) in
      extend n' (wt :: w)
  end.

Definition schedule (block : list Z) : list Z := rev (extend 48 (rev block)).

Definition round (s : state) (kw : Z * Z) : state :=
  let t1 := add32 (add32 (add32 (hh s) (Sigma1 (he s))) (Ch (he s) (hf s) (hg s)))
                  (add32 (fst kw) (snd kw)) in
  let t2 := add32 (Sigma0 (ha s)) (Maj (ha s) (hb s) (hc s)) in
  {| ha := add32 t1 t2; hb := ha s; hc := hb s; hd := hc s;
     he := add32 (hd s) t1; hf := he s; hg := hf s; hh := hg s |}.

Definition compress (h : state) (block : list Z) : state :=
  let s := fold_left round (combine K (schedule block)) h in
  {| ha := add32 (ha h) (ha s); hb := add32 (hb h) (hb s);
     hc := add32 (hc h) (hc s); hd := add32 (hd h) (hd s);
     he := add32 (he h) (he s); hf := add32 (hf h) (hf s);
     hg := add32 (hg h) (hg s); hh := add32 (hh h) (hh s) |}.

(** The 16-word blocks of a word list. *)
Fixpoint blocks (fuel : nat) (ws : list Z) : list (list Z) :=
  match fuel, ws with
  | S fuel', _ :: _ => firstn 16 ws :: blocks fuel' (skipn 16 ws)
  | _, _ => []
  end.

Definition digest_words (msg : list Z) : state :=
  let ws := words (pad msg) in
  fold_left compress (blocks (length ws) ws) initial.

Definition state_words (s : state) : list Z :=
  [ha s; hb s; hc s; hd s; he s; hf s; hg s; hh s].

(** [hashlib.sha256(msg).digest()], 32 bytes. *)
Definition digest (msg : list Z) : list Z :=
  flat_map (be_bytes 4) (state_words (digest_words msg)).

End Sha256.

Module Hmac.

(** [hmac.new(key, msg, hashlib.sha256)]: keys longer than the block are
    hashed first, then zero-padded to the 64-byte block. *)
Definition block_key (key : list Z) : list Z :=
  let k := if (64 <? Z.of_nat (length key)) then Sha256.digest key else key in
  (k ++ repeat 0 (64 - length k)%nat)%list.

Definition inner (key msg : list Z) : list Z :=
  Sha256.digest (map (Z.lxor 0x36) (block_key key) ++ msg)%list.

Definition digest_words (key msg : list Z) : Sha256.state :=
  Sha256.digest_words (map (Z.lxor 0x5c) (block_key key) ++ inner key msg)%list.

(** One lowercase hexadecimal digit. *)
Definition hex_digit (n : Z) : ascii :=
  match String.get (Z.to_nat (Z.land n 15)) "0123456789abcdef" with
  | Some c => c
  | None => "0"%char
  end.

(** The eight digits of a 32-bit word, most significant first. *)
Definition hex_word (w : Z) : string :=
  fold_right (fun i s => String (hex_digit (Z.shiftr w (4 * Z.of_nat i))) s)
             EmptyString (rev (seq 0 8)).

(** [.hexdigest()] *)
Definition hexdigest (key msg : list Z) : string :=
  fold_right (fun w s => hex_word w ++ s) EmptyString
             (Sha256.state_words (digest_words key msg)).

(** The code points of a [str]. *)
Fixpoint code_points (s : string) : list Z :=
  match s with
  | EmptyString => []
  | String c s' => Z.of_nat (nat_of_ascii c) :: code_points s'
  end.

Definition is_ascii (s : string) : bool :=
  forallb (fun c => c <? 128) (code_points s).

(** CPython's [_tscmp]: the loop runs over the right operand, against
    itself when the lengths differ, and ors the differences. *)
Fixpoint tscmp_loop (left right : list Z) (result : Z) : Z :=
  match left, right with
  | l :: left', r :: right' => tscmp_loop left' right' (Z.lor result (Z.lxor l r))
  | _, _ => result
  end.

Definition tscmp (a b : list Z) : bool :=
  let same := Nat.eqb (length a) (length b) in
  tscmp_loop (if same then a else b) b (if same then 0 else 1) =? 0.

(** [hmac.compare_digest(a, b)] on two [str]: non-ASCII operands are
    refused with [TypeError]. *)
Definition compare_digest (a b : string) : res bool :=
  if is_ascii a && is_ascii b
  then Ok (tscmp (code_points a) (code_points b))
  else Raise (TypeError "comparing strings with non-ASCII characters is not supported").

End Hmac.

(** ** wallet/utils.py *)

(** [s.encode('utf-8')] for code points below 256. *)
Definition utf8_encode (s : string) : list Z :=
  flat_map (fun c => if c <? 128 then [c]
                     else [Z.lor 0xC0 (Z.shiftr c 6); Z.lor 0x80 (Z.land c 0x3F)])
           (Hmac.code_points s).

Definition bytes_to_Z (bs : list Byte.byte) : list Z :=
  map (fun b => Z.of_N (Byte.to_N b)) bs.

(** [verify_webhook_signature(payload, received_signature)] *)
Definition verify_webhook_signature (env : Env) (payload : list Byte.byte)
    (received_signature : string) : res bool :=
  let secret_key := utf8_encode (PAYSCRIBE_WEBHOOK_SECRET env) in
  let expected_signature := Hmac.hexdigest secret_key (bytes_to_Z payload) in
  Hmac.compare_digest expected_signature received_signature.

(** ** wallet/services/payscribe.py *)

Definition rbind {A B} (r : res A) (k : A -> res B) : res B :=
  match r with Ok a => k a | Raise e => Raise e end.

Notation "x <~ r ;; k" := (rbind r (fun x => k))
  (at level 100, r at next level, right associativity).

(** [v[k]] on a dynamic value: a dict is looked up, anything else cannot
    be indexed by a string. *)
Definition py_getitem (v : pyval) (k : string) : res pyval :=
  match v with
  | VDict kv => dict_item k kv
  | _ => Raise (TypeError "object is not subscriptable by 'str'")
  end.

Module PayscribeService.

Definition BASE_URL (env : Env) : string := PAYSCRIBE_BASE_URL env.

(** [response.raise_for_status()] *)
Definition raise_for_status (url : string) (response : HttpResponse) : res unit :=
  let code := status_code response in
  if (400 <=? code) && (code <? 500) then
    Raise (RequestException HTTPError
             (pretty code ++ " Client Error: " ++ reason response ++ " for url: " ++ url))
  else if (500 <=? code) && (code <? 600) then
    Raise (RequestException HTTPError
             (pretty code ++ " Server Error: " ++ reason response ++ " for url: " ++ url))
  else Ok tt.

Definition request_headers (env : Env) : list (string * string) :=
  [("Authorization", "Bearer " ++ PAYSCRIBE_API_KEY env);
   ("Content-Type", "application/json")].

(** The body of the [try] in [_make_request]. *)
Definition provider_reply (env : Env) (endpoint : string) (payload : pyval)
  : res (bool * pyval) :=
  let url := BASE_URL env ++ endpoint in
  response <~ requests_post env url payload (request_headers env) ;;
  _ <~ raise_for_status url response ;;
  body <~ json response ;;
  Ok (true, body).

(** [_make_request(endpoint, payload)]: only [RequestException] is
    handled; any other exception goes on to the caller. *)
Definition _make_request (env : Env) (endpoint : string) (payload : pyval)
  : res (bool * pyval) :=
  match provider_reply env endpoint payload with
  | Ok r => Ok r
  | Raise e =>
      if is_RequestException e then Ok (false, VStr (str_exn e)) else Raise e
  end.

Definition create_virtual_account (env : Env) (user_email wallet_id : pyval)
  : res (bool * pyval) :=
  let payload := VDict [("customer_email", user_email);
                        ("wallet_id", wallet_id);
                        ("is_permanent", VBool true)] in
  _make_request env "/virtual-accounts" payload.

Definition process_withdrawal (env : Env)
    (amount bank_details reference narration : pyval) : res (bool * pyval) :=
  bank_code <~ py_getitem bank_details "bank_code" ;;
  account_number <~ py_getitem bank_details "account_number" ;;
  account_name <~ py_getitem bank_details "account_name" ;;
  let payload := VDict [("amount", amount);
                        ("bank_code", bank_code);
                        ("account_number", account_number);
                        ("account_name", account_name);
                        ("reference", reference);
                        ("narration", narration)] in
  _make_request env "/payouts/bank" payload.

Definition buy_airtime (env : Env) (phone amount network : pyval)
  : res (bool * pyval) :=
  network_upper <~ py_upper network ;;
  let payload := VDict [("phone_number", phone);
                        ("amount", amount);
                        ("network", VStr network_upper)] in
  _make_request env "/vas/airtime" payload.

Definition buy_data (env : Env) (phone plan_code network : pyval)
  : res (bool * pyval) :=
  network_upper <~ py_upper network ;;
  let payload := VDict [("phone_number", phone);
                        ("plan_code", plan_code);
                        ("network", VStr network_upper)] in
  _make_request env "/vas/data" payload.

End PayscribeService.

(** ** wallet/serializers.py *)

(** A declared field read from the submitted dict: a required field must
    be present and convert; a field with [required=False] may be absent. *)
Definition required_field {A} (conv : pyval -> option A) (name : string)
    (kv : list (string * pyval)) : option A :=
  match dict_find name kv with
  | Some v => conv v
  | None => None
  end.

Definition optional_field {A} (conv : pyval -> option A) (name : string)
    (kv : list (string * pyval)) : option (option A) :=
  match dict_find name kv with
  | Some v => match conv v with Some a => Some (Some a) | None => None end
  | None => Some None
  end.

Record DepositWebhookData := {
  dw_reference : string;
  dw_amount : Decimal;
  dw_wallet_id : string;
  dw_timestamp : Z;
  dw_signature : string
}.

Record WithdrawalData := {
  wd_amount : Decimal;
  wd_bank_code : string;
  wd_account_number : string;
  wd_account_name : string;
  wd_narration : option string
}.

Record TransferData := {
  tr_amount : Decimal;
  tr_recipient_wallet_id : string;
  tr_narration : option string
}.

(** [serializer.is_valid(raise_exception=True)] followed by
    [serializer.validated_data], for each of the three input serializers. *)
Definition DepositWebhookSerializer (env : Env) (data : pyval) : res DepositWebhookData :=
  match data with
  | VDict kv =>
      match required_field (CharField env 100) "reference" kv,
            required_field (DecimalField env 12 2 None) "amount" kv,
            required_field (CharField env 20) "wallet_id" kv,
            required_field (DateTimeField env) "timestamp" kv,
            required_field (CharField env 200) "signature" kv with
      | Some r, Some a, Some w, Some t, Some s =>
          Ok {| dw_reference := r; dw_amount := a; dw_wallet_id := w;
                dw_timestamp := t; dw_signature := s |}
      | _, _, _, _, _ => Raise (ValidationError "invalid deposit webhook")
      end
  | _ => Raise (ValidationError "Invalid data. Expected a dictionary.")
  end.

Definition WithdrawalSerializer (env : Env) (data : pyval) : res WithdrawalData :=
  match data with
  | VDict kv =>
      match required_field (DecimalField env 12 2 (Some 1)) "amount" kv,
            required_field (CharField env 10) "bank_code" kv,
            required_field (CharField env 20) "account_number" kv,
            required_field (CharField env 100) "account_name" kv,
            optional_field (CharField env 200) "narration" kv with
      | Some a, Some b, Some n, Some m, Some nar =>
          Ok {| wd_amount := a; wd_bank_code := b; wd_account_number := n;
                wd_account_name := m; wd_narration := nar |}
      | _, _, _, _, _ => Raise (ValidationError "invalid withdrawal")
      end
  | _ => Raise (ValidationError "Invalid data. Expected a dictionary.")
  end.

Definition TransferSerializer (env : Env) (data : pyval) : res TransferData :=
  match data with
  | VDict kv =>
      match required_field (DecimalField env 12 2 (Some 1)) "amount" kv,
            required_field (CharField env 20) "recipient_wallet_id" kv,
            optional_field (CharField env 200) "narration" kv with
      | Some a, Some r, Some nar =>
          Ok {| tr_amount := a; tr_recipient_wallet_id := r; tr_narration := nar |}
      | _, _, _ => Raise (ValidationError "invalid transfer")
      end
  | _ => Raise (ValidationError "Invalid data. Expected a dictionary.")
  end.

(** [get_FOO_display]: the label of a declared choice, the stored value
    itself when it is not a declared choice. *)
Definition display (labels : list (string * string)) (value : string) : string :=
  match find (fun kl => String.eqb (fst kl) value) labels with
  | Some kl => snd kl
  | None => value
  end.

Definition TransactionType_labels : list (string * string) :=
  [("DEPOSIT", "Deposit"); ("WITHDRAWAL", "Withdrawal"); ("TRANSFER", "Transfer");
   ("PAYMENT", "Payment"); ("AIRTIME", "Airtime"); ("DATA", "Data")].

Definition TransactionStatus_labels : list (string * string) :=
  [("PENDING", "Pending"); ("COMPLETED", "Completed"); ("FAILED", "Failed");
   ("REVERSED", "Reversed")].

Definition opt_val {A} (f : A -> pyval) (o : option A) : pyval :=
  match o with Some a => f a | None => VNone end.

(** [TransactionSerializer(txn).data] *)
Definition TransactionSerializer (txn : Transaction.t) : pyval :=
  VDict [("id", VInt (Transaction.id txn));
         ("reference", VStr (Transaction.reference txn));
         ("amount", VDec (Transaction.amount txn));
         ("transaction_type",
           VStr (display TransactionType_labels (Transaction.transaction_type txn)));
         ("status", VStr (display TransactionStatus_labels (Transaction.status txn)));
         ("narration", opt_val VStr (Transaction.narration txn));
         ("recipient_wallet", opt_val VInt (Transaction.recipient_wallet txn));
         ("metadata", Transaction.metadata txn);
         ("created_at", VInt (Transaction.created_at txn))].

(** ** wallet/views.py *)

Record Request := {
  request_user : Z;                          (* request.user, authenticated *)
  request_body : list Byte.byte;             (* request.body *)
  request_headers : list (string * string);  (* request.headers *)
  request_data : list (string * pyval)       (* request.data *)
}.

Record Response := {
  response_data : pyval;
  response_status : Z
}.

Definition HTTP_200_OK : Z := 200.
Definition HTTP_400_BAD_REQUEST : Z := 400.
Definition HTTP_403_FORBIDDEN : Z := 403.
Definition HTTP_404_NOT_FOUND : Z := 404.
Definition HTTP_500_INTERNAL_SERVER_ERROR : Z := 500.

(** [request.headers.get(name, default)]; header names compare without
    regard to case. *)
Fixpoint headers_get (name default : string) (hs : list (string * string)) : string :=
  match hs with
  | [] => default
  | (k, v) :: rest =>
      if String.eqb (upper k) (upper name) then v else headers_get name default rest
  end.

(** [try: body except E1 as e: h1 except E2 as e: h2 ...]: the first
    clause whose class matches handles the exception; with none, it goes
    on. *)
Fixpoint dispatch {A} (clauses : list ((exn -> bool) * (exn -> M A))) (e : exn) : M A :=
  match clauses with
  | [] => raise e
  | (matches, handler) :: rest => if matches e then handler e else dispatch rest e
  end.

Definition try_clauses {A} (body : M A) (clauses : list ((exn -> bool) * (exn -> M A))) : M A :=
  fun st => match body st with
            | (Ok a, st') => (Ok a, st')
            | (Raise e, st') => dispatch clauses e st'
            end.

Definition Exception (e : exn) : bool := true.
Definition Wallet_DoesNotExist (e : exn) : bool :=
  match e with DoesNotExist "Wallet" => true | _ => false end.

Definition error_body (message : pyval) : pyval :=
  VDict [("status", VStr "error"); ("message", message)].

(** The names bound in the body of [class TransactionService]. *)
Definition TransactionService_attrs : list string :=
  ["generate_reference"; "create_deposit"; "create_vas_transaction"].

(** [TransactionService.name(...)] for a name that the class body does not
    bind: evaluating the attribute raises before any argument is used. *)
Definition TransactionService_undefined {A} (name : string) : M A :=
  raise (AttributeError
           ("type object 'TransactionService' has no attribute '" ++ name ++ "'")).

Definition by_user (u : Z) (w : Wallet.t) : bool := Wallet.user w =? u.
Definition by_wallet_id (s : string) (w : Wallet.t) : bool :=
  String.eqb (Wallet.wallet_id w) s.

(** [DepositWebhookView.post] *)
Definition DepositWebhookView_post (env : Env) (request : Request) : M Response :=
  try_clauses (
    let raw_body := request_body request in
    let received_signature :=
      headers_get "X-Payscribe-Signature" "" (request_headers request) in
    verified <- lift (verify_webhook_signature env raw_body received_signature) ;;
    if negb verified then
      ret {| response_data := error_body (VStr "Invalid signature");
             response_status := HTTP_403_FORBIDDEN |}
    else
      data <- lift (json_loads env raw_body) ;;
      validated <- lift (DepositWebhookSerializer env data) ;;
      let wallet_id := dw_wallet_id validated in
      let amount := dw_amount validated in
      let reference := dw_reference validated in
      try_clauses (
        wallet <- Wallet_objects_get (by_wallet_id wallet_id) ;;
        r <- TransactionService.create_deposit env wallet amount (Some reference)
               (VDict [("source", VStr "virtual_account"); ("webhook_data", data)]) ;;
        ret {| response_data := TransactionSerializer (fst r);
               response_status := HTTP_200_OK |})
      [(Wallet_DoesNotExist, fun _ =>
          ret {| response_data := error_body (VStr "Wallet not found");
                 response_status := HTTP_404_NOT_FOUND |})])
  [(Exception, fun e =>
      ret {| response_data := error_body (VStr (str_exn e));
             response_status := HTTP_400_BAD_REQUEST |})].

(** [WithdrawalView.post].  [create_withdrawal], [complete_withdrawal] and
    [fail_withdrawal] are not among [TransactionService_attrs]. *)
Definition WithdrawalView_post (env : Env) (request : Request) : M Response :=
  try_clauses (
    wallet <- Wallet_objects_get (by_user (request_user request)) ;;
    validated <- lift (WithdrawalSerializer env (VDict (request_data request))) ;;
    let amount := wd_amount validated in
    let bank_details := VDict [("bank_code", VStr (wd_bank_code validated));
                               ("account_number", VStr (wd_account_number validated));
                               ("account_name", VStr (wd_account_name validated))] in
    let narration := match wd_narration validated with Some n => n | None => "" end in
    txn <- TransactionService_undefined (A := Transaction.t) "create_withdrawal" ;;
    r <- lift (PayscribeService.process_withdrawal env (VDec amount) bank_details
                 (VStr (Transaction.reference txn)) (VStr narration)) ;;
    if fst r then
      _ <- TransactionService_undefined (A := unit) "complete_withdrawal" ;;
      ret {| response_data := TransactionSerializer txn;
             response_status := HTTP_200_OK |}
    else
      _ <- TransactionService_undefined (A := unit) "fail_withdrawal" ;;
      ret {| response_data := error_body (snd r);
             response_status := HTTP_400_BAD_REQUEST |})
  [(is_ValueError, fun e =>
      ret {| response_data := error_body (VStr (str_exn e));
             response_status := HTTP_400_BAD_REQUEST |});
   (Exception, fun _ =>
      ret {| response_data := error_body (VStr "Withdrawal processing failed");
             response_status := HTTP_500_INTERNAL_SERVER_ERROR |})].

(** [TransferView.post].  [create_transfer] is not among
    [TransactionService_attrs]. *)
Definition TransferView_post (env : Env) (request : Request) : M Response :=
  try_clauses (
    sender_wallet <- Wallet_objects_get (by_user (request_user request)) ;;
    validated <- lift (TransferSerializer env (VDict (request_data request))) ;;
    let amount := tr_amount validated in
    let recipient_wallet_id := tr_recipient_wallet_id validated in
    let narration := match tr_narration validated with Some n => n | None => "" end in
    try_clauses (
      recipient_wallet <- Wallet_objects_get (by_wallet_id recipient_wallet_id) ;;
      if Wallet.id sender_wallet =? Wallet.id recipient_wallet then
        ret {| response_data := error_body (VStr "Cannot transfer to your own wallet");
               response_status := HTTP_400_BAD_REQUEST |}
      else
        pair <- TransactionService_undefined (A := Transaction.t * Transaction.t)
                  "create_transfer" ;;
        ret {| response_data :=
                 VDict [("status", VStr "success");
                        ("outgoing_transaction", TransactionSerializer (fst pair));
                        ("incoming_transaction", TransactionSerializer (snd pair))];
               response_status := HTTP_200_OK |})
    [(Wallet_DoesNotExist, fun _ =>
        ret {| response_data := error_body (VStr "Recipient wallet not found");
               response_status := HTTP_404_NOT_FOUND |})])
  [(is_ValueError, fun e =>
      ret {| response_data := error_body (VStr (str_exn e));
             response_status := HTTP_400_BAD_REQUEST |});
   (Exception, fun _ =>
      ret {| response_data := error_body (VStr "Transfer processing failed");
             response_status := HTTP_500_INTERNAL_SERVER_ERROR |})].

(** The arithmetic [wallet.balance -= amount] on the raw [amount] of a
    request needs an [int] or a [Decimal]. *)
Definition vas_amount (amount : pyval) : M Decimal :=
  match as_decimal amount with
  | Some a => ret a
  | None => raise (TypeError "unsupported operand type(s) for -=: 'decimal.Decimal' and the operand")
  end.

(** The non-negative rational n/d rounded to an integer, ties to the even
    neighbour (ROUND_HALF_EVEN). *)
Definition round_half_even (n d : Z) : Z :=
  let q := n / d in
  let r := n mod d in
  if 2 * r <? d then q
  else if d <? 2 * r then q + 1
  else if Z.even q then q else q + 1.

(** The decimal exponent of the leading digit of the positive rational
    n/d, counted from [k]: the ratio is brought into [1, 10). *)
Fixpoint leading_exponent (fuel : nat) (n d k : Z) : Z :=
  match fuel with
  | O => k
  | S fuel' =>
      if 10 * d <=? n then leading_exponent fuel' n (10 * d) (k + 1)
      else if n <? d then leading_exponent fuel' (10 * n) d (k - 1)
      else k
  end.

(** The column value, in hundredths, that the INSERT prepares for the
    float m * 2^e: [DecimalField.to_python] converts a float in a context
    of 12 significant digits, and the value is then quantized to two
    decimal places; both steps round half to even. *)
Definition float_to_column (m e : Z) : Decimal :=
  let n := Z.abs m * 2 ^ Z.max e 0 in
  let d := 2 ^ Z.max (- e) 0 in
  if n =? 0 then 0
  else
    let k := leading_exponent (Z.to_nat (Z.log2 n + Z.log2 d + 2)) n d 0 - 11 in
    let c := if 0 <=? k then round_half_even n (d * 10 ^ k)
             else round_half_even (n * 10 ^ (- k)) d in
    let h := if -2 <=? k then c * 10 ^ (k + 2)
             else round_half_even c (10 ^ (- 2 - k)) in
    Z.sgn m * h.

(** [TransactionService.create_vas_transaction(wallet, amount, ...)] as
    the two handlers call it, with the [amount] of the request as it
    came.  An [int], a [bool] or a [Decimal] is the number that the
    method above takes.  A [float] is converted for the INSERT, and
    [wallet.balance -= amount] then raises [TypeError]: [Decimal] and
    [float] do not mix in arithmetic; the atomic block undoes the INSERT.
    The comparison with the balance has let no other operand come this
    far. *)
Definition create_vas_transaction_of (env : Env) (wallet : Wallet.t)
    (amount : pyval) (service_type : string) (metadata : pyval)
  : M (Transaction.t * Wallet.t) :=
  match amount with
  | VFloat m e =>
      let reference :=
        TransactionService.generate_reference env (upper (prefix_of 3 service_type)) in
      atomic (
        txn <- Transaction_objects_create env wallet (float_to_column m e) service_type
                 "SUCCESS" reference metadata ;;
        raise (TypeError "unsupported operand type(s) for -=: 'decimal.Decimal' and 'float'"))
  | _ =>
      a <- vas_amount amount ;;
      TransactionService.create_vas_transaction env wallet a service_type metadata
  end.

(** [TransactionSerializer(txn).data] for the object that
    [create_vas_transaction] returns: its [amount] attribute is still the
    value the caller passed, not the column value.  The serializer's
    decimal field converts a value that is no [Decimal] through [str]:
    that gives the digits of an [int], but ['True'] or ['False'] for a
    [bool], which [decimal.Decimal] refuses. *)
Definition TransactionSerializer_of (amount : pyval) (txn : Transaction.t) : res pyval :=
  match amount with
  | VBool _ => Raise InvalidOperation
  | _ => Ok (TransactionSerializer txn)
  end.

(** [AirtimeView.post]: no [try]; an exception leaves the handler. *)
Definition AirtimeView_post (env : Env) (request : Request) : M Response :=
  wallet <- Wallet_objects_get (by_user (request_user request)) ;;
  let phone := dict_get "phone" (request_data request) in
  let amount := dict_get "amount" (request_data request) in
  let network := dict_get "network" (request_data request) in
  short <- lift (decimal_lt (Wallet.balance wallet) amount) ;;
  if short then
    ret {| response_data := VDict [("error", VStr "Insufficient balance")];
           response_status := HTTP_400_BAD_REQUEST |}
  else
    r <- lift (PayscribeService.buy_airtime env phone amount network) ;;
    if fst r then
      txn <- create_vas_transaction_of env wallet amount "AIRTIME"
               (VDict [("phone", phone); ("network", network);
                       ("payscribe_response", snd r)]) ;;
      data <- lift (TransactionSerializer_of amount (fst txn)) ;;
      ret {| response_data := data; response_status := HTTP_200_OK |}
    else
      ret {| response_data := VDict [("error", snd r)];
             response_status := HTTP_400_BAD_REQUEST |}.

(** [DataView.post] *)
Definition DataView_post (env : Env) (request : Request) : M Response :=
  wallet <- Wallet_objects_get (by_user (request_user request)) ;;
  let phone := dict_get "phone" (request_data request) in
  let plan_code := dict_get "plan_code" (request_data request) in
  let network := dict_get "network" (request_data request) in
  let amount := dict_get "amount" (request_data request) in
  short <- lift (decimal_lt (Wallet.balance wallet) amount) ;;
  if short then
    ret {| response_data := VDict [("error", VStr "Insufficient balance")];
           response_status := HTTP_400_BAD_REQUEST |}
  else
    r <- lift (PayscribeService.buy_data env phone plan_code network) ;;
    if fst r then
      txn <- create_vas_transaction_of env wallet amount "DATA"
               (VDict [("phone", phone); ("plan", plan_code);
                       ("network", network);
                       ("payscribe_response", snd r)]) ;;
      data <- lift (TransactionSerializer_of amount (fst txn)) ;;
      ret {| response_data := data; response_status := HTTP_200_OK |}
    else
      ret {| response_data := VDict [("error", snd r)];
             response_status := HTTP_400_BAD_REQUEST |}.

(** ** The ledger as the specification reads it *)

(** The signed effect of a row on the balance of its wallet: a deposit
    credits; a withdrawal or a VAS purchase debits.  For a transfer row
    the direction is read off [recipient_wallet]: a credit when the row
    names its own wallet as recipient, a debit otherwise (the service
    writes no transfer row, so nothing below depends on this reading). *)
Definition signed_effect (t : Transaction.t) : Z :=
  let a := Transaction.amount t in
  let ty := Transaction.transaction_type t in
  if String.eqb ty "DEPOSIT" then a
  else if String.eqb ty "WITHDRAWAL" || String.eqb ty "AIRTIME" || String.eqb ty "DATA"
  then - a
  else if String.eqb ty "TRANSFER" then
    match Transaction.recipient_wallet t with
    | Some r => if r =? Transaction.wallet t then a else - a
    | None => - a
    end
  else 0.

(** The sum of the signed effects of the rows of wallet [pk] whose status
    is [status_value]. *)
Fixpoint ledger_sum (status_value : string) (pk : Z) (txns : list Transaction.t) : Z :=
  match txns with
  | [] => 0
  | t :: rest =>
      (if (Transaction.wallet t =? pk) && String.eqb (Transaction.status t) status_value
       then signed_effect t else 0) + ledger_sum status_value pk rest
  end.

Definition balance_invariant (status_value : string) (st : Store) : Prop :=
  forall pk w, wallets st !! pk = Some w ->
    Wallet.balance w = ledger_sum status_value pk (transactions st).

(** Every wallet row sits under its own primary key. *)
Definition keyed (st : Store) : Prop :=
  forall pk w, wallets st !! pk = Some w -> Wallet.id w = pk.

(** No two wallet rows share a user or a [wallet_id] (the two unique
    columns of the table). *)
Definition unique_wallets (st : Store) : Prop :=
  forall k1 k2 w1 w2,
    wallets st !! k1 = Some w1 -> wallets st !! k2 = Some w2 -> k1 <> k2 ->
    Wallet.user w1 <> Wallet.user w2 /\ Wallet.wallet_id w1 <> Wallet.wallet_id w2.

(** The wallet object as [Wallet.save] writes it, with balance [b], to
    the row it has ([saved]) and to the store [st], where it may have none
    ([written]). *)
Definition saved (env : Env) (b : Decimal) (w : Wallet.t) : Wallet.t :=
  pre_save env false (Wallet.set_balance b w).

Definition written (env : Env) (st : Store) (b : Decimal) (w : Wallet.t) : Wallet.t :=
  pre_save env (negb (has_row (Wallet.id w) st)) (Wallet.set_balance b w).

(** The row that [Transaction.objects.create] inserts. *)
Definition inserted (env : Env) (st : Store) (wallet : Wallet.t) (amount : Decimal)
    (transaction_type status reference : string) (metadata : pyval) : Transaction.t :=
  {| Transaction.id := txn_seq st + 1;
     Transaction.wallet := Wallet.id wallet;
     Transaction.amount := amount;
     Transaction.transaction_type := transaction_type;
     Transaction.status := status;
     Transaction.reference := reference;
     Transaction.narration := None;
     Transaction.recipient_wallet := None;
     Transaction.metadata := metadata;
     Transaction.created_at := now env;
     Transaction.updated_at := now env |}.

(** The atomic unit both service methods run: insert the row, write the
    wallet with its new balance. *)
Definition post_entry (env : Env) (wallet : Wallet.t) (amount new_balance : Decimal)
    (transaction_type reference : string) (metadata : pyval)
  : M (Transaction.t * Wallet.t) :=
  atomic (
    txn <- Transaction_objects_create env wallet amount transaction_type "SUCCESS"
             reference metadata ;;
    wallet <- Wallet_save env (Wallet.set_balance new_balance wallet) ;;
    ret (txn, wallet)).

(** The columns of a wallet that [save] writes as the object has them:
    the primary key, the owning user, the virtual-account binding and
    [is_active]. *)
Definition same_binding (w w' : Wallet.t) : Prop :=
  Wallet.id w' = Wallet.id w
  /\ Wallet.user w' = Wallet.user w
  /\ Wallet.virtual_account_number w' = Wallet.virtual_account_number w
  /\ Wallet.virtual_bank_name w' = Wallet.virtual_bank_name w
  /\ Wallet.virtual_account_reference w' = Wallet.virtual_account_reference w
  /\ Wallet.is_active w' = Wallet.is_active w.

(** The columns of a wallet other than [balance] and the [auto_now]
    timestamp. *)
Definition same_identity (w w' : Wallet.t) : Prop :=
  Wallet.id w' = Wallet.id w
  /\ Wallet.user w' = Wallet.user w
  /\ Wallet.wallet_id w' = Wallet.wallet_id w
  /\ Wallet.virtual_account_number w' = Wallet.virtual_account_number w
  /\ Wallet.virtual_bank_name w' = Wallet.virtual_bank_name w
  /\ Wallet.virtual_account_reference w' = Wallet.virtual_account_reference w
  /\ Wallet.is_active w' = Wallet.is_active w
  /\ Wallet.created_at w' = Wallet.created_at w.

(** What a call of a service method on the object [wallet], with
    [new_balance] as the balance it computes, does to the wallet table.
    No other row changes.  When the call raises, the row of the wallet
    does not change either.  When it returns, that row is the object the
    call leaves behind: it has the columns of [same_binding] from the
    object passed in, its [wallet_id] unless that was empty, and its
    [created_at] unless the row was added; [balance] and [updated_at] are
    written with new values. *)
Definition frame (env : Env) (wallet : Wallet.t) (new_balance : Decimal) (st : Store)
    (out : res (Transaction.t * Wallet.t) * Store) : Prop :=
  (forall pk : Z, pk <> Wallet.id wallet -> wallets (snd out) !! pk = wallets st !! pk)
  /\ match fst out with
     | Raise _ => wallets (snd out) !! Wallet.id wallet = wallets st !! Wallet.id wallet
     | Ok (_, w) =>
         wallets (snd out) !! Wallet.id wallet = Some w
         /\ same_binding wallet w
         /\ Wallet.wallet_id w = (if String.eqb (Wallet.wallet_id wallet) ""
                                  then Wallet.generate_wallet_id env
                                  else Wallet.wallet_id wallet)
         /\ Wallet.created_at w = (if has_row (Wallet.id wallet) st
                                   then Wallet.created_at wallet else now env)
         /\ Wallet.balance w = new_balance
         /\ Wallet.updated_at w = now env
     end.

(** ** Scenarios

    A closed environment and small stores on which the definitions are
    evaluated.  The provider is unreachable unless a scenario replaces
    [requests_post]; the field converters accept values that already have
    the Python type of the field. *)

Definition accept_str (max_length : nat) (v : pyval) : option string :=
  match v with
  | VStr s => if (String.length s <=? max_length)%nat then Some s else None
  | _ => None
  end.

Definition accept_decimal (max_digits decimal_places : nat) (min_value : option Decimal)
    (v : pyval) : option Decimal :=
  match v with
  | VDec d =>
      if fits_decimal_12_2 d && match min_value with Some m => m <=? d | None => true end
      then Some d else None
  | _ => None
  end.

Definition accept_timestamp (v : pyval) : option Z :=
  match v with VInt n => Some n | _ => None end.

Definition scenario_env : Env := {|
  PAYSCRIBE_WEBHOOK_SECRET := "whsec_test";
  PAYSCRIBE_API_KEY := "sk_test";
  PAYSCRIBE_BASE_URL := "https://api.payscribe.test/v1";
  now := 1700000000;
  uuid4_hex := "9f1c2e4ab7d34c1e8a5b0c6d7e8f9012";
  random_wallet_suffix := "Q7ZK2M9XPA";
  requests_post := fun _ _ _ => Raise (RequestException ConnectionError "Connection refused");
  json_loads := fun _ => Raise (ValueError "Expecting value: line 1 column 1 (char 0)");
  CharField := accept_str;
  DecimalField := accept_decimal;
  DateTimeField := accept_timestamp
|}.

(** The same environment with a provider that answers 200 with an empty
    JSON object. *)
Definition scenario_env_online : Env := {|
  PAYSCRIBE_WEBHOOK_SECRET := PAYSCRIBE_WEBHOOK_SECRET scenario_env;
  PAYSCRIBE_API_KEY := PAYSCRIBE_API_KEY scenario_env;
  PAYSCRIBE_BASE_URL := PAYSCRIBE_BASE_URL scenario_env;
  now := now scenario_env;
  uuid4_hex := uuid4_hex scenario_env;
  random_wallet_suffix := random_wallet_suffix scenario_env;
  requests_post := fun _ _ _ =>
    Ok {| status_code := 200; reason := "OK"; json := Ok (VDict []) |};
  json_loads := json_loads scenario_env;
  CharField := accept_str;
  DecimalField := accept_decimal;
  DateTimeField := accept_timestamp
|}.

Definition scenario_wallet (pk owner : Z) (wid : string) (b : Decimal) : Wallet.t :=
  {| Wallet.id := pk; Wallet.user := owner; Wallet.balance := b;
     Wallet.wallet_id := wid;
     Wallet.virtual_account_number := None;
     Wallet.virtual_bank_name := None;
     Wallet.virtual_account_reference := None;
     Wallet.is_active := true;
     Wallet.created_at := 1690000000;
     Wallet.updated_at := 1690000000 |}.

(** One wallet with balance [b] and no history. *)
Definition single_wallet_store (b : Decimal) : Store :=
  {| wallets := {[ 1 := scenario_wallet 1 10 "NEXA0A1B2C3D" b ]};
     transactions := [];
     txn_seq := 0 |}.

(** An object for the wallet of [single_wallet_store] that was read while
    the wallet was inactive and held 5000.00. *)
Definition stale_wallet : Wallet.t :=
  {| Wallet.id := 1; Wallet.user := 10; Wallet.balance := 500000;
     Wallet.wallet_id := "NEXA0A1B2C3D";
     Wallet.virtual_account_number := None;
     Wallet.virtual_bank_name := None;
     Wallet.virtual_account_reference := None;
     Wallet.is_active := false;
     Wallet.created_at := 1690000000;
     Wallet.updated_at := 1680000000 |}.

(** ** Sequences of ledger operations

    A step is a call of one of the two service methods on the wallet row
    with primary key [pk], as the handlers make it: the wallet object is
    the row just read from the store. *)

Inductive ledger_op :=
| Deposit (amount : Decimal) (reference : option string) (metadata : pyval)
| VasPurchase (amount : Decimal) (service_type : string) (metadata : pyval).

Definition apply_op (env : Env) (pk : Z) (op : ledger_op) (st : Store) : Store :=
  match wallets st !! pk with
  | None => st
  | Some wallet =>
      match op with
      | Deposit amount reference metadata =>
          snd (TransactionService.create_deposit env wallet amount reference metadata st)
      | VasPurchase amount service_type metadata =>
          snd (TransactionService.create_vas_transaction env wallet amount service_type
                 metadata st)
      end
  end.

Fixpoint apply_ops (steps : list (Env * Z * ledger_op)) (st : Store) : Store :=
  match steps with
  | [] => st
  | (env, pk, op) :: rest => apply_ops rest (apply_op env pk op st)
  end.

(** The handlers pass ['AIRTIME'] or ['DATA'] as [service_type]. *)
Definition vas_type_ok (step : Env * Z * ledger_op) : bool :=
  match snd step with
  | VasPurchase _ service_type _ =>
      String.eqb service_type "AIRTIME" || String.eqb service_type "DATA"
  | Deposit _ _ _ => true
  end.

(** ** References to a wallet *)

Definition owned_by (w : Wallet.t) (t : Transaction.t) : bool :=
  Transaction.wallet t =? Wallet.id w.

Definition names_recipient (w : Wallet.t) (t : Transaction.t) : bool :=
  match Transaction.recipient_wallet t with
  | Some r => r =? Wallet.id w
  | None => false
  end.

(** Some transaction references the wallet, as owner or as recipient. *)
Definition referenced (w : Wallet.t) (st : Store) : bool :=
  existsb (fun t => owned_by w t || names_recipient w t) (transactions st).

(** Two wallets and one transfer row owned by the first that names the
    second as recipient. *)
Definition transfer_row : Transaction.t :=
  {| Transaction.id := 1;
     Transaction.wallet := 1;
     Transaction.amount := 50000;
     Transaction.transaction_type := "TRANSFER";
     Transaction.status := "COMPLETED";
     Transaction.reference := "TRF-7C1D9E02";
     Transaction.narration := None;
     Transaction.recipient_wallet := Some 2;
     Transaction.metadata := VDict [];
     Transaction.created_at := 1695000000;
     Transaction.updated_at := 1695000000 |}.

Definition two_wallet_store : Store :=
  {| wallets := {[ 1 := scenario_wallet 1 10 "NEXA0A1B2C3D" 450000;
                   2 := scenario_wallet 2 20 "NEXA4E5F6A7B" 50000 ]};
     transactions := [transfer_row];
     txn_seq := 1 |}.

(** ** Calls of the gateway client *)

Inductive gateway_call :=
| CreateVirtualAccount (user_email wallet_id : pyval)
| ProcessWithdrawal (amount bank_details reference narration : pyval)
| BuyAirtime (phone amount network : pyval)
| BuyData (phone plan_code network : pyval).

Definition gateway_run (env : Env) (call : gateway_call) : res (bool * pyval) :=
  match call with
  | CreateVirtualAccount user_email wallet_id =>
      PayscribeService.create_virtual_account env user_email wallet_id
  | ProcessWithdrawal amount bank_details reference narration =>
      PayscribeService.process_withdrawal env amount bank_details reference narration
  | BuyAirtime phone amount network =>
      PayscribeService.buy_airtime env phone amount network
  | BuyData phone plan_code network =>
      PayscribeService.buy_data env phone plan_code network
  end.

(** The endpoint and the payload that a call posts, or the exception that
    building the payload raises before anything is sent. *)
Definition gateway_request (call : gateway_call) : res (string * pyval) :=
  match call with
  | CreateVirtualAccount user_email wallet_id =>
      Ok ("/virtual-accounts",
          VDict [("customer_email", user_email); ("wallet_id", wallet_id);
                 ("is_permanent", VBool true)])
  | ProcessWithdrawal amount bank_details reference narration =>
      bank_code <~ py_getitem bank_details "bank_code" ;;
      account_number <~ py_getitem bank_details "account_number" ;;
      account_name <~ py_getitem bank_details "account_name" ;;
      Ok ("/payouts/bank",
          VDict [("amount", amount); ("bank_code", bank_code);
                 ("account_number", account_number); ("account_name", account_name);
                 ("reference", reference); ("narration", narration)])
  | BuyAirtime phone amount network =>
      network_upper <~ py_upper network ;;
      Ok ("/vas/airtime",
          VDict [("phone_number", phone); ("amount", amount);
                 ("network", VStr network_upper)])
  | BuyData phone plan_code network =>
      network_upper <~ py_upper network ;;
      Ok ("/vas/data",
          VDict [("phone_number", phone); ("plan_code", plan_code);
                 ("network", VStr network_upper)])
  end.

(** ** Lowercase hexadecimal strings *)

Definition is_lower_hex_digit (c : ascii) : bool :=
  existsb (Ascii.eqb c) (list_ascii_of_string "0123456789abcdef").

Fixpoint all_chars (p : ascii -> bool) (s : string) : bool :=
  match s with
  | EmptyString => true
  | String c s' => p c && all_chars p s'
  end.

(** The expected signature of a payload under the configured secret. *)
Definition expected_signature (env : Env) (payload : list Byte.byte) : string :=
  Hmac.hexdigest (utf8_encode (PAYSCRIBE_WEBHOOK_SECRET env)) (bytes_to_Z payload).

(** ** Debiting endpoints *)

Inductive debit_endpoint :=
| WithdrawalEndpoint
| TransferEndpoint
| AirtimeEndpoint
| DataEndpoint.

Definition debit_post (env : Env) (endpoint : debit_endpoint) : Request -> M Response :=
  match endpoint with
  | WithdrawalEndpoint => WithdrawalView_post env
  | TransferEndpoint => TransferView_post env
  | AirtimeEndpoint => AirtimeView_post env
  | DataEndpoint => DataView_post env
  end.

(** The amount a request asks to debit, as the handler reads it: the
    validated [amount] for a withdrawal or a transfer, the numeric value
    of the raw [amount] for a VAS purchase. *)
Definition requested_amount (env : Env) (endpoint : debit_endpoint) (request : Request)
  : option Decimal :=
  match endpoint with
  | WithdrawalEndpoint =>
      match WithdrawalSerializer env (VDict (request_data request)) with
      | Ok validated => Some (wd_amount validated)
      | Raise _ => None
      end
  | TransferEndpoint =>
      match TransferSerializer env (VDict (request_data request)) with
      | Ok validated => Some (tr_amount validated)
      | Raise _ => None
      end
  | AirtimeEndpoint | DataEndpoint =>
      as_decimal (dict_get "amount" (request_data request))
  end.



(** Webhook requests.  The first carries no signature header; the second
    carries a one-character signature with code point 233. *)
Definition webhook_body : list Byte.byte :=
  list_byte_of_string "{}".

Definition unsigned_webhook : Request :=
  {| request_user := 0; request_body := webhook_body;
     request_headers := [("Content-Type", "application/json")];
     request_data := [] |}.

Definition non_ascii_webhook : Request :=
  {| request_user := 0; request_body := webhook_body;
     request_headers :=
       [("X-Payscribe-Signature", String (ascii_of_nat 233) EmptyString)];
     request_data := [] |}.

(** A withdrawal of 1000.00 and an airtime purchase of 5000 by user 10. *)
Definition withdrawal_request : Request :=
  {| request_user := 10; request_body := [];
     request_headers := [];
     request_data := [("amount", VDec 100000); ("bank_code", VStr "058");
                      ("account_number", VStr "1234567890");
                      ("account_name", VStr "Test User");
                      ("narration", VStr "Test withdrawal")] |}.

Definition airtime_request : Request :=
  {| request_user := 10; request_body := [];
     request_headers := [];
     request_data := [("phone", VStr "2348123456789"); ("amount", VInt 5000);
                      ("network", VStr "MTN")] |}.

(** A signed deposit webhook.  [flat_json] writes a flat dict of strings
    and integers as JSON text; the environment below parses that text back
    and converts JSON integers to amounts. *)
Definition dq : string := String (ascii_of_nat 34) EmptyString.

Definition flat_json (kv : list (string * pyval)) : string :=
  let item (p : string * pyval) :=
    dq ++ fst p ++ dq ++ ": " ++
    match snd p with
    | VStr s => dq ++ s ++ dq
    | VInt n => pretty n
    | _ => "null"
    end in
  "{" ++ String.concat ", " (map item kv) ++ "}".

Definition deposit_notice (amount : Z) (reference : string) : list (string * pyval) :=
  [("reference", VStr reference); ("amount", VInt amount);
   ("wallet_id", VStr "NEXA0A1B2C3D"); ("timestamp", VStr "2023-01-01T00:00:00Z");
   ("signature", VStr "provider")].

Definition scenario_env_webhook (notice : list (string * pyval)) : Env := {|
  PAYSCRIBE_WEBHOOK_SECRET := PAYSCRIBE_WEBHOOK_SECRET scenario_env;
  PAYSCRIBE_API_KEY := PAYSCRIBE_API_KEY scenario_env;
  PAYSCRIBE_BASE_URL := PAYSCRIBE_BASE_URL scenario_env;
  now := now scenario_env;
  uuid4_hex := uuid4_hex scenario_env;
  random_wallet_suffix := random_wallet_suffix scenario_env;
  requests_post := requests_post scenario_env;
  json_loads := fun raw =>
    if String.eqb (string_of_list_byte raw) (flat_json notice)
    then Ok (VDict notice) else json_loads scenario_env raw;
  CharField := accept_str;
  DecimalField := fun max_digits decimal_places min_value v =>
    match v with
    | VInt n => accept_decimal max_digits decimal_places min_value (VDec (100 * n))
    | _ => accept_decimal max_digits decimal_places min_value v
    end;
  DateTimeField := fun v =>
    match v with VStr "2023-01-01T00:00:00Z" => Some 1672531200 | _ => None end
|}.

(** The request the provider sends for a notice: the JSON text as body and
    its keyed digest in the signature header. *)
Definition signed_webhook (notice : list (string * pyval)) : Request :=
  let body := list_byte_of_string (flat_json notice) in
  {| request_user := 0; request_body := body;
     request_headers :=
       [("X-Payscribe-Signature", expected_signature scenario_env body)];
     request_data := notice |}.

(** ** wallet/views.py and wallet/serializers.py: the read handlers *)

(** [WalletSerializer(wallet).data] *)
Definition WalletSerializer (w : Wallet.t) : pyval :=
  VDict [("wallet_id", VStr (Wallet.wallet_id w));
         ("balance", VDec (Wallet.balance w));
         ("virtual_account_number", opt_val VStr (Wallet.virtual_account_number w));
         ("virtual_bank_name", opt_val VStr (Wallet.virtual_bank_name w));
         ("created_at", VInt (Wallet.created_at w))].

(** [WalletView.get]: no [try]; a missing wallet leaves the handler as
    [Wallet.DoesNotExist]. *)
Definition WalletView_get (request : Request) : M Response :=
  wallet <- Wallet_objects_get (by_user (request_user request)) ;;
  ret {| response_data := WalletSerializer wallet;
         response_status := HTTP_200_OK |}.

(** [.order_by('-created_at')]: newest first.  Rows with equal
    [created_at] come in the order the database picks; here a row goes
    in front of the rows that are not newer than it. *)
Fixpoint insert_newest_first (t : Transaction.t) (rows : list Transaction.t)
  : list Transaction.t :=
  match rows with
  | [] => [t]
  | x :: rest =>
      if Transaction.created_at x <=? Transaction.created_at t
      then t :: rows
      else x :: insert_newest_first t rest
  end.

Definition order_by_created_at_desc (rows : list Transaction.t) : list Transaction.t :=
  fold_right insert_newest_first [] rows.

(** [Transaction.objects.filter(wallet=wallet).order_by('-created_at')] *)
Definition Transaction_objects_filter_wallet (wallet : Wallet.t) : M (list Transaction.t) :=
  fun st =>
    (Ok (order_by_created_at_desc (List.filter (owned_by wallet) (transactions st))), st).

(** [TransactionHistoryView.get] *)
Definition TransactionHistoryView_get (request : Request) : M Response :=
  wallet <- Wallet_objects_get (by_user (request_user request)) ;;
  rows <- Transaction_objects_filter_wallet wallet ;;
  ret {| response_data := VList (map TransactionSerializer rows);
         response_status := HTTP_200_OK |}.

(** ** The handlers that read or write the ledger *)

Inductive endpoint :=
| WalletDetail          (* WalletView.get *)
| DepositWebhook        (* DepositWebhookView.post *)
| Withdraw              (* WithdrawalView.post *)
| Transfer              (* TransferView.post *)
| TransactionHistory    (* TransactionHistoryView.get *)
| BuyAirtimeEndpoint    (* AirtimeView.post *)
| BuyDataEndpoint.      (* DataView.post *)

Definition serve (env : Env) (e : endpoint) (request : Request) : M Response :=
  match e with
  | WalletDetail => WalletView_get request
  | DepositWebhook => DepositWebhookView_post env request
  | Withdraw => WithdrawalView_post env request
  | Transfer => TransferView_post env request
  | TransactionHistory => TransactionHistoryView_get request
  | BuyAirtimeEndpoint => AirtimeView_post env request
  | BuyDataEndpoint => DataView_post env request
  end.

(** A run of the service: each call has its own environment (clock,
    uuid, provider answers), endpoint and request; the store of one call
    is the input of the next, whether the call answered or raised. *)
Fixpoint serve_all (calls : list (Env * endpoint * Request)) (st : Store) : Store :=
  match calls with
  | [] => st
  | (env, e, request) :: rest => serve_all rest (snd (serve env e request st))
  end.

(** The ledger is well formed: rows sit under their primary key, no two
    wallets share a user or a wallet id, no two transactions share a
    reference, and every balance is the signed sum of the wallet's rows
    with the status the service writes. *)
Definition unique_references (st : Store) : Prop :=
  NoDup (map Transaction.reference (transactions st)).

Definition well_formed (st : Store) : Prop :=
  keyed st /\ unique_wallets st /\ unique_references st
  /\ balance_invariant "SUCCESS" st.

(** Newest first. *)
Fixpoint newest_first (rows : list Transaction.t) : Prop :=
  match rows with
  | [] => True
  | x :: rest =>
      (forall y, In y rest -> Transaction.created_at y <= Transaction.created_at x)
      /\ newest_first rest
  end.

(** What one call may do to the store: nothing, or one run of the atomic
    unit on a wallet row of the store with a new balance that differs from
    the old one by the signed effect of the row inserted. *)
Definition entry_effect (st st' : Store) : Prop :=
  st' = st
  \/ exists env wallet amount nb ty reference metadata,
      wallets st !! Wallet.id wallet = Some wallet
      /\ signed_effect (inserted env st wallet amount ty "SUCCESS" reference metadata)
         = nb - Wallet.balance wallet
      /\ st' = snd (post_entry env wallet amount nb ty reference metadata st).

(** The metadata that the webhook handler stores with a deposit. *)
Definition webhook_metadata (data : pyval) : pyval :=
  VDict [("source", VStr "virtual_account"); ("webhook_data", data)].

(** The metadata that the airtime and data handlers store. *)
Definition airtime_metadata (request : Request) (response : pyval) : pyval :=
  VDict [("phone", dict_get "phone" (request_data request));
         ("network", dict_get "network" (request_data request));
         ("payscribe_response", response)].

Definition data_metadata (request : Request) (response : pyval) : pyval :=
  VDict [("phone", dict_get "phone" (request_data request));
         ("plan", dict_get "plan_code" (request_data request));
         ("network", dict_get "network" (request_data request));
         ("payscribe_response", response)].

(** The provider call of each of the two handlers. *)
Definition airtime_call (env : Env) (request : Request) : res (bool * pyval) :=
  PayscribeService.buy_airtime env (dict_get "phone" (request_data request))
    (dict_get "amount" (request_data request))
    (dict_get "network" (request_data request)).

Definition data_call (env : Env) (request : Request) : res (bool * pyval) :=
  PayscribeService.buy_data env (dict_get "phone" (request_data request))
    (dict_get "plan_code" (request_data request))
    (dict_get "network" (request_data request)).

(** The course of a VAS purchase once the handler, its provider call, its
    service type and its metadata are fixed. *)
Definition vas_course (env : Env) (request : Request)
    (call : res (bool * pyval)) (service_type : string)
    (metadata : pyval -> pyval) (st : Store) : res Response * Store :=
  match Wallet_objects_get (by_user (request_user request)) st with
  | (Raise e, _) => (Raise e, st)
  | (Ok wallet, _) =>
      let amount := dict_get "amount" (request_data request) in
      match decimal_lt (Wallet.balance wallet) amount with
      | Raise e => (Raise e, st)
      | Ok true =>
          (Ok {| response_data := VDict [("error", VStr "Insufficient balance")];
                 response_status := HTTP_400_BAD_REQUEST |}, st)
      | Ok false =>
          match call with
          | Raise e => (Raise e, st)
          | Ok (false, detail) =>
              (Ok {| response_data := VDict [("error", detail)];
                     response_status := HTTP_400_BAD_REQUEST |}, st)
          | Ok (true, body) =>
              match create_vas_transaction_of env wallet amount service_type
                      (metadata body) st with
              | (Ok r, st') =>
                  match TransactionSerializer_of amount (fst r) with
                  | Ok data =>
                      (Ok {| response_data := data; response_status := HTTP_200_OK |}, st')
                  | Raise e => (Raise e, st')
                  end
              | (Raise e, _) => (Raise e, st)
              end
          end
      end
  end.

(** [isinstance(v, (int, float, Decimal))]: the operands that a [Decimal]
    compares with. *)
Definition is_number (v : pyval) : bool :=
  match v with
  | VBool _ | VInt _ | VDec _ | VFloat _ _ => true
  | _ => false
  end.

(** ** wallet/serializers.py: UserSerializer.validate_phone_number *)

(** [c.isdigit()] for a code point below 256: the ten ASCII digits and
    the superscripts two, three and one. *)
Definition is_digit_char (c : ascii) : bool :=
  let n := nat_of_ascii c in
  (((48 <=? n) && (n <=? 57)) || (n =? 178) || (n =? 179) || (n =? 185))%nat.

(** [s.isdigit()]: every character is a digit and there is at least one. *)
Definition isdigit (s : string) : bool :=
  negb (String.eqb s "") && all_chars is_digit_char s.

(** [validate_phone_number(value)] *)
Definition validate_phone_number (value : string) : res string :=
  if negb (isdigit value) then
    Raise (ValidationError "Phone number should contain only digits")
  else if (String.length value <? 11)%nat then
    Raise (ValidationError "Phone number should be at least 11 digits")
  else Ok value.

(** [User.phone_number]: [max_length=15], [MinLengthValidator(11)]. *)
Definition phone_number_max_length : nat := 15.
Definition phone_number_min_length : nat := 11.

(** ** test_endpoints.py *)

(** [s.zfill(width)] for an unsigned numeral. *)
Definition zfill (width : nat) (s : string) : string :=
  string_of_list_ascii (repeat "0"%char (width - String.length s)) ++ s.

(** [f"{x:0{width}d}"]: the sign, when there is one, counts in the width. *)
Definition format_0d (width : nat) (x : Z) : string :=
  match x with
  | Zneg p => "-" ++ zfill (width - 1) (pretty (Zpos p))
  | _ => zfill width (pretty x)
  end.

(** The [phone_number] of the fixture [test_user] (and of [main]):
    [f"234{timestamp%100000000:08d}"]. *)
Definition test_user_phone_number (timestamp : Z) : string :=
  "234" ++ format_0d 8 (timestamp mod 100000000).

(** [s.rstrip('/')] and [s.lstrip('/')] *)
Fixpoint rstrip_slash (s : string) : string :=
  match s with
  | EmptyString => EmptyString
  | String c s' =>
      let r := rstrip_slash s' in
      if Ascii.eqb c "/" && String.eqb r "" then EmptyString else String c r
  end.

Fixpoint lstrip_slash (s : string) : string :=
  match s with
  | String "/" s' => lstrip_slash s'
  | _ => s
  end.

(** [APITester.__init__] keeps [base_url.rstrip('/')]; [test_endpoint]
    requests [f"{self.base_url}/{endpoint.lstrip('/')}"]. *)
Definition APITester_url (base_url endpoint : string) : string :=
  rstrip_slash base_url ++ "/" ++ lstrip_slash endpoint.

(** The last character of a string, the first one. *)
Fixpoint last_char (s : string) : option ascii :=
  match s with
  | EmptyString => None
  | String c EmptyString => Some c
  | String _ s' => last_char s'
  end.

Definition first_char (s : string) : option ascii :=
  match s with EmptyString => None | String c _ => Some c end.

(** ** More scenarios *)

(** The store after a first deposit of 5000.00 under DEP-ABC123, and the
    wallet row it holds. *)
Definition funded_wallet : Wallet.t :=
  saved scenario_env 500000 (scenario_wallet 1 10 "NEXA0A1B2C3D" 0).

Definition funded_store : Store :=
  snd (TransactionService.create_deposit scenario_env
         (scenario_wallet 1 10 "NEXA0A1B2C3D" 0) 500000 (Some "DEP-ABC123") VNone
         (single_wallet_store 0)).

(** A notice for a wallet id that no wallet carries, and a notice without
    its [signature] field. *)
Definition unknown_wallet_notice : list (string * pyval) :=
  [("reference", VStr "DEP-0F0F0F0F"); ("amount", VInt 5000);
   ("wallet_id", VStr "NEXAFFFFFFFF"); ("timestamp", VStr "2023-01-01T00:00:00Z");
   ("signature", VStr "provider")].

Definition notice_without_signature : list (string * pyval) :=
  removelast (deposit_notice 5000 "DEP-ABC123").

(** Requests of user 10: an airtime purchase of 500, one with the amount
    as a string, and a request that reads. *)
Definition airtime_500_request : Request :=
  {| request_user := 10; request_body := []; request_headers := [];
     request_data := [("phone", VStr "2348123456789"); ("amount", VInt 500);
                      ("network", VStr "MTN")] |}.

Definition airtime_string_request : Request :=
  {| request_user := 10; request_body := []; request_headers := [];
     request_data := [("phone", VStr "2348123456789"); ("amount", VStr "500.00");
                      ("network", VStr "MTN")] |}.

(** The same purchase with the amount 500.5 (1001 * 2^-1), a JSON number
    with a fractional part, and with the amount [true]. *)
Definition airtime_float_request : Request :=
  {| request_user := 10; request_body := []; request_headers := [];
     request_data := [("phone", VStr "2348123456789"); ("amount", VFloat 1001 (-1));
                      ("network", VStr "MTN")] |}.

Definition airtime_bool_request : Request :=
  {| request_user := 10; request_body := []; request_headers := [];
     request_data := [("phone", VStr "2348123456789"); ("amount", VBool true);
                      ("network", VStr "MTN")] |}.

Definition read_request : Request :=
  {| request_user := 10; request_body := []; request_headers := [];
     request_data := [] |}.
(** ** Proofs *)

(** *** The service methods *)

Lemma saved_id env b w : Wallet.id (saved env b w) = Wallet.id w.
Proof. unfold saved, pre_save. destruct (String.eqb _ ""); reflexivity. Qed.

Lemma saved_balance env b w : Wallet.balance (saved env b w) = b.
Proof. unfold saved, pre_save. destruct (String.eqb _ ""); reflexivity. Qed.

Lemma saved_wallet_id env b w :
  Wallet.wallet_id w <> "" -> Wallet.wallet_id (saved env b w) = Wallet.wallet_id w.
Proof.
  intros Hne. unfold saved, pre_save. cbn.
  destruct (String.eqb_spec (Wallet.wallet_id w) ""); [contradiction|reflexivity].
Qed.

(** Whatever [Wallet.save] writes has a [wallet_id]. *)
Lemma saved_wallet_id_nonempty env b w : Wallet.wallet_id (saved env b w) <> "".
Proof.
  unfold saved, pre_save. cbn.
  destruct (String.eqb_spec (Wallet.wallet_id w) "") as [E|N]; cbn; [discriminate|exact N].
Qed.

(** For a wallet that has a row, [save] writes the object with its own
    [created_at]. *)
Lemma written_saved env st b w :
  is_Some (wallets st !! Wallet.id w) -> written env st b w = saved env b w.
Proof.
  intros Hrow. unfold written, saved, has_row.
  rewrite bool_decide_eq_true_2 by exact Hrow. reflexivity.
Qed.

Lemma written_id env st b w : Wallet.id (written env st b w) = Wallet.id w.
Proof.
  unfold written, pre_save.
  destruct (negb _); destruct (String.eqb _ ""); reflexivity.
Qed.

Lemma written_balance env st b w : Wallet.balance (written env st b w) = b.
Proof.
  unfold written, pre_save.
  destruct (negb _); destruct (String.eqb _ ""); reflexivity.
Qed.

Lemma written_user env st b w : Wallet.user (written env st b w) = Wallet.user w.
Proof.
  unfold written, pre_save.
  destruct (negb _); destruct (String.eqb _ ""); reflexivity.
Qed.

(** The two outcomes of the atomic unit: it raises and the store is the
    one before, or it returns the row inserted and the object written. *)
Lemma post_entry_cases env wallet amount nb ty reference metadata st :
  (exists e, post_entry env wallet amount nb ty reference metadata st = (Raise e, st))
  \/ (post_entry env wallet amount nb ty reference metadata st =
        (Ok (inserted env st wallet amount ty "SUCCESS" reference metadata,
             written env st nb wallet),
         {| wallets := <[Wallet.id wallet := written env st nb wallet]> (wallets st);
            transactions :=
              inserted env st wallet amount ty "SUCCESS" reference metadata
              :: transactions st;
            txn_seq := txn_seq st + 1 |})
      /\ fits_decimal_12_2 amount = true
      /\ fits_decimal_12_2 nb = true
      /\ existsb (fun x => String.eqb (Transaction.reference x) reference)
                 (transactions st) = false).
Proof.
  unfold post_entry, atomic, bind, Transaction_objects_create.
  destruct (fits_decimal_12_2 amount) eqn:Hamt; cbn [negb]; [|left; eauto].
  destruct (existsb _ (transactions st)) eqn:Hdup; [left; eauto|].
  unfold Wallet_save.
  change (has_row (Wallet.id (Wallet.set_balance nb wallet))
            {| wallets := wallets st;
               transactions :=
                 {| Transaction.id := txn_seq st + 1;
                    Transaction.wallet := Wallet.id wallet;
                    Transaction.amount := amount;
                    Transaction.transaction_type := ty;
                    Transaction.status := "SUCCESS";
                    Transaction.reference := reference;
                    Transaction.narration := None;
                    Transaction.recipient_wallet := None;
                    Transaction.metadata := metadata;
                    Transaction.created_at := now env;
                    Transaction.updated_at := now env |} :: transactions st;
               txn_seq := txn_seq st + 1 |})
    with (has_row (Wallet.id wallet) st).
  fold (written env st nb wallet).
  rewrite written_balance, written_id.
  destruct (fits_decimal_12_2 nb) eqn:Hnb; cbn [negb]; [|left; eauto].
  destruct (other_wallet_with _ _ _); [left; eauto|].
  destruct (other_wallet_with _ _ _); [left; eauto|].
  right. split; [reflexivity|]. auto.
Qed.

Lemma create_deposit_unfold env wallet amount reference metadata :
  TransactionService.create_deposit env wallet amount reference metadata =
  post_entry env wallet amount (Wallet.balance wallet + amount) "DEPOSIT"
    (match reference with
     | Some r => if String.eqb r "" then TransactionService.generate_reference env "DEP" else r
     | None => TransactionService.generate_reference env "DEP"
     end)
    (if truthy metadata then metadata else VDict []).
Proof. reflexivity. Qed.

Lemma create_vas_transaction_unfold env wallet amount service_type metadata :
  TransactionService.create_vas_transaction env wallet amount service_type metadata =
  post_entry env wallet amount (Wallet.balance wallet - amount) service_type
    (TransactionService.generate_reference env (upper (prefix_of 3 service_type)))
    metadata.
Proof. reflexivity. Qed.

(** The store after [post_entry], in both outcomes. *)
Lemma post_entry_store env wallet amount nb ty reference metadata st :
  let st' := snd (post_entry env wallet amount nb ty reference metadata st) in
  st' = st
  \/ (wallets st' = <[Wallet.id wallet := written env st nb wallet]> (wallets st)
      /\ transactions st' =
           inserted env st wallet amount ty "SUCCESS" reference metadata :: transactions st).
Proof.
  destruct (post_entry_cases env wallet amount nb ty reference metadata st)
    as [[e He]|[He _]]; cbn zeta; rewrite He; cbn; auto.
Qed.

(** *** Frame of the service methods *)

Lemma same_identity_saved env b w :
  Wallet.wallet_id w <> "" -> same_identity w (saved env b w).
Proof.
  intros Hne. unfold same_identity, saved, pre_save. cbn.
  destruct (String.eqb_spec (Wallet.wallet_id w) ""); [contradiction|].
  repeat split.
Qed.

Lemma post_entry_frame env wallet amount nb ty reference metadata st :
  frame env wallet nb st (post_entry env wallet amount nb ty reference metadata st).
Proof.
  unfold frame.
  destruct (post_entry_cases env wallet amount nb ty reference metadata st)
    as [[e He]|[He _]]; rewrite He; cbn [fst snd wallets].
  - split; reflexivity.
  - split; [intros pk Hpk; apply lookup_insert_ne; congruence|].
    split; [apply lookup_insert_eq|].
    unfold written, pre_save, same_binding.
    destruct (has_row (Wallet.id wallet) st); cbn [negb];
      destruct (String.eqb (Wallet.wallet_id wallet) "") eqn:Hw; cbn; rewrite ?Hw;
      repeat split.
Qed.

(** C10, as the code has it.  [create_deposit] and [create_vas_transaction],
    called on any wallet object in any store, change no row of another
    wallet.  A call that raises leaves the row of the wallet as it was.  A
    call that returns has written the row of the wallet from the object:
    the primary key, the owning user, the three virtual-account columns
    and [is_active] are those of the object, [wallet_id] too unless the
    object had none, [created_at] too unless the row was added; the
    columns written with a new value are [balance] and the [auto_now]
    timestamp [updated_at]. *)
Theorem service_methods_frame env st wallet amount reference service_type metadata :
  frame env wallet (Wallet.balance wallet + amount) st
    (TransactionService.create_deposit env wallet amount reference metadata st)
  /\ frame env wallet (Wallet.balance wallet - amount) st
       (TransactionService.create_vas_transaction env wallet amount service_type
          metadata st).
Proof.
  rewrite create_deposit_unfold, create_vas_transaction_unfold.
  split; apply post_entry_frame.
Qed.

(** C10 as stated fails on the deposit scenario.  Besides the balance, the
    row's [updated_at] is rewritten; and since [save] writes every column,
    a call on an object read earlier ([stale_wallet]: inactive, while the
    row is active) also overwrites [is_active] in the row. *)
Lemma service_methods_write_more_than_balance :
  let wallet := scenario_wallet 1 10 "NEXA0A1B2C3D" 500000 in
  let st := single_wallet_store 500000 in
  let run w :=
    snd (TransactionService.create_deposit scenario_env w 250000 (Some "DEP-ABC123")
           (VDict []) st) in
  wallets st !! 1 = Some wallet
  /\ (Wallet.updated_at <$> wallets st !! 1) = Some 1690000000
  /\ (Wallet.updated_at <$> wallets (run wallet) !! 1) = Some 1700000000
  /\ (Wallet.is_active <$> wallets st !! 1) = Some true
  /\ (Wallet.is_active <$> wallets (run stale_wallet) !! 1) = Some false.
Proof. cbn zeta. repeat split; vm_compute; reflexivity. Qed.

(** *** The balance against the ledger *)

Lemma post_entry_balance_invariant env wallet amount nb ty reference metadata st :
  keyed st ->
  balance_invariant "SUCCESS" st ->
  wallets st !! Wallet.id wallet = Some wallet ->
  signed_effect (inserted env st wallet amount ty "SUCCESS" reference metadata)
    = nb - Wallet.balance wallet ->
  let st' := snd (post_entry env wallet amount nb ty reference metadata st) in
  keyed st' /\ balance_invariant "SUCCESS" st'.
Proof.
  intros Hkey Hinv Hrow Heff.
  destruct (post_entry_store env wallet amount nb ty reference metadata st) as [E|[Ew Et]];
    cbn zeta in *.
  - rewrite E. auto.
  - split.
    + intros pk w. rewrite Ew, lookup_insert.
      case_decide as Hpk.
      * intros [= <-]. rewrite written_id. exact Hpk.
      * apply Hkey.
    + intros pk w. rewrite Ew, Et, lookup_insert.
      case_decide as Hpk.
      * intros [= <-]. subst pk. rewrite written_balance.
        cbn [ledger_sum]. rewrite <- (Hinv _ _ Hrow).
        change (Transaction.wallet (inserted env st wallet amount ty "SUCCESS" reference metadata))
          with (Wallet.id wallet).
        change (Transaction.status (inserted env st wallet amount ty "SUCCESS" reference metadata))
          with "SUCCESS".
        rewrite Z.eqb_refl, String.eqb_refl. cbn [andb]. rewrite Heff. lia.
      * intros Hw. cbn [ledger_sum].
        change (Transaction.wallet (inserted env st wallet amount ty "SUCCESS" reference metadata))
          with (Wallet.id wallet).
        assert ((Wallet.id wallet =? pk) = false) as -> by (apply Z.eqb_neq; exact Hpk).
        cbn [andb]. rewrite (Hinv _ _ Hw). lia.
Qed.

Lemma apply_op_balance_invariant env pk op st :
  vas_type_ok (env, pk, op) = true ->
  keyed st -> balance_invariant "SUCCESS" st ->
  keyed (apply_op env pk op st) /\ balance_invariant "SUCCESS" (apply_op env pk op st).
Proof.
  intros Hty Hkey Hinv. unfold apply_op.
  destruct (wallets st !! pk) as [wallet|] eqn:Hrow; [|auto].
  pose proof (Hkey _ _ Hrow) as Hid. rewrite <- Hid in Hrow.
  destruct op as [amount reference metadata|amount service_type metadata].
  - rewrite create_deposit_unfold.
    apply post_entry_balance_invariant; auto.
    unfold signed_effect. cbn. lia.
  - rewrite create_vas_transaction_unfold.
    apply post_entry_balance_invariant; auto.
    unfold vas_type_ok in Hty. cbn [snd] in Hty.
    apply orb_true_iff in Hty as [Hty|Hty]; apply String.eqb_eq in Hty; subst service_type;
      unfold signed_effect; cbn; lia.
Qed.

(** For the status value that the service methods write, ['SUCCESS'], the
    balance of every wallet equals the signed sum of its rows after any
    sequence of deposits and VAS purchases. *)
Theorem balance_matches_SUCCESS_rows steps : forall st,
  forallb vas_type_ok steps = true ->
  keyed st -> balance_invariant "SUCCESS" st ->
  keyed (apply_ops steps st) /\ balance_invariant "SUCCESS" (apply_ops steps st).
Proof.
  induction steps as [|[[env pk] op] rest IH]; intros st Hty Hkey Hinv; cbn in *.
  - auto.
  - apply andb_true_iff in Hty as [Hop Hrest].
    destruct (apply_op_balance_invariant env pk op st Hop Hkey Hinv) as [Hkey' Hinv'].
    apply IH; assumption.
Qed.

Lemma single_wallet_store_invariant status_value :
  balance_invariant status_value (single_wallet_store 0).
Proof.
  intros pk w Hw. cbn in Hw.
  apply lookup_singleton_Some in Hw as [<- <-]. reflexivity.
Qed.

(** C1.  The deposit scenario of the specification, on the code: a wallet
    with balance 0.00 and no history receives a deposit of 5000.00 under
    reference DEP-ABC123.  The balance becomes 5000.00, the row is stored
    with status ['SUCCESS'], and the signed sum of the wallet's COMPLETED
    rows stays 0: the balance no longer equals it. *)
Theorem deposit_leaves_no_COMPLETED_row :
  let wallet := scenario_wallet 1 10 "NEXA0A1B2C3D" 0 in
  let st := single_wallet_store 0 in
  let st' := snd (TransactionService.create_deposit scenario_env wallet 500000
                    (Some "DEP-ABC123") VNone st) in
  balance_invariant "COMPLETED" st
  /\ (Wallet.balance <$> wallets st' !! 1) = Some 500000
  /\ map Transaction.status (transactions st') = ["SUCCESS"]
  /\ ledger_sum "COMPLETED" 1 (transactions st') = 0
  /\ ~ balance_invariant "COMPLETED" st'.
Proof.
  cbn zeta. split; [apply single_wallet_store_invariant|].
  split; [vm_compute; reflexivity|].
  split; [vm_compute; reflexivity|].
  split; [vm_compute; reflexivity|].
  intros Hinv.
  specialize (Hinv 1 (saved scenario_env 500000 (scenario_wallet 1 10 "NEXA0A1B2C3D" 0))).
  assert (Hrow : wallets (snd (TransactionService.create_deposit scenario_env
                     (scenario_wallet 1 10 "NEXA0A1B2C3D" 0) 500000
                     (Some "DEP-ABC123") VNone (single_wallet_store 0))) !! 1
                 = Some (saved scenario_env 500000 (scenario_wallet 1 10 "NEXA0A1B2C3D" 0)))
    by (vm_compute; reflexivity).
  specialize (Hinv Hrow). vm_compute in Hinv. discriminate.
Qed.

(** C4.  [create_deposit] evaluated on a wallet without history.
    A deposit of 5000.00 returns one DEPOSIT row with the given reference
    and adds 5000.00 to the balance, but the row's status is ['SUCCESS'],
    which is not COMPLETED and not one of [TransactionStatus].
    A deposit of -100.00, and one of 0.00, on a wallet holding 5000.00 is
    not refused: each returns a row, and the first lowers the balance to
    4900.00. *)
Theorem create_deposit_status_and_amount :
  let run b amount reference :=
    TransactionService.create_deposit scenario_env
      (scenario_wallet 1 10 "NEXA0A1B2C3D" b) amount (Some reference) VNone
      (single_wallet_store b) in
  (exists txn w,
      fst (run 0 500000 "DEP-ABC123") = Ok (txn, w)
      /\ transactions (snd (run 0 500000 "DEP-ABC123")) = [txn]
      /\ Transaction.transaction_type txn = "DEPOSIT"
      /\ Transaction.reference txn = "DEP-ABC123"
      /\ Transaction.status txn = "SUCCESS"
      /\ ~ In (Transaction.status txn) Transaction.TransactionStatus
      /\ (Wallet.balance <$> wallets (snd (run 0 500000 "DEP-ABC123")) !! 1) = Some 500000)
  /\ (exists txn w,
         fst (run 500000 (-10000) "DEP-NEG001") = Ok (txn, w)
         /\ transactions (snd (run 500000 (-10000) "DEP-NEG001")) = [txn]
         /\ Transaction.amount txn = -10000
         /\ (Wallet.balance <$> wallets (snd (run 500000 (-10000) "DEP-NEG001")) !! 1)
            = Some 490000)
  /\ (exists txn w,
         fst (run 500000 0 "DEP-ZERO01") = Ok (txn, w)
         /\ transactions (snd (run 500000 0 "DEP-ZERO01")) = [txn]).
Proof.
  cbn zeta. split; [|split].
  - eexists _, _. split; [vm_compute; reflexivity|].
    repeat split; try (vm_compute; reflexivity).
    cbn. intros [H|[H|[H|[H|[]]]]]; discriminate.
  - eexists _, _. split; [vm_compute; reflexivity|].
    repeat split; vm_compute; reflexivity.
  - eexists _, _. split; [vm_compute; reflexivity|].
    vm_compute; reflexivity.
Qed.

(** Whenever [create_deposit] returns, the row it returns has status
    ['SUCCESS'] and the wallet is written with [balance + amount]; no
    branch looks at the sign of [amount]. *)
Lemma create_deposit_returns env wallet amount reference metadata st txn w st' :
  TransactionService.create_deposit env wallet amount reference metadata st
    = (Ok (txn, w), st') ->
  Transaction.status txn = "SUCCESS"
  /\ Transaction.transaction_type txn = "DEPOSIT"
  /\ Transaction.amount txn = amount
  /\ Wallet.balance w = Wallet.balance wallet + amount
  /\ wallets st' !! Wallet.id wallet = Some w
  /\ transactions st' = txn :: transactions st.
Proof.
  rewrite create_deposit_unfold. intros H.
  match type of H with post_entry ?e ?wl ?a ?nb ?ty ?r ?m ?s = _ =>
    destruct (post_entry_cases e wl a nb ty r m s) as [[x Hx]|[Hx _]] end;
    rewrite Hx in H; [discriminate|].
  injection H as <- <- <-.
  repeat split; [apply written_balance|apply lookup_insert_eq].
Qed.

Lemma other_wallet_with_false p pk st :
  (forall k w, wallets st !! k = Some w -> k <> pk -> p w = false) ->
  other_wallet_with p pk st = false.
Proof.
  intros Hp. unfold other_wallet_with. apply not_true_iff_false. intros H.
  apply existsb_exists in H as [[k w] [Hin Hkw]].
  apply andb_true_iff in Hkw as [Hk Hw].
  apply negb_true_iff, Z.eqb_neq in Hk.
  apply list_elem_of_In, elem_of_map_to_list in Hin.
  rewrite (Hp k w Hin Hk) in Hw. discriminate.
Qed.

(** When the wallet is a row of a store with unique users and wallet ids,
    the amount and the new balance fit their columns and the reference is
    new, the atomic unit goes through: one row is inserted and the wallet
    row is written with the new balance. *)
Lemma post_entry_succeeds env wallet amount nb ty reference metadata st :
  wallets st !! Wallet.id wallet = Some wallet ->
  unique_wallets st ->
  Wallet.wallet_id wallet <> "" ->
  fits_decimal_12_2 amount = true ->
  fits_decimal_12_2 nb = true ->
  existsb (fun x => String.eqb (Transaction.reference x) reference) (transactions st)
    = false ->
  post_entry env wallet amount nb ty reference metadata st
  = (Ok (inserted env st wallet amount ty "SUCCESS" reference metadata,
         saved env nb wallet),
     {| wallets := <[Wallet.id wallet := saved env nb wallet]> (wallets st);
        transactions :=
          inserted env st wallet amount ty "SUCCESS" reference metadata
          :: transactions st;
        txn_seq := txn_seq st + 1 |}).
Proof.
  intros Hrow Huniq Hwid Hamt Hnb Hfresh.
  unfold post_entry, atomic, bind, Transaction_objects_create.
  rewrite Hamt, Hfresh. cbn [negb].
  unfold Wallet_save, has_row. cbn [wallets Wallet.id Wallet.set_balance].
  rewrite bool_decide_eq_true_2 by (rewrite Hrow; eauto). cbn [negb].
  fold (saved env nb wallet).
  destruct (same_identity_saved env nb wallet Hwid) as (Hid & Huser & Hw & _).
  rewrite saved_balance, Hid, Huser, Hw, Hnb. cbn [negb].
  rewrite !other_wallet_with_false; [reflexivity| |].
  - intros k w Hk Hne. apply String.eqb_neq.
    apply (Huniq k (Wallet.id wallet) w wallet Hk Hrow Hne).
  - intros k w Hk Hne. apply Z.eqb_neq.
    apply (Huniq k (Wallet.id wallet) w wallet Hk Hrow Hne).
Qed.

(** The part of the deposit contract that the code keeps: a deposit under
    a new reference returns one DEPOSIT row carrying that reference and
    adds exactly [amount] to the balance, in one atomic unit. *)
Lemma create_deposit_succeeds env wallet amount reference metadata st :
  wallets st !! Wallet.id wallet = Some wallet ->
  unique_wallets st ->
  Wallet.wallet_id wallet <> "" ->
  reference <> "" ->
  fits_decimal_12_2 amount = true ->
  fits_decimal_12_2 (Wallet.balance wallet + amount) = true ->
  existsb (fun x => String.eqb (Transaction.reference x) reference) (transactions st)
    = false ->
  exists txn w st',
    TransactionService.create_deposit env wallet amount (Some reference) metadata st
      = (Ok (txn, w), st')
    /\ transactions st' = txn :: transactions st
    /\ Transaction.transaction_type txn = "DEPOSIT"
    /\ Transaction.reference txn = reference
    /\ Transaction.amount txn = amount
    /\ wallets st' !! Wallet.id wallet = Some w
    /\ Wallet.balance w = Wallet.balance wallet + amount.
Proof.
  intros Hrow Huniq Hwid Href Hamt Hnb Hfresh.
  rewrite create_deposit_unfold.
  apply String.eqb_neq in Href. rewrite Href.
  rewrite (post_entry_succeeds env wallet amount _ "DEPOSIT" reference _ st)
    by assumption.
  eexists _, _, _. split; [reflexivity|].
  repeat split; [apply lookup_insert_eq|apply saved_balance].
Qed.

(** *** Deleting a wallet *)

(** A wallet that no transaction owns is deleted; the rows that named it
    as recipient have [recipient_wallet] set to [None] and keep their
    other columns. *)
Lemma wallet_delete_set_null st w :
  existsb (owned_by w) (transactions st) = false ->
  fst (Wallet_delete w st) = Ok tt
  /\ wallets (snd (Wallet_delete w st)) = delete (Wallet.id w) (wallets st)
  /\ transactions (snd (Wallet_delete w st))
     = map (fun t => if names_recipient w t
                     then Transaction.set_recipient_wallet None t else t)
           (transactions st).
Proof.
  intros Hfree. unfold Wallet_delete.
  change (existsb (fun x => Transaction.wallet x =? Wallet.id w) (transactions st))
    with (existsb (owned_by w) (transactions st)).
  rewrite Hfree. cbn. repeat split.
  apply map_ext. intros t. unfold names_recipient.
  destruct (Transaction.recipient_wallet t); reflexivity.
Qed.

(** C9, as the code has it.  A wallet that at least one transaction
    references as its owning wallet is not deleted: the call raises
    [ProtectedError] and the store, with every transaction in it, is the
    one before the call. *)
Theorem wallet_delete_protected st w :
  existsb (owned_by w) (transactions st) = true ->
  exists msg, Wallet_delete w st = (Raise (ProtectedError msg), st).
Proof.
  intros Hown. unfold Wallet_delete.
  change (existsb (fun x => Transaction.wallet x =? Wallet.id w) (transactions st))
    with (existsb (owned_by w) (transactions st)).
  rewrite Hown. eexists. reflexivity.
Qed.

Lemma wallet_delete_protected_witness :
  exists msg,
    Wallet_delete (scenario_wallet 1 10 "NEXA0A1B2C3D" 450000) two_wallet_store
    = (Raise (ProtectedError msg), two_wallet_store).
Proof.
  apply (wallet_delete_protected two_wallet_store
           (scenario_wallet 1 10 "NEXA0A1B2C3D" 450000)).
  reflexivity.
Defined.

(** C9 as stated fails for a wallet referenced only as [recipient_wallet]:
    the second wallet of [two_wallet_store] is referenced by the transfer
    row, yet deleting it succeeds, removes the wallet row and rewrites the
    referencing transaction. *)
Lemma wallet_delete_recipient_only :
  let bob := scenario_wallet 2 20 "NEXA4E5F6A7B" 50000 in
  referenced bob two_wallet_store = true
  /\ fst (Wallet_delete bob two_wallet_store) = Ok tt
  /\ wallets (snd (Wallet_delete bob two_wallet_store)) !! 2 = None
  /\ transactions (snd (Wallet_delete bob two_wallet_store))
     = [Transaction.set_recipient_wallet None transfer_row]
  /\ transactions (snd (Wallet_delete bob two_wallet_store))
     <> transactions two_wallet_store.
Proof.
  cbn zeta. repeat split; try (vm_compute; reflexivity).
  vm_compute. discriminate.
Qed.

(** *** The gateway client *)

Lemma gateway_run_request env call :
  gateway_run env call =
  (req <~ gateway_request call ;; PayscribeService._make_request env (fst req) (snd req)).
Proof.
  destruct call; cbn; unfold PayscribeService.create_virtual_account,
    PayscribeService.process_withdrawal, PayscribeService.buy_airtime,
    PayscribeService.buy_data; try reflexivity.
  - destruct (py_getitem bank_details "bank_code"); cbn; [|reflexivity].
    destruct (py_getitem bank_details "account_number"); cbn; [|reflexivity].
    destruct (py_getitem bank_details "account_name"); reflexivity.
  - destruct (py_upper network); reflexivity.
  - destruct (py_upper network); reflexivity.
Qed.

(** [_make_request] lets no [RequestException] through. *)
Lemma make_request_raises env endpoint payload e :
  PayscribeService._make_request env endpoint payload = Raise e ->
  is_RequestException e = false.
Proof.
  unfold PayscribeService._make_request.
  destruct (PayscribeService.provider_reply env endpoint payload) as [r|e'];
    [discriminate|].
  destruct (is_RequestException e') eqn:He; [discriminate|].
  intros [= <-]. exact He.
Qed.

(** Building the payload raises only [AttributeError], [KeyError] or
    [TypeError]: a [network] without [upper], a [bank_details] without one
    of its three keys or that is no dict. *)
Lemma gateway_request_raises call e :
  gateway_request call = Raise e ->
  match e with
  | AttributeError _ | KeyError _ | TypeError _ => True
  | _ => False
  end.
Proof.
  assert (Hitem : forall v k x, py_getitem v k = Raise x ->
            match x with KeyError _ | TypeError _ => True | _ => False end).
  { intros v k x. destruct v; cbn; try (intros [= <-]; exact I).
    unfold dict_item. destruct (dict_find k kv); [discriminate|].
    intros [= <-]. exact I. }
  assert (Hupper : forall v x, py_upper v = Raise x ->
            match x with AttributeError _ => True | _ => False end).
  { intros v x. destruct v; cbn; intros [= <-]; exact I. }
  destruct call; cbn.
  - discriminate.
  - destruct (py_getitem bank_details "bank_code") eqn:E1; cbn.
    2:{ intros [= <-]. apply Hitem in E1. destruct e0; auto. }
    destruct (py_getitem bank_details "account_number") eqn:E2; cbn.
    2:{ intros [= <-]. apply Hitem in E2. destruct e0; auto. }
    destruct (py_getitem bank_details "account_name") eqn:E3; cbn; [discriminate|].
    intros [= <-]. apply Hitem in E3. destruct e0; auto.
  - destruct (py_upper network) eqn:E; cbn; [discriminate|].
    intros [= <-]. apply Hupper in E. destruct e0; auto.
  - destruct (py_upper network) eqn:E; cbn; [discriminate|].
    intros [= <-]. apply Hupper in E. destruct e0; auto.
Qed.

(** C8.  For each of the four gateway operations, on the request it
    builds: when [requests.post] raises a [RequestException] (connection
    failure, timeout, ...) the call returns [(False, str(e))]; when the
    provider answers with a 4xx or 5xx status the call returns [False]
    with the error text; and no [RequestException] ever reaches the
    caller. *)
Theorem gateway_failure_is_returned env call endpoint payload :
  gateway_request call = Ok (endpoint, payload) ->
  let sent := requests_post env (PayscribeService.BASE_URL env ++ endpoint) payload
                (PayscribeService.request_headers env) in
  (forall e, sent = Raise e -> is_RequestException e = true ->
     gateway_run env call = Ok (false, VStr (str_exn e)))
  /\ (forall response, sent = Ok response ->
        400 <= status_code response < 600 ->
        exists detail, gateway_run env call = Ok (false, VStr detail))
  /\ (forall e, gateway_run env call = Raise e -> is_RequestException e = false).
Proof.
  intros Hreq sent. rewrite gateway_run_request, Hreq. cbn [rbind fst snd].
  split; [|split].
  - intros e Hsent He. unfold PayscribeService._make_request,
      PayscribeService.provider_reply. fold sent. rewrite Hsent. cbn. rewrite He.
    reflexivity.
  - intros response Hsent Hcode. unfold PayscribeService._make_request,
      PayscribeService.provider_reply. fold sent. rewrite Hsent. cbn [rbind].
    unfold PayscribeService.raise_for_status.
    destruct ((400 <=? status_code response) && (status_code response <? 500)) eqn:H4.
    + cbn. eexists. reflexivity.
    + assert (((500 <=? status_code response) && (status_code response <? 600)) = true)
        as ->.
      { apply andb_false_iff in H4. apply andb_true_iff. split; [|lia].
        destruct H4 as [H4|H4]; lia. }
      cbn. eexists. reflexivity.
  - intros e. apply make_request_raises.
Qed.

Lemma gateway_failure_is_returned_witness :
  gateway_run scenario_env (BuyAirtime (VStr "2348123456789") (VInt 500) (VStr "mtn"))
  = Ok (false, VStr "Connection refused").
Proof.
  refine (proj1 (gateway_failure_is_returned scenario_env
                   (BuyAirtime (VStr "2348123456789") (VInt 500) (VStr "mtn"))
                   "/vas/airtime"
                   (VDict [("phone_number", VStr "2348123456789"); ("amount", VInt 500);
                           ("network", VStr "MTN")])
                   _)
                (RequestException ConnectionError "Connection refused") _ _);
    reflexivity.
Defined.

(** *** The keyed digest and the comparison *)

(** The digests of FIPS 180-4 (appendix B.1 and the empty message) and the
    keyed digests of RFC 4231 (test cases 2 and 6) come out of the model. *)
Example sha256_constants :
  length Sha256.K = 64%nat
  /\ nth 0 Sha256.K 0 = 0x428a2f98
  /\ nth 63 Sha256.K 0 = 0xc67178f2
  /\ Sha256.ha Sha256.initial = 0x6a09e667
  /\ Sha256.hh Sha256.initial = 0x5be0cd19.
Proof. vm_compute. repeat split. Qed.

Example sha256_abc :
  fold_right (fun w s => Hmac.hex_word w ++ s) EmptyString
    (Sha256.state_words (Sha256.digest_words (Hmac.code_points "abc")))
  = "ba7816bf8f01cfea414140de5dae2223b00361a396177a9cb410ff61f20015ad".
Proof. vm_compute. reflexivity. Qed.

Example sha256_empty :
  fold_right (fun w s => Hmac.hex_word w ++ s) EmptyString
    (Sha256.state_words (Sha256.digest_words []))
  = "e3b0c44298fc1c149afbf4c8996fb92427ae41e4649b934ca495991b7852b855".
Proof. vm_compute. reflexivity. Qed.

Example hmac_rfc4231_case2 :
  Hmac.hexdigest (Hmac.code_points "Jefe") (Hmac.code_points "what do ya want for nothing?")
  = "5bdcc146bf60754e6a042426089575c75a003f089d2739839dec58b964ec3843".
Proof. vm_compute. reflexivity. Qed.

Example hmac_rfc4231_case6 :
  Hmac.hexdigest (repeat 0xaa 131)
    (Hmac.code_points "Test Using Larger Than Block-Size Key - Hash Key First")
  = "60e431591ee0b67f0d8a26aacbf5b77f8e0bc6213728c5140546040f0ee37f54".
Proof. vm_compute. reflexivity. Qed.

Lemma all_chars_app p s1 s2 :
  all_chars p (s1 ++ s2) = all_chars p s1 && all_chars p s2.
Proof.
  induction s1 as [|c s1 IH]; [reflexivity|].
  change (String c s1 ++ s2) with (String c (s1 ++ s2)). cbn [all_chars].
  rewrite IH. apply andb_assoc.
Qed.

Lemma length_app_string s1 s2 :
  String.length (s1 ++ s2) = (String.length s1 + String.length s2)%nat.
Proof.
  induction s1 as [|c s1 IH]; [reflexivity|].
  change (String c s1 ++ s2) with (String c (s1 ++ s2)). cbn [String.length].
  now rewrite IH.
Qed.

Lemma hex_digit_lower n : is_lower_hex_digit (Hmac.hex_digit n) = true.
Proof.
  unfold Hmac.hex_digit.
  change 15 with (Z.ones 4). rewrite Z.land_ones by lia.
  pose proof (Z.mod_pos_bound n (2 ^ 4) ltac:(lia)) as Hb.
  assert (Hk : (Z.to_nat (n mod 2 ^ 4) < 16)%nat) by lia.
  remember (Z.to_nat (n mod 2 ^ 4)) as k eqn:Ek. clear Ek Hb.
  do 16 (destruct k as [|k]; [reflexivity|]). lia.
Qed.

Lemma hex_word_lower w :
  all_chars is_lower_hex_digit (Hmac.hex_word w) = true
  /\ String.length (Hmac.hex_word w) = 8%nat.
Proof.
  unfold Hmac.hex_word. cbn [rev seq app fold_right all_chars String.length].
  rewrite !hex_digit_lower. split; reflexivity.
Qed.

(** [hexdigest] is 64 lowercase hexadecimal digits. *)
Lemma hexdigest_lower key msg :
  all_chars is_lower_hex_digit (Hmac.hexdigest key msg) = true
  /\ String.length (Hmac.hexdigest key msg) = 64%nat.
Proof.
  unfold Hmac.hexdigest, Sha256.state_words. cbn [fold_right].
  rewrite !all_chars_app, !length_app_string.
  repeat match goal with
         | |- context [Hmac.hex_word ?w] =>
             let Hc := fresh in let Hl := fresh in
             destruct (hex_word_lower w) as [Hc Hl]; rewrite Hc, Hl; clear Hc Hl
         end.
  split; reflexivity.
Qed.

Lemma lower_hex_is_ascii s :
  all_chars is_lower_hex_digit s = true -> Hmac.is_ascii s = true.
Proof.
  unfold Hmac.is_ascii.
  induction s as [|c s IH]; cbn; [reflexivity|].
  intros H. apply andb_true_iff in H as [Hc Hs]. rewrite (IH Hs), andb_true_r.
  unfold is_lower_hex_digit in Hc. cbn in Hc.
  repeat (apply orb_true_iff in Hc as [Hc|Hc];
          [apply Ascii.eqb_eq in Hc; subst c; reflexivity|]).
  discriminate.
Qed.

Lemma code_points_inj s1 : forall s2,
  Hmac.code_points s1 = Hmac.code_points s2 -> s1 = s2.
Proof.
  induction s1 as [|c1 s1 IH]; intros [|c2 s2]; cbn; try discriminate; [reflexivity|].
  intros [= Hc Hs]. f_equal; [|apply IH, Hs].
  apply Nat2Z.inj in Hc.
  rewrite <- (ascii_nat_embedding c1), <- (ascii_nat_embedding c2). now rewrite Hc.
Qed.

(** The accumulator of the comparison loop never returns to zero. *)
Lemma tscmp_loop_zero left : forall right result,
  Hmac.tscmp_loop left right result = 0 -> result = 0.
Proof.
  induction left as [|l left IH]; intros [|r right] result; cbn; auto.
  intros H. apply IH in H. apply Z.lor_eq_0_iff in H. tauto.
Qed.

Lemma tscmp_loop_eq left : forall right,
  length left = length right ->
  Hmac.tscmp_loop left right 0 = 0 <-> left = right.
Proof.
  induction left as [|l left IH]; intros [|r right]; cbn; try discriminate.
  - tauto.
  - intros [= Hlen]. split.
    + intros H. pose proof (tscmp_loop_zero _ _ _ H) as Hx.
      apply Z.lxor_eq in Hx. subst r. rewrite Z.lxor_nilpotent in H.
      f_equal. apply IH; assumption.
    + intros [= -> ->]. rewrite Z.lxor_nilpotent. apply IH; auto.
Qed.

(** The comparison loop decides equality. *)
Lemma tscmp_true a b : Hmac.tscmp a b = true <-> a = b.
Proof.
  unfold Hmac.tscmp. destruct (Nat.eqb_spec (length a) (length b)) as [Hlen|Hlen].
  - rewrite Z.eqb_eq. apply tscmp_loop_eq, Hlen.
  - split.
    + intros H. apply Z.eqb_eq, tscmp_loop_zero in H. discriminate.
    + intros ->. contradiction.
Qed.

Lemma compare_digest_true a b :
  Hmac.is_ascii a = true ->
  Hmac.compare_digest a b = Ok true <-> b = a.
Proof.
  intros Ha. unfold Hmac.compare_digest. rewrite Ha. cbn [andb].
  destruct (Hmac.is_ascii b) eqn:Hb.
  - split.
    + intros [= H]. apply tscmp_true, code_points_inj in H. auto.
    + intros ->. f_equal. apply tscmp_true. reflexivity.
  - split; [discriminate|]. intros ->. congruence.
Qed.

(** C7.  [verify_webhook_signature] returns [True] exactly when the
    received signature is the hexadecimal HMAC-SHA256 digest of the raw
    payload bytes under the UTF-8 bytes of the configured secret; that
    digest is 64 lowercase hexadecimal digits, and it is computed from the
    bytes as received, with no decoding in between. *)
Theorem verify_webhook_signature_iff env payload received_signature :
  (verify_webhook_signature env payload received_signature = Ok true
   <-> received_signature = expected_signature env payload)
  /\ expected_signature env payload
     = Hmac.hexdigest (utf8_encode (PAYSCRIBE_WEBHOOK_SECRET env))
         (map (fun b => Z.of_N (Byte.to_N b)) payload)
  /\ all_chars is_lower_hex_digit (expected_signature env payload) = true
  /\ String.length (expected_signature env payload) = 64%nat.
Proof.
  destruct (hexdigest_lower (utf8_encode (PAYSCRIBE_WEBHOOK_SECRET env))
              (bytes_to_Z payload)) as [Hhex Hlen].
  split; [|split; [reflexivity|split; assumption]].
  unfold verify_webhook_signature. apply compare_digest_true.
  apply lower_hex_is_ascii, Hhex.
Qed.

(** *** The handlers *)

(** A lookup does not write. *)
Lemma Wallet_objects_get_store p st : snd (Wallet_objects_get p st) = st.
Proof.
  unfold Wallet_objects_get.
  destruct (List.filter p (map snd (map_to_list (wallets st)))) as [|w [|w' l]];
    reflexivity.
Qed.

Lemma Wallet_objects_get_raises p st e st' :
  Wallet_objects_get p st = (Raise e, st') ->
  st' = st /\ is_ValueError e = false.
Proof.
  unfold Wallet_objects_get.
  destruct (List.filter p (map snd (map_to_list (wallets st)))) as [|w [|w' l]];
    intros [= <- <-]; auto.
Qed.

Lemma Wallet_objects_get_returns p st w st' :
  Wallet_objects_get p st = (Ok w, st') -> st' = st.
Proof.
  intros H. pose proof (Wallet_objects_get_store p st) as Hs.
  rewrite H in Hs. exact Hs.
Qed.

Lemma WithdrawalSerializer_raises env data e :
  WithdrawalSerializer env data = Raise e -> is_ValueError e = false.
Proof.
  unfold WithdrawalSerializer. destruct data; try (intros [= <-]; reflexivity).
  repeat match goal with
         | |- context [match ?x with Some _ => _ | None => _ end] => destruct x
         end; intros [= <-]; reflexivity.
Qed.

Lemma TransferSerializer_raises env data e :
  TransferSerializer env data = Raise e -> is_ValueError e = false.
Proof.
  unfold TransferSerializer. destruct data; try (intros [= <-]; reflexivity).
  repeat match goal with
         | |- context [match ?x with Some _ => _ | None => _ end] => destruct x
         end; intros [= <-]; reflexivity.
Qed.

(** The four methods the handlers call on [TransactionService] without the
    class defining them. *)
Lemma TransactionService_lacks :
  forallb (fun name => negb (existsb (String.eqb name) TransactionService_attrs))
    ["create_withdrawal"; "complete_withdrawal"; "fail_withdrawal"; "create_transfer"]
  = true.
Proof. reflexivity. Qed.

(** [WithdrawalView.post] writes nothing. *)
Lemma WithdrawalView_post_store env request st :
  snd (WithdrawalView_post env request st) = st.
Proof.
  unfold WithdrawalView_post, try_clauses, bind, lift.
  pose proof (Wallet_objects_get_store (by_user (request_user request)) st) as Hst.
  destruct (Wallet_objects_get (by_user (request_user request)) st) as [[wallet|e] st1];
    cbn [snd] in Hst; subst st1.
  - destruct (WithdrawalSerializer env (VDict (request_data request))) as [v|e]; cbn.
    + reflexivity.
    + destruct (is_ValueError e); reflexivity.
  - cbn. destruct (is_ValueError e); reflexivity.
Qed.

(** C5.  [WithdrawalView.post] on the code: for every request and every
    store the handler answers 500 "Withdrawal processing failed" and
    writes nothing.  The call [TransactionService.create_withdrawal]
    raises [AttributeError], which the last [except] clause turns into the
    500 answer; no PENDING WITHDRAWAL row is created, whatever the balance
    and the amount, and no failure is reported as insufficient funds. *)
Theorem WithdrawalView_post_always_fails env request st :
  WithdrawalView_post env request st
  = (Ok {| response_data := error_body (VStr "Withdrawal processing failed");
           response_status := HTTP_500_INTERNAL_SERVER_ERROR |}, st).
Proof.
  unfold WithdrawalView_post, try_clauses, bind.
  destruct (Wallet_objects_get (by_user (request_user request)) st) as [[wallet|e] st1] eqn:Hget.
  - apply Wallet_objects_get_returns in Hget. subst st1.
    unfold lift.
    destruct (WithdrawalSerializer env (VDict (request_data request))) as [v|e] eqn:Hser.
    + reflexivity.
    + apply WithdrawalSerializer_raises in Hser. cbn. rewrite Hser. reflexivity.
  - apply Wallet_objects_get_raises in Hget as [-> He].
    cbn. rewrite He. reflexivity.
Qed.

(** [TransferView.post] answers 400, 404 or 500 and writes nothing. *)
Lemma TransferView_post_writes_nothing env request st :
  exists resp,
    TransferView_post env request st = (Ok resp, st)
    /\ (response_status resp = HTTP_400_BAD_REQUEST
        \/ response_status resp = HTTP_404_NOT_FOUND
        \/ response_status resp = HTTP_500_INTERNAL_SERVER_ERROR).
Proof.
  unfold TransferView_post, try_clauses, bind.
  destruct (Wallet_objects_get (by_user (request_user request)) st) as [[sender|e] st1] eqn:Hget.
  - apply Wallet_objects_get_returns in Hget. subst st1.
    unfold lift.
    destruct (TransferSerializer env (VDict (request_data request))) as [v|e] eqn:Hser.
    + destruct (Wallet_objects_get (by_wallet_id (tr_recipient_wallet_id v)) st)
        as [[recipient|e] st1] eqn:Hrec.
      * apply Wallet_objects_get_returns in Hrec. subst st1.
        destruct (Wallet.id sender =? Wallet.id recipient).
        -- cbn. eexists. split; [reflexivity|]. cbn. auto.
        -- cbn. eexists. split; [reflexivity|]. cbn. auto.
      * pose proof Hrec as Hrec'. apply Wallet_objects_get_raises in Hrec' as [-> He].
        unfold Wallet_objects_get in Hrec.
        destruct (List.filter _ _) as [|w [|w' l]]; inversion Hrec; subst e; cbn;
          eexists; (split; [reflexivity|]); cbn; auto.
    + apply TransferSerializer_raises in Hser. cbn. rewrite Hser.
      eexists. split; [reflexivity|]. cbn. auto.
  - apply Wallet_objects_get_raises in Hget as [-> He].
    cbn. rewrite He. eexists. split; [reflexivity|]. cbn. auto.
Qed.



(** The comparison raises exactly on a received signature with a
    character outside ASCII; otherwise it returns. *)
Lemma verify_webhook_signature_outcome env payload received_signature :
  if Hmac.is_ascii received_signature
  then exists b, verify_webhook_signature env payload received_signature = Ok b
  else exists msg,
      verify_webhook_signature env payload received_signature = Raise (TypeError msg).
Proof.
  unfold verify_webhook_signature, Hmac.compare_digest.
  destruct (hexdigest_lower (utf8_encode (PAYSCRIBE_WEBHOOK_SECRET env))
              (bytes_to_Z payload)) as [Hhex _].
  rewrite (lower_hex_is_ascii _ Hhex). cbn [andb].
  destruct (Hmac.is_ascii received_signature); eexists; reflexivity.
Qed.

(** A webhook whose signature does not verify writes nothing, and the
    handler answers 403 when the received signature is an ASCII string
    and 400 when it is not (the comparison raises and the handler's
    [except Exception] answers). *)
Theorem DepositWebhookView_post_unverified env request st :
  let received_signature :=
    headers_get "X-Payscribe-Signature" "" (request_headers request) in
  verify_webhook_signature env (request_body request) received_signature <> Ok true ->
  exists body,
    DepositWebhookView_post env request st
    = (Ok {| response_data := body;
             response_status := if Hmac.is_ascii received_signature
                                then HTTP_403_FORBIDDEN
                                else HTTP_400_BAD_REQUEST |}, st).
Proof.
  intros received_signature Hbad.
  pose proof (verify_webhook_signature_outcome env (request_body request)
                received_signature) as Hout.
  unfold DepositWebhookView_post, try_clauses, bind, lift.
  fold received_signature.
  destruct (Hmac.is_ascii received_signature).
  - destruct Hout as [b Hb]. rewrite Hb.
    destruct b; [contradiction|]. cbn. eexists. reflexivity.
  - destruct Hout as [msg Hm]. rewrite Hm. cbn. eexists. reflexivity.
Qed.

Lemma DepositWebhookView_post_unverified_witness :
  exists body,
    DepositWebhookView_post scenario_env unsigned_webhook (single_wallet_store 0)
    = (Ok {| response_data := body; response_status := HTTP_403_FORBIDDEN |},
       single_wallet_store 0).
Proof.
  apply (DepositWebhookView_post_unverified scenario_env unsigned_webhook
           (single_wallet_store 0)).
  vm_compute. discriminate.
Defined.

(** C6.  The handler on a request whose signature header holds one
    character outside ASCII (code point 233): the signature does not
    verify, nothing is written, and the answer is 400 with the text of the
    [TypeError] that [hmac.compare_digest] raised, not the 403 that the
    handler gives every other unverified request. *)
Theorem non_ascii_signature_is_answered_400 :
  let received_signature :=
    headers_get "X-Payscribe-Signature" "" (request_headers non_ascii_webhook) in
  verify_webhook_signature scenario_env (request_body non_ascii_webhook)
    received_signature <> Ok true
  /\ DepositWebhookView_post scenario_env non_ascii_webhook (single_wallet_store 0)
     = (Ok {| response_data :=
                error_body (VStr "comparing strings with non-ASCII characters is not supported");
              response_status := HTTP_400_BAD_REQUEST |},
        single_wallet_store 0)
  /\ HTTP_400_BAD_REQUEST <> HTTP_403_FORBIDDEN.
Proof.
  cbn zeta. split; [vm_compute; discriminate|].
  split; [vm_compute; reflexivity|discriminate].
Qed.

(** *** The airtime and data handlers, branch by branch *)

(** The comparison with the balance on an [int], a [bool] or a [Decimal]. *)
Lemma decimal_lt_number balance amount a :
  as_decimal amount = Some a -> decimal_lt balance amount = Ok (balance <? a).
Proof. destruct amount; cbn; try discriminate; intros [= <-]; reflexivity. Qed.

(** [create_vas_transaction] on the amount of a request: when it raises,
    nothing is written; when it returns, the amount was an [int], a [bool]
    or a [Decimal] and the atomic unit went through with it. *)
Lemma create_vas_transaction_of_cases env wallet amount service_type metadata st :
  match create_vas_transaction_of env wallet amount service_type metadata st with
  | (Raise _, st') => st' = st
  | (Ok r, st') =>
      exists a,
        as_decimal amount = Some a
        /\ post_entry env wallet a (Wallet.balance wallet - a) service_type
             (TransactionService.generate_reference env (upper (prefix_of 3 service_type)))
             metadata st = (Ok r, st')
  end.
Proof.
  assert (Hnum : forall a, as_decimal amount = Some a ->
            match (x <- vas_amount amount ;;
                   TransactionService.create_vas_transaction env wallet x service_type
                     metadata) st with
            | (Raise _, st') => st' = st
            | (Ok r, st') =>
                exists a,
                  as_decimal amount = Some a
                  /\ post_entry env wallet a (Wallet.balance wallet - a) service_type
                       (TransactionService.generate_reference env
                          (upper (prefix_of 3 service_type)))
                       metadata st = (Ok r, st')
            end).
  { intros a Ha. unfold bind, vas_amount. rewrite Ha. cbn [ret].
    rewrite create_vas_transaction_unfold.
    match goal with |- context [post_entry ?e ?wl ?x ?nb ?t ?r ?m ?s] =>
      destruct (post_entry_cases e wl x nb t r m s) as [[err He]|[He _]]; rewrite He
    end; [reflexivity|eauto]. }
  destruct amount as [|b|n|d|fm fe|s|l|kv]; try (apply (Hnum _ eq_refl)); try reflexivity.
  cbn [create_vas_transaction_of]. unfold atomic, bind.
  destruct (Transaction_objects_create _ _ _ _ _ _ _ _) as [[txn|err] st1]; reflexivity.
Qed.

Lemma AirtimeView_post_course env request st :
  AirtimeView_post env request st
  = vas_course env request (airtime_call env request) "AIRTIME"
      (airtime_metadata request) st.
Proof.
  unfold AirtimeView_post, vas_course, airtime_call, airtime_metadata, bind, lift.
  pose proof (Wallet_objects_get_store (by_user (request_user request)) st) as Hst.
  destruct (Wallet_objects_get (by_user (request_user request)) st) as [[wallet|e] st1];
    cbn [snd] in Hst; subst st1; [|reflexivity].
  cbn zeta.
  destruct (decimal_lt _ _) as [[|]|e]; try reflexivity.
  destruct (PayscribeService.buy_airtime env _ _ _) as [[[|] body]|e]; try reflexivity.
  cbn [fst snd].
  match goal with |- context [create_vas_transaction_of ?e ?wl ?x ?t ?m ?s] =>
    pose proof (create_vas_transaction_of_cases e wl x t m s) as Hc;
    destruct (create_vas_transaction_of e wl x t m s) as [[r|err] s1]
  end.
  - destruct (TransactionSerializer_of _ (fst r)); reflexivity.
  - subst s1. reflexivity.
Qed.

Lemma DataView_post_course env request st :
  DataView_post env request st
  = vas_course env request (data_call env request) "DATA" (data_metadata request) st.
Proof.
  unfold DataView_post, vas_course, data_call, data_metadata, bind, lift.
  pose proof (Wallet_objects_get_store (by_user (request_user request)) st) as Hst.
  destruct (Wallet_objects_get (by_user (request_user request)) st) as [[wallet|e] st1];
    cbn [snd] in Hst; subst st1; [|reflexivity].
  cbn zeta.
  destruct (decimal_lt _ _) as [[|]|e]; try reflexivity.
  destruct (PayscribeService.buy_data env _ _ _) as [[[|] body]|e]; try reflexivity.
  cbn [fst snd].
  match goal with |- context [create_vas_transaction_of ?e ?wl ?x ?t ?m ?s] =>
    pose proof (create_vas_transaction_of_cases e wl x t m s) as Hc;
    destruct (create_vas_transaction_of e wl x t m s) as [[r|err] s1]
  end.
  - destruct (TransactionSerializer_of _ (fst r)); reflexivity.
  - subst s1. reflexivity.
Qed.

(** The store after a purchase, whatever the answer: the one before, or
    the one that the atomic unit leaves for a numeric amount within the
    balance. *)
Lemma vas_course_store env request call service_type metadata st :
  let st' := snd (vas_course env request call service_type metadata st) in
  st' = st
  \/ exists wallet a body r,
      Wallet_objects_get (by_user (request_user request)) st = (Ok wallet, st)
      /\ as_decimal (dict_get "amount" (request_data request)) = Some a
      /\ (Wallet.balance wallet <? a) = false
      /\ call = Ok (true, body)
      /\ post_entry env wallet a (Wallet.balance wallet - a) service_type
           (TransactionService.generate_reference env (upper (prefix_of 3 service_type)))
           (metadata body) st = (Ok r, st').
Proof.
  cbn zeta. unfold vas_course.
  pose proof (Wallet_objects_get_store (by_user (request_user request)) st) as Hst.
  destruct (Wallet_objects_get (by_user (request_user request)) st) as [[wallet|e] st1];
    cbn [snd] in Hst; subst st1; [|left; reflexivity].
  cbn zeta.
  destruct (decimal_lt _ _) as [[|]|e] eqn:Hlt; try (left; reflexivity).
  destruct call as [[[|] body]|e]; try (left; reflexivity).
  match goal with |- context [create_vas_transaction_of ?e ?wl ?x ?t ?m ?s] =>
    pose proof (create_vas_transaction_of_cases e wl x t m s) as Hc;
    destruct (create_vas_transaction_of e wl x t m s) as [[r|err] s1]
  end; [|left; reflexivity].
  destruct Hc as (a & Ha & Hpost).
  rewrite (decimal_lt_number _ _ _ Ha) in Hlt. injection Hlt as Hlt.
  right. exists wallet, a, body, r.
  destruct (TransactionSerializer_of _ (fst r)); cbn [snd]; auto.
Qed.

(** *** No overdraft *)

Lemma vas_short_of_funds env request st wallet amount post :
  post = AirtimeView_post \/ post = DataView_post ->
  Wallet_objects_get (by_user (request_user request)) st = (Ok wallet, st) ->
  as_decimal (dict_get "amount" (request_data request)) = Some amount ->
  Wallet.balance wallet < amount ->
  post env request st
  = (Ok {| response_data := VDict [("error", VStr "Insufficient balance")];
           response_status := HTTP_400_BAD_REQUEST |}, st).
Proof.
  intros Hpost Hget Hamt Hlt.
  assert (Hshort : decimal_lt (Wallet.balance wallet)
                     (dict_get "amount" (request_data request)) = Ok true).
  { rewrite (decimal_lt_number _ _ _ Hamt). f_equal. apply Z.ltb_lt, Hlt. }
  destruct Hpost as [-> | ->].
  - unfold AirtimeView_post, bind, lift. rewrite Hget, Hshort. reflexivity.
  - unfold DataView_post, bind, lift. rewrite Hget, Hshort. reflexivity.
Qed.

(** C3.  A withdrawal, transfer, airtime or data request whose amount
    exceeds the balance of the caller's wallet, as the handler reads both,
    leaves the store as it was: no transaction row of any status is
    created and no balance moves, so none goes below zero. *)
Theorem no_overdraft env endpoint request st wallet amount :
  Wallet_objects_get (by_user (request_user request)) st = (Ok wallet, st) ->
  requested_amount env endpoint request = Some amount ->
  Wallet.balance wallet < amount ->
  snd (debit_post env endpoint request st) = st.
Proof.
  intros Hget Hamt Hlt. destruct endpoint; cbn [debit_post requested_amount] in *.
  - apply WithdrawalView_post_store.
  - destruct (TransferView_post_writes_nothing env request st) as [resp [-> _]]. reflexivity.
  - rewrite (vas_short_of_funds env request st wallet amount AirtimeView_post); auto.
  - rewrite (vas_short_of_funds env request st wallet amount DataView_post); auto.
Qed.

Lemma no_overdraft_witness :
  snd (debit_post scenario_env_online AirtimeEndpoint airtime_request
         (single_wallet_store 450000))
  = single_wallet_store 450000.
Proof.
  apply (no_overdraft scenario_env_online AirtimeEndpoint airtime_request
           (single_wallet_store 450000)
           (scenario_wallet 1 10 "NEXA0A1B2C3D" 450000) 500000).
  - vm_compute. reflexivity.
  - reflexivity.
  - vm_compute. reflexivity.
Defined.

(** A wallet that a lookup returns is a row of the store. *)
Lemma Wallet_objects_get_row p st w st' :
  Wallet_objects_get p st = (Ok w, st') ->
  exists pk, wallets st !! pk = Some w.
Proof.
  unfold Wallet_objects_get.
  destruct (List.filter p (map snd (map_to_list (wallets st)))) as [|w0 [|w1 l]] eqn:Hf;
    intros [= <- <-].
  assert (Hin : In w0 (List.filter p (map snd (map_to_list (wallets st)))))
    by (rewrite Hf; left; reflexivity).
  apply filter_In in Hin as [Hin _].
  apply in_map_iff in Hin as [[pk w'] [Hw Hin]]. cbn in Hw. subst w'.
  exists pk. apply elem_of_map_to_list, list_elem_of_In, Hin.
Qed.

(** The airtime and data handlers never take the caller's balance below
    zero: after the call the caller's row holds a balance that is still
    non-negative, whether the purchase went through or not. *)
Lemma vas_purchase_keeps_balance_nonnegative env request st wallet post :
  post = AirtimeView_post \/ post = DataView_post ->
  keyed st ->
  Wallet_objects_get (by_user (request_user request)) st = (Ok wallet, st) ->
  0 <= Wallet.balance wallet ->
  forall w', wallets (snd (post env request st)) !! Wallet.id wallet = Some w' ->
             0 <= Wallet.balance w'.
Proof.
  intros Hpost Hkey Hget Hpos.
  destruct (Wallet_objects_get_row _ _ _ _ Hget) as [pk Hrow].
  pose proof (Hkey _ _ Hrow) as Hid. subst pk.
  assert (Hcourse : forall call ty md w',
            wallets (snd (vas_course env request call ty md st)) !! Wallet.id wallet
              = Some w' ->
            0 <= Wallet.balance w').
  { intros call ty md w'.
    destruct (vas_course_store env request call ty md st)
      as [E|(wallet0 & a & body & r & Hget0 & Ha & Hge & _ & Hpost0)]; cbn zeta in *.
    - rewrite E, Hrow. intros [= <-]. exact Hpos.
    - rewrite Hget in Hget0. injection Hget0 as <-.
      match type of Hpost0 with post_entry ?e ?wl ?x ?nb ?t ?rf ?m ?s = _ =>
        destruct (post_entry_store e wl x nb t rf m s) as [E|[Ew _]]
      end; cbn zeta in *; rewrite Hpost0 in *; cbn [snd] in *.
      + rewrite E, Hrow. intros [= <-]. exact Hpos.
      + rewrite Ew, lookup_insert_eq. intros [= <-]. rewrite written_balance.
        apply Z.ltb_ge in Hge. lia. }
  destruct Hpost as [-> | ->].
  - rewrite AirtimeView_post_course. apply Hcourse.
  - rewrite DataView_post_course. apply Hcourse.
Qed.

(** The guard is the caller's: [create_vas_transaction] itself debits
    whatever it is given.  Called on a wallet holding 100.00 with amount
    500.00 it records the purchase and leaves the balance at -400.00. *)
Example create_vas_transaction_is_unguarded :
  let st' := snd (TransactionService.create_vas_transaction scenario_env
                    (scenario_wallet 1 10 "NEXA0A1B2C3D" 10000) 50000 "AIRTIME"
                    (VDict []) (single_wallet_store 10000)) in
  (Wallet.balance <$> wallets st' !! 1) = Some (-40000)
  /\ map Transaction.reference (transactions st') = ["AIR-9F1C2E4A"].
Proof. vm_compute. split; reflexivity. Qed.

(** *** The handlers on their success paths *)

(** A signed notice of 5000 for an empty wallet: 200, one DEPOSIT row with
    status ['SUCCESS'], balance 5000.00. *)
Example signed_webhook_deposits :
  let notice := deposit_notice 5000 "DEP-ABC123" in
  let out := DepositWebhookView_post (scenario_env_webhook notice) (signed_webhook notice)
               (single_wallet_store 0) in
  (response_status <$> (match fst out with Ok r => Some r | Raise _ => None end))
    = Some HTTP_200_OK
  /\ map (fun t => (Transaction.transaction_type t, Transaction.status t,
                    Transaction.reference t, Transaction.amount t))
         (transactions (snd out))
     = [("DEPOSIT", "SUCCESS", "DEP-ABC123", 500000)]
  /\ (Wallet.balance <$> wallets (snd out) !! 1) = Some 500000.
Proof. vm_compute. repeat split. Qed.

(** A signed notice with a negative amount goes through the same path:
    [DepositWebhookSerializer] sets no [min_value], and the balance goes
    down. *)
Example signed_webhook_negative_amount :
  let notice := deposit_notice (-100) "DEP-NEG001" in
  let out := DepositWebhookView_post (scenario_env_webhook notice) (signed_webhook notice)
               (single_wallet_store 500000) in
  (response_status <$> (match fst out with Ok r => Some r | Raise _ => None end))
    = Some HTTP_200_OK
  /\ map Transaction.amount (transactions (snd out)) = [-10000]
  /\ (Wallet.balance <$> wallets (snd out) !! 1) = Some 490000.
Proof. vm_compute. repeat split. Qed.

(** The same notice delivered twice is applied once: the second insert
    meets the unique [reference] and the handler answers 400. *)
Example duplicate_webhook_is_applied_once :
  let notice := deposit_notice 5000 "DEP-ABC123" in
  let env := scenario_env_webhook notice in
  let once := snd (DepositWebhookView_post env (signed_webhook notice)
                     (single_wallet_store 0)) in
  let out := DepositWebhookView_post env (signed_webhook notice) once in
  (response_status <$> (match fst out with Ok r => Some r | Raise _ => None end))
    = Some HTTP_400_BAD_REQUEST
  /\ snd out = once.
Proof. vm_compute. repeat split. Qed.

(** An airtime purchase of 500 from a wallet holding 4500.00, provider
    reachable: 200, one AIRTIME row, balance 4000.00. *)
Example airtime_purchase_debits :
  let request :=
    {| request_user := 10; request_body := []; request_headers := [];
       request_data := [("phone", VStr "2348123456789"); ("amount", VInt 500);
                        ("network", VStr "MTN")] |} in
  let out := AirtimeView_post scenario_env_online request (single_wallet_store 450000) in
  (response_status <$> (match fst out with Ok r => Some r | Raise _ => None end))
    = Some HTTP_200_OK
  /\ map (fun t => (Transaction.transaction_type t, Transaction.status t,
                    Transaction.reference t, Transaction.amount t))
         (transactions (snd out))
     = [("AIRTIME", "SUCCESS", "AIR-9F1C2E4A", 50000)]
  /\ (Wallet.balance <$> wallets (snd out) !! 1) = Some 400000.
Proof. vm_compute. repeat split. Qed.

(** The amount as the endpoint test sends it, the string "500.00": the
    comparison with the balance raises and the handler is left with
    [TypeError]; nothing is written. *)
Example airtime_string_amount_raises :
  let request :=
    {| request_user := 10; request_body := []; request_headers := [];
       request_data := [("phone", VStr "2348123456789"); ("amount", VStr "500.00");
                        ("network", VStr "MTN")] |} in
  let out := AirtimeView_post scenario_env_online request (single_wallet_store 450000) in
  (match fst out with Raise (TypeError _) => true | _ => false end) = true
  /\ snd out = single_wallet_store 450000.
Proof. vm_compute. repeat split. Qed.

(** The withdrawal scenario of the specification: balance 4500.00,
    withdrawal of 1000.00 with valid bank details.  The answer is 500 and
    the ledger holds no row. *)
Example withdrawal_scenario :
  let out := WithdrawalView_post scenario_env_online withdrawal_request
               (single_wallet_store 450000) in
  fst out = Ok {| response_data := error_body (VStr "Withdrawal processing failed");
                  response_status := HTTP_500_INTERNAL_SERVER_ERROR |}
  /\ transactions (snd out) = [].
Proof. vm_compute. repeat split. Qed.

(** A secret outside ASCII is encoded as UTF-8 before it keys the digest. *)
Example utf8_secret :
  Hmac.hexdigest
    (utf8_encode (String "s" (String (ascii_of_nat 233) "cret")))
    (bytes_to_Z webhook_body)
  = "6bdc600d7060e2255d31249ba5148f3467e62926a37d87eeb622e2332f1ca7e7".
Proof. vm_compute. reflexivity. Qed.

(** ** Further properties of the code *)

(** *** Lookups *)

Lemma filter_map_comm {A B} (p : B -> bool) (f : A -> B) (l : list A) :
  List.filter p (map f l) = map f (List.filter (fun a => p (f a)) l).
Proof.
  induction l as [|a l IH]; cbn; [reflexivity|].
  destruct (p (f a)); cbn; now rewrite IH.
Qed.

Lemma NoDup_all_equal {A} (x : A) (l : list A) :
  List.NoDup l -> In x l -> (forall y, In y l -> y = x) -> l = [x].
Proof.
  intros Hnd Hin Hall. destruct l as [|a l]; [destruct Hin|].
  assert (a = x) as -> by (apply Hall; left; reflexivity).
  destruct l as [|b l]; [reflexivity|].
  assert (b = x) as -> by (apply Hall; right; left; reflexivity).
  inversion Hnd as [|? ? Hnotin _]; subst. exfalso. apply Hnotin. left. reflexivity.
Qed.

(** The one row that satisfies a lookup is what the lookup returns. *)
Lemma Wallet_objects_get_unique p st pk w :
  wallets st !! pk = Some w ->
  p w = true ->
  (forall k w', wallets st !! k = Some w' -> k <> pk -> p w' = false) ->
  Wallet_objects_get p st = (Ok w, st).
Proof.
  intros Hrow Hp Hothers. unfold Wallet_objects_get.
  rewrite filter_map_comm.
  rewrite (NoDup_all_equal (pk, w)
             (List.filter (fun a => p (snd a)) (map_to_list (wallets st)))).
  - reflexivity.
  - apply NoDup_filter, NoDup_ListNoDup, NoDup_map_to_list.
  - apply filter_In. split; [|exact Hp].
    apply list_elem_of_In, elem_of_map_to_list, Hrow.
  - intros [k w'] Hin. apply filter_In in Hin as [Hin Hpw]. cbn in Hpw.
    apply list_elem_of_In, elem_of_map_to_list in Hin.
    destruct (decide (k = pk)) as [->|Hne].
    + rewrite Hrow in Hin. injection Hin as <-. reflexivity.
    + rewrite (Hothers k w' Hin Hne) in Hpw. discriminate.
Qed.

(** A lookup that no row satisfies raises [DoesNotExist]. *)
Lemma Wallet_objects_get_none p st :
  (forall k w, wallets st !! k = Some w -> p w = false) ->
  Wallet_objects_get p st = (Raise (DoesNotExist "Wallet"), st).
Proof.
  intros Hnone. unfold Wallet_objects_get.
  destruct (List.filter p (map snd (map_to_list (wallets st)))) as [|w l] eqn:Hf;
    [reflexivity|].
  assert (Hin : In w (List.filter p (map snd (map_to_list (wallets st)))))
    by (rewrite Hf; left; reflexivity).
  apply filter_In in Hin as [Hin Hp].
  apply in_map_iff in Hin as [[k w'] [Hw Hin]]. cbn in Hw. subst w'.
  apply list_elem_of_In, elem_of_map_to_list in Hin.
  rewrite (Hnone k w Hin) in Hp. discriminate.
Qed.

(** What a lookup returns satisfies the condition. *)
Lemma Wallet_objects_get_satisfies p st w st' :
  Wallet_objects_get p st = (Ok w, st') -> p w = true.
Proof.
  unfold Wallet_objects_get.
  destruct (List.filter p (map snd (map_to_list (wallets st)))) as [|w0 [|w1 l]] eqn:Hf;
    intros [= <- <-].
  assert (Hin : In w0 (List.filter p (map snd (map_to_list (wallets st)))))
    by (rewrite Hf; left; reflexivity).
  apply filter_In in Hin. tauto.
Qed.

(** *** The atomic unit keeps the ledger well formed *)

Lemma other_wallet_with_inv p pk st k w :
  other_wallet_with p pk st = false ->
  wallets st !! k = Some w -> k <> pk -> p w = false.
Proof.
  unfold other_wallet_with. intros H Hk Hne.
  destruct (p w) eqn:Hp; [|reflexivity].
  assert (Hex : existsb (fun '(k, w) => negb (k =? pk) && p w)
                  (map_to_list (wallets st)) = true).
  { apply existsb_exists. exists (k, w). split.
    - apply list_elem_of_In, elem_of_map_to_list, Hk.
    - apply andb_true_iff. split; [|exact Hp].
      apply negb_true_iff, Z.eqb_neq, Hne. }
  congruence.
Qed.

(** When the atomic unit goes through, no other row has the user or the
    wallet id of the row written. *)
Lemma post_entry_written_row_is_unique env wallet amount nb ty reference metadata st r st' :
  post_entry env wallet amount nb ty reference metadata st = (Ok r, st') ->
  forall k w, wallets st !! k = Some w -> k <> Wallet.id wallet ->
    Wallet.user w <> Wallet.user (written env st nb wallet)
    /\ Wallet.wallet_id w <> Wallet.wallet_id (written env st nb wallet).
Proof.
  unfold post_entry, atomic, bind, Transaction_objects_create.
  destruct (negb (fits_decimal_12_2 amount)); [discriminate|].
  destruct (existsb _ (transactions st)); [discriminate|].
  unfold Wallet_save.
  change (has_row (Wallet.id (Wallet.set_balance nb wallet))
            {| wallets := wallets st;
               transactions :=
                 {| Transaction.id := txn_seq st + 1;
                    Transaction.wallet := Wallet.id wallet;
                    Transaction.amount := amount;
                    Transaction.transaction_type := ty;
                    Transaction.status := "SUCCESS";
                    Transaction.reference := reference;
                    Transaction.narration := None;
                    Transaction.recipient_wallet := None;
                    Transaction.metadata := metadata;
                    Transaction.created_at := now env;
                    Transaction.updated_at := now env |} :: transactions st;
               txn_seq := txn_seq st + 1 |})
    with (has_row (Wallet.id wallet) st).
  fold (written env st nb wallet).
  rewrite written_id.
  destruct (negb (fits_decimal_12_2 (Wallet.balance (written env st nb wallet))));
    [discriminate|].
  match goal with
  | |- context [if other_wallet_with ?p ?pk ?s then _ else _] =>
      destruct (other_wallet_with p pk s) eqn:Huser; [discriminate|]
  end.
  match goal with
  | |- context [if other_wallet_with ?p ?pk ?s then _ else _] =>
      destruct (other_wallet_with p pk s) eqn:Hwid; [discriminate|]
  end.
  intros _ k w Hk Hne.
  pose proof (other_wallet_with_inv _ _ _ k w Huser Hk Hne) as Hu.
  pose proof (other_wallet_with_inv _ _ _ k w Hwid Hk Hne) as Hw.
  cbn in Hu, Hw. split.
  - apply Z.eqb_neq, Hu.
  - apply String.eqb_neq, Hw.
Qed.

Lemma post_entry_well_formed env wallet amount nb ty reference metadata st :
  well_formed st ->
  wallets st !! Wallet.id wallet = Some wallet ->
  signed_effect (inserted env st wallet amount ty "SUCCESS" reference metadata)
    = nb - Wallet.balance wallet ->
  well_formed (snd (post_entry env wallet amount nb ty reference metadata st)).
Proof.
  intros (Hkey & Huniq & Hrefs & Hinv) Hrow Heff.
  destruct (post_entry_balance_invariant env wallet amount nb ty reference metadata st
              Hkey Hinv Hrow Heff) as [Hkey' Hinv'].
  cbn zeta in *.
  destruct (post_entry_cases env wallet amount nb ty reference metadata st)
    as [[e He]|[He (_ & _ & Hfresh)]].
  - rewrite He in *. cbn. unfold well_formed. auto.
  - pose proof (post_entry_written_row_is_unique _ _ _ _ _ _ _ _ _ _ He) as Hnew.
    rewrite He in *. cbn [snd] in *. unfold well_formed.
    split; [exact Hkey'|]. split; [|split; [|exact Hinv']].
    + intros k1 k2 w1 w2. cbn [wallets]. rewrite !lookup_insert.
      repeat case_decide; subst; intros H1 H2 Hne.
      * congruence.
      * injection H1 as <-. destruct (Hnew k2 w2 H2) as [Hu Hw]; [congruence|].
        split; congruence.
      * injection H2 as <-. destruct (Hnew k1 w1 H1) as [Hu Hw]; [congruence|].
        split; congruence.
      * apply (Huniq k1 k2); assumption.
    + unfold unique_references. cbn [transactions map]. constructor; [|exact Hrefs].
      change (Transaction.reference
                (inserted env st wallet amount ty "SUCCESS" reference metadata))
        with reference.
      intros Hin. apply in_map_iff in Hin as [x [Hx Hin]].
      assert (existsb (fun x => String.eqb (Transaction.reference x) reference)
                (transactions st) = true); [|congruence].
      apply existsb_exists. exists x. split; [exact Hin|].
      apply String.eqb_eq, Hx.
Qed.

Lemma entry_effect_well_formed st st' :
  well_formed st -> entry_effect st st' -> well_formed st'.
Proof.
  intros Hwf [->|(env & wallet & amount & nb & ty & reference & metadata
                  & Hrow & Heff & ->)]; [exact Hwf|].
  apply post_entry_well_formed; assumption.
Qed.

(** *** The deposit webhook, branch by branch *)

(** The atomic unit raises only what the database raises. *)
Lemma post_entry_raises env wallet amount nb ty reference metadata st e st' :
  post_entry env wallet amount nb ty reference metadata st = (Raise e, st') ->
  match e with IntegrityError _ | InvalidOperation => True | _ => False end.
Proof.
  unfold post_entry, atomic, bind, Transaction_objects_create, Wallet_save.
  repeat match goal with
         | |- context [if ?c then _ else _] => destruct c
         end; intros [= <- _]; exact I.
Qed.

Lemma DepositWebhookView_post_cases env request st :
  let received_signature :=
    headers_get "X-Payscribe-Signature" "" (request_headers request) in
  let answer body code :=
    (Ok {| response_data := body; response_status := code |}, st) in
  DepositWebhookView_post env request st =
  match verify_webhook_signature env (request_body request) received_signature with
  | Raise e => answer (error_body (VStr (str_exn e))) HTTP_400_BAD_REQUEST
  | Ok false => answer (error_body (VStr "Invalid signature")) HTTP_403_FORBIDDEN
  | Ok true =>
      match json_loads env (request_body request) with
      | Raise e => answer (error_body (VStr (str_exn e))) HTTP_400_BAD_REQUEST
      | Ok data =>
          match DepositWebhookSerializer env data with
          | Raise e => answer (error_body (VStr (str_exn e))) HTTP_400_BAD_REQUEST
          | Ok validated =>
              match Wallet_objects_get (by_wallet_id (dw_wallet_id validated)) st with
              | (Raise e, _) =>
                  if Wallet_DoesNotExist e
                  then answer (error_body (VStr "Wallet not found")) HTTP_404_NOT_FOUND
                  else answer (error_body (VStr (str_exn e))) HTTP_400_BAD_REQUEST
              | (Ok wallet, _) =>
                  match TransactionService.create_deposit env wallet (dw_amount validated)
                          (Some (dw_reference validated)) (webhook_metadata data) st with
                  | (Ok r, st') =>
                      (Ok {| response_data := TransactionSerializer (fst r);
                             response_status := HTTP_200_OK |}, st')
                  | (Raise e, _) =>
                      answer (error_body (VStr (str_exn e))) HTTP_400_BAD_REQUEST
                  end
              end
          end
      end
  end.
Proof.
  cbn zeta. unfold DepositWebhookView_post, try_clauses, bind, lift.
  destruct (verify_webhook_signature _ _ _) as [[|]|e]; try reflexivity.
  cbn [negb].
  destruct (json_loads env (request_body request)) as [data|e]; [|reflexivity].
  destruct (DepositWebhookSerializer env data) as [validated|e]; [|reflexivity].
  fold (webhook_metadata data).
  pose proof (Wallet_objects_get_store (by_wallet_id (dw_wallet_id validated)) st) as Hst.
  destruct (Wallet_objects_get (by_wallet_id (dw_wallet_id validated)) st)
    as [[wallet|e] st1]; cbn [snd] in Hst; subst st1.
  - rewrite create_deposit_unfold.
    match goal with |- context [post_entry ?a ?b ?c ?d ?f ?g ?h ?s] =>
      destruct (post_entry_cases a b c d f g h s) as [[e He]|[He _]];
        [pose proof (post_entry_raises _ _ _ _ _ _ _ _ _ _ He) as Hclass|];
        rewrite He
    end.
    + destruct e; try contradiction; reflexivity.
    + reflexivity.
  - cbn. destruct (Wallet_DoesNotExist e); reflexivity.
Qed.

(** *** Every handler keeps the ledger well formed *)

Lemma Wallet_objects_get_keyed_row p st w st' :
  keyed st -> Wallet_objects_get p st = (Ok w, st') ->
  wallets st !! Wallet.id w = Some w.
Proof.
  intros Hkey Hget. destruct (Wallet_objects_get_row _ _ _ _ Hget) as [pk Hrow].
  now rewrite (Hkey _ _ Hrow).
Qed.

Lemma vas_course_effect env request call service_type metadata st :
  keyed st ->
  service_type = "AIRTIME" \/ service_type = "DATA" ->
  entry_effect st (snd (vas_course env request call service_type metadata st)).
Proof.
  intros Hkey Hty.
  destruct (vas_course_store env request call service_type metadata st)
    as [E|(wallet & a & body & r & Hget & _ & _ & _ & Hpost)]; cbn zeta in *.
  - left. exact E.
  - apply (Wallet_objects_get_keyed_row _ _ _ _ Hkey) in Hget.
    right. eexists env, wallet, a, _, service_type, _, _.
    split; [exact Hget|]. split; [|rewrite Hpost; reflexivity].
    destruct Hty as [-> | ->]; unfold signed_effect; cbn; lia.
Qed.

Lemma serve_effect env e request st :
  keyed st -> entry_effect st (snd (serve env e request st)).
Proof.
  intros Hkey. destruct e; cbn [serve].
  - left. unfold WalletView_get, bind.
    pose proof (Wallet_objects_get_store (by_user (request_user request)) st) as Hst.
    destruct (Wallet_objects_get _ st) as [[w|x] st1]; cbn [snd] in *; subst; reflexivity.
  - rewrite DepositWebhookView_post_cases. cbn zeta.
    destruct (verify_webhook_signature _ _ _) as [[|]|x]; try (left; reflexivity).
    destruct (json_loads env _) as [data|x]; [|left; reflexivity].
    destruct (DepositWebhookSerializer env data) as [v|x]; [|left; reflexivity].
    destruct (Wallet_objects_get (by_wallet_id (dw_wallet_id v)) st)
      as [[wallet|x] st1] eqn:Hget.
    2:{ destruct (Wallet_DoesNotExist x); left; reflexivity. }
    apply (Wallet_objects_get_keyed_row _ _ _ _ Hkey) in Hget.
    destruct (TransactionService.create_deposit _ _ _ _ _ _) as [[r|x] st'] eqn:Hc;
      [|left; reflexivity].
    right. rewrite create_deposit_unfold in Hc.
    eexists env, wallet, (dw_amount v), _, "DEPOSIT", _, _.
    split; [exact Hget|]. split; [|rewrite Hc; reflexivity].
    unfold signed_effect. cbn. lia.
  - left. apply WithdrawalView_post_store.
  - left. destruct (TransferView_post_writes_nothing env request st) as [resp [-> _]].
    reflexivity.
  - left. unfold TransactionHistoryView_get, Transaction_objects_filter_wallet, bind.
    pose proof (Wallet_objects_get_store (by_user (request_user request)) st) as Hst.
    destruct (Wallet_objects_get _ st) as [[w|x] st1]; cbn [snd] in *; subst; reflexivity.
  - rewrite AirtimeView_post_course. apply vas_course_effect; auto.
  - rewrite DataView_post_course. apply vas_course_effect; auto.
Qed.

(** Every call of every handler takes a well-formed ledger to a
    well-formed ledger, and so does every run of calls: rows stay under
    their keys, users, wallet ids and references stay unique, and each
    balance stays equal to the signed sum of the wallet's rows. *)
Theorem serve_all_well_formed calls : forall st,
  well_formed st -> well_formed (serve_all calls st).
Proof.
  induction calls as [|[[env e] request] rest IH]; intros st Hwf; cbn [serve_all].
  - exact Hwf.
  - apply IH. apply (entry_effect_well_formed st); [exact Hwf|].
    apply serve_effect. apply Hwf.
Qed.

(** *** The deposit webhook *)

(** The webhook handler always answers, with 200, 400, 403 or 404.  With
    200 the ledger has one more row, a DEPOSIT row; with any other status
    the store is the one before the call. *)
Theorem DepositWebhookView_post_writes_only_with_200 env request st :
  exists resp,
    fst (DepositWebhookView_post env request st) = Ok resp
    /\ ((response_status resp = HTTP_200_OK
         /\ exists txn,
             transactions (snd (DepositWebhookView_post env request st))
               = txn :: transactions st
             /\ Transaction.transaction_type txn = "DEPOSIT")
        \/ (In (response_status resp)
              [HTTP_400_BAD_REQUEST; HTTP_403_FORBIDDEN; HTTP_404_NOT_FOUND]
            /\ snd (DepositWebhookView_post env request st) = st)).
Proof.
  rewrite DepositWebhookView_post_cases. cbn zeta.
  destruct (verify_webhook_signature _ _ _) as [[|]|x];
    try (eexists; split; [reflexivity|right; cbn; auto]).
  destruct (json_loads env _) as [data|x];
    [|eexists; split; [reflexivity|right; cbn; auto]].
  destruct (DepositWebhookSerializer env data) as [v|x];
    [|eexists; split; [reflexivity|right; cbn; auto]].
  destruct (Wallet_objects_get (by_wallet_id (dw_wallet_id v)) st) as [[wallet|x] st1].
  2:{ destruct (Wallet_DoesNotExist x); eexists; (split; [reflexivity|right; cbn; auto]). }
  destruct (TransactionService.create_deposit _ _ _ _ _ _) as [[[txn w]|x] st'] eqn:Hc;
    [|eexists; split; [reflexivity|right; cbn; auto]].
  apply create_deposit_returns in Hc as (_ & Hty & _ & _ & _ & Hrows).
  eexists. split; [reflexivity|]. left. split; [reflexivity|].
  exists txn. cbn [snd]. auto.
Qed.

(** A verified notice for a wallet id that no wallet carries is answered
    404 and writes nothing. *)
Theorem webhook_for_unknown_wallet env request st data validated :
  verify_webhook_signature env (request_body request)
    (headers_get "X-Payscribe-Signature" "" (request_headers request)) = Ok true ->
  json_loads env (request_body request) = Ok data ->
  DepositWebhookSerializer env data = Ok validated ->
  (forall pk w, wallets st !! pk = Some w ->
     Wallet.wallet_id w <> dw_wallet_id validated) ->
  DepositWebhookView_post env request st
  = (Ok {| response_data := error_body (VStr "Wallet not found");
           response_status := HTTP_404_NOT_FOUND |}, st).
Proof.
  intros Hv Hj Hs Hnone. rewrite DepositWebhookView_post_cases. cbn zeta.
  rewrite Hv, Hj, Hs.
  rewrite Wallet_objects_get_none; [reflexivity|].
  intros k w Hk. apply String.eqb_neq, (Hnone k w Hk).
Qed.

Lemma headers_get_absent name default hs :
  (forall k v, In (k, v) hs -> upper k <> upper name) ->
  headers_get name default hs = default.
Proof.
  induction hs as [|[k v] hs IH]; intros Habs; cbn; [reflexivity|].
  destruct (String.eqb_spec (upper k) (upper name)) as [E|_].
  - exfalso. apply (Habs k v); [left; reflexivity|exact E].
  - apply IH. intros k' v' Hin. apply (Habs k' v'). right. exact Hin.
Qed.

(** A signature that is not 64 characters long never verifies. *)
Lemma short_signature_never_verifies env payload received_signature :
  String.length received_signature <> 64%nat ->
  verify_webhook_signature env payload received_signature <> Ok true.
Proof.
  intros Hlen Hv. unfold verify_webhook_signature in Hv.
  destruct (hexdigest_lower (utf8_encode (PAYSCRIBE_WEBHOOK_SECRET env))
              (bytes_to_Z payload)) as [Hhex Hl].
  apply compare_digest_true in Hv; [|apply lower_hex_is_ascii, Hhex].
  subst received_signature. contradiction.
Qed.

(** A request that carries no [X-Payscribe-Signature] header, under any
    spelling of the name, is answered 403 and writes nothing, whatever its
    body and whatever the configured secret. *)
Theorem webhook_without_signature_header env request st :
  (forall k v, In (k, v) (request_headers request) ->
     upper k <> upper "X-Payscribe-Signature") ->
  DepositWebhookView_post env request st
  = (Ok {| response_data := error_body (VStr "Invalid signature");
           response_status := HTTP_403_FORBIDDEN |}, st).
Proof.
  intros Habs. rewrite DepositWebhookView_post_cases. cbn zeta.
  rewrite (headers_get_absent _ _ _ Habs).
  pose proof (verify_webhook_signature_outcome env (request_body request) "") as Hout.
  cbn in Hout. destruct Hout as [b Hb].
  destruct b; [|rewrite Hb; reflexivity].
  exfalso. revert Hb. apply short_signature_never_verifies. discriminate.
Qed.

(** The notice must carry all five declared fields, the [signature] field
    included although the signature that is verified travels in the
    header: a verified body that lacks one of them is answered 400 and
    writes nothing. *)
Theorem webhook_with_missing_field env request st kv name :
  verify_webhook_signature env (request_body request)
    (headers_get "X-Payscribe-Signature" "" (request_headers request)) = Ok true ->
  json_loads env (request_body request) = Ok (VDict kv) ->
  In name ["reference"; "amount"; "wallet_id"; "timestamp"; "signature"] ->
  dict_find name kv = None ->
  exists message,
    DepositWebhookView_post env request st
    = (Ok {| response_data := error_body (VStr message);
             response_status := HTTP_400_BAD_REQUEST |}, st).
Proof.
  intros Hv Hj Hname Hmiss. rewrite DepositWebhookView_post_cases. cbn zeta.
  rewrite Hv, Hj.
  assert (Hs : exists m, DepositWebhookSerializer env (VDict kv) = Raise (ValidationError m)).
  { unfold DepositWebhookSerializer, required_field.
    cbn in Hname.
    destruct Hname as [<-|[<-|[<-|[<-|[<-|[]]]]]]; rewrite Hmiss;
      repeat match goal with
             | |- context [match ?x with Some _ => _ | None => _ end] => destruct x
             end; eexists; reflexivity. }
  destruct Hs as [m ->]. eexists. reflexivity.
Qed.

(** *** The read handlers *)

Lemma by_user_unique st pk w :
  unique_wallets st ->
  wallets st !! pk = Some w ->
  Wallet_objects_get (by_user (Wallet.user w)) st = (Ok w, st).
Proof.
  intros Huniq Hrow. apply (Wallet_objects_get_unique _ _ pk); [exact Hrow| |].
  - apply Z.eqb_refl.
  - intros k w' Hk Hne. apply Z.eqb_neq. apply (Huniq k pk w' w Hk Hrow Hne).
Qed.

(** In a store with unique users the wallet handler answers the owner of
    a wallet row with the data of that row and status 200, and a user
    without a wallet row with [Wallet.DoesNotExist]; in both cases nothing
    is written. *)
Theorem WalletView_get_own_wallet request st :
  unique_wallets st ->
  (forall pk w, wallets st !! pk = Some w -> Wallet.user w = request_user request ->
     WalletView_get request st
     = (Ok {| response_data := WalletSerializer w;
              response_status := HTTP_200_OK |}, st))
  /\ ((forall pk w, wallets st !! pk = Some w -> Wallet.user w <> request_user request) ->
      WalletView_get request st = (Raise (DoesNotExist "Wallet"), st)).
Proof.
  intros Huniq. split.
  - intros pk w Hrow Huser. unfold WalletView_get, bind.
    rewrite <- Huser, (by_user_unique st pk w Huniq Hrow). reflexivity.
  - intros Hnone. unfold WalletView_get, bind.
    rewrite Wallet_objects_get_none; [reflexivity|].
    intros k w Hk. apply Z.eqb_neq, (Hnone k w Hk).
Qed.

Lemma insert_newest_first_perm t rows :
  Permutation (insert_newest_first t rows) (t :: rows).
Proof.
  induction rows as [|x rest IH]; cbn; [reflexivity|].
  destruct (Transaction.created_at x <=? Transaction.created_at t); [reflexivity|].
  rewrite IH. apply perm_swap.
Qed.

Lemma insert_newest_first_sorted t rows :
  newest_first rows -> newest_first (insert_newest_first t rows).
Proof.
  induction rows as [|x rest IH]; cbn; [intros _; split; [intros y []|exact I]|].
  intros [Hx Hrest].
  destruct (Transaction.created_at x <=? Transaction.created_at t) eqn:Hle.
  - apply Z.leb_le in Hle. cbn. split; [|auto].
    intros y [<-|Hy]; [exact Hle|]. specialize (Hx y Hy). lia.
  - apply Z.leb_gt in Hle. cbn. split; [|auto].
    intros y Hy.
    apply (Permutation_in _ (insert_newest_first_perm t rest)) in Hy.
    destruct Hy as [<-|Hy]; [lia|auto].
Qed.

Lemma order_by_created_at_desc_perm rows :
  Permutation (order_by_created_at_desc rows) rows.
Proof.
  induction rows as [|t rows IH]; cbn; [reflexivity|].
  fold (order_by_created_at_desc rows).
  rewrite insert_newest_first_perm. now constructor.
Qed.

Lemma order_by_created_at_desc_sorted rows :
  newest_first (order_by_created_at_desc rows).
Proof.
  induction rows as [|t rows IH]; cbn; [exact I|].
  apply insert_newest_first_sorted, IH.
Qed.

(** In a store with unique users the history handler answers the owner of
    a wallet row with exactly the transactions that wallet owns, each
    once, newest first; rows of other wallets, also those that name the
    wallet as recipient, are not listed, and nothing is written. *)
Theorem TransactionHistoryView_get_lists_own_rows request st pk w :
  unique_wallets st ->
  wallets st !! pk = Some w ->
  Wallet.user w = request_user request ->
  exists rows,
    TransactionHistoryView_get request st
    = (Ok {| response_data := VList (map TransactionSerializer rows);
             response_status := HTTP_200_OK |}, st)
    /\ Permutation rows (List.filter (owned_by w) (transactions st))
    /\ newest_first rows
    /\ (forall t, In t rows <-> In t (transactions st) /\ Transaction.wallet t = Wallet.id w).
Proof.
  intros Huniq Hrow Huser.
  exists (order_by_created_at_desc (List.filter (owned_by w) (transactions st))).
  split; [|split; [apply order_by_created_at_desc_perm|
                   split; [apply order_by_created_at_desc_sorted|]]].
  - unfold TransactionHistoryView_get, Transaction_objects_filter_wallet, bind.
    rewrite <- Huser, (by_user_unique st pk w Huniq Hrow). reflexivity.
  - intros t. split.
    + intros Hin. apply (Permutation_in _ (order_by_created_at_desc_perm _)) in Hin.
      apply filter_In in Hin as [Hin Hown]. split; [exact Hin|].
      apply Z.eqb_eq, Hown.
    + intros [Hin Hown].
      apply (Permutation_in _ (Permutation_sym (order_by_created_at_desc_perm _))).
      apply filter_In. split; [exact Hin|]. apply Z.eqb_eq, Hown.
Qed.

Lemma saved_user env b w : Wallet.user (saved env b w) = Wallet.user w.
Proof. unfold saved, pre_save. destruct (String.eqb _ ""); reflexivity. Qed.

(** A deposit that the webhook answers with 200 is what the wallet
    handler shows next: on a well-formed ledger, the owner of the credited
    wallet then reads a balance that is the old balance plus the amount of
    the notice. *)
Theorem deposit_is_visible_in_wallet env request st resp st' :
  well_formed st ->
  DepositWebhookView_post env request st = (Ok resp, st') ->
  response_status resp = HTTP_200_OK ->
  exists data validated wallet,
    json_loads env (request_body request) = Ok data
    /\ DepositWebhookSerializer env data = Ok validated
    /\ wallets st !! Wallet.id wallet = Some wallet
    /\ Wallet.wallet_id wallet = dw_wallet_id validated
    /\ forall request2, request_user request2 = Wallet.user wallet ->
         exists shown,
           WalletView_get request2 st'
           = (Ok {| response_data := WalletSerializer shown;
                    response_status := HTTP_200_OK |}, st')
           /\ Wallet.balance shown = Wallet.balance wallet + dw_amount validated.
Proof.
  intros (Hkey & Huniq & _ & _) Hpost Hstatus.
  rewrite DepositWebhookView_post_cases in Hpost. cbn zeta in Hpost.
  destruct (verify_webhook_signature _ _ _) as [[|]|x];
    try (injection Hpost as <- <-; discriminate).
  destruct (json_loads env _) as [data|x] eqn:Hj;
    [|injection Hpost as <- <-; discriminate].
  destruct (DepositWebhookSerializer env data) as [v|x] eqn:Hs;
    [|injection Hpost as <- <-; discriminate].
  destruct (Wallet_objects_get (by_wallet_id (dw_wallet_id v)) st)
    as [[wallet|x] st1] eqn:Hget.
  2:{ destruct (Wallet_DoesNotExist x); injection Hpost as <- <-; discriminate. }
  pose proof (Wallet_objects_get_satisfies _ _ _ _ Hget) as Hwid.
  apply String.eqb_eq in Hwid.
  apply (Wallet_objects_get_keyed_row _ _ _ _ Hkey) in Hget.
  rewrite create_deposit_unfold in Hpost.
  match type of Hpost with context [post_entry ?a ?b ?c ?d ?f ?g ?h ?s] =>
    destruct (post_entry_cases a b c d f g h s) as [[x He]|[He _]];
      pose proof (fun r s' => post_entry_written_row_is_unique a b c d f g h s r s') as Hnew;
      rewrite He in Hpost, Hnew
  end; [injection Hpost as <- <-; discriminate|].
  injection Hpost as <- <-.
  exists data, v, wallet.
  split; [reflexivity|]. split; [exact Hs|]. split; [exact Hget|].
  split; [exact Hwid|].
  intros request2 Hu.
  exists (written env st (Wallet.balance wallet + dw_amount v) wallet).
  split; [|apply written_balance].
  unfold WalletView_get, bind.
  rewrite (Wallet_objects_get_unique _ _ (Wallet.id wallet)
             (written env st (Wallet.balance wallet + dw_amount v) wallet)).
  - reflexivity.
  - cbn. apply lookup_insert_eq.
  - unfold by_user. rewrite written_user, Hu. apply Z.eqb_refl.
  - intros k w' Hk Hne. cbn in Hk. rewrite lookup_insert_ne in Hk by congruence.
    unfold by_user. rewrite Hu. apply Z.eqb_neq.
    apply (Huniq k (Wallet.id wallet) w' wallet Hk Hget Hne).
Qed.

(** *** The airtime and data handlers *)

(** When the provider call does not come back with success, whether it
    returns a failure or raises, the airtime and the data handler write
    nothing. *)
Theorem vas_writes_nothing_without_provider_success env request st :
  ((forall body, airtime_call env request <> Ok (true, body)) ->
   snd (AirtimeView_post env request st) = st)
  /\ ((forall body, data_call env request <> Ok (true, body)) ->
      snd (DataView_post env request st) = st).
Proof.
  assert (H : forall call ty md,
             (forall body, call <> Ok (true, body)) ->
             snd (vas_course env request call ty md st) = st).
  { intros call ty md Hfail.
    destruct (vas_course_store env request call ty md st)
      as [E|(wallet & a & body & r & _ & _ & _ & Hcall & _)]; [exact E|].
    exfalso. apply (Hfail body), Hcall. }
  split; intros Hfail.
  - rewrite AirtimeView_post_course. apply H, Hfail.
  - rewrite DataView_post_course. apply H, Hfail.
Qed.

(** A provider failure is answered 400 with the provider's error detail:
    for a caller with a wallet and an amount within the balance, when the
    airtime call returns [(False, detail)] the answer carries [detail]. *)
Theorem airtime_provider_failure_is_answered_400 env request st wallet amount detail :
  Wallet_objects_get (by_user (request_user request)) st = (Ok wallet, st) ->
  as_decimal (dict_get "amount" (request_data request)) = Some amount ->
  amount <= Wallet.balance wallet ->
  airtime_call env request = Ok (false, detail) ->
  AirtimeView_post env request st
  = (Ok {| response_data := VDict [("error", detail)];
           response_status := HTTP_400_BAD_REQUEST |}, st).
Proof.
  intros Hget Hamt Hle Hcall. rewrite AirtimeView_post_course. unfold vas_course.
  rewrite Hget. cbn zeta. rewrite (decimal_lt_number _ _ _ Hamt), Hcall.
  assert ((Wallet.balance wallet <? amount) = false) as -> by (apply Z.ltb_ge; lia).
  reflexivity.
Qed.

(** An amount that is no number ([None] for a missing [amount], the
    string "500.00" of the endpoint test, a list or a dict) makes both
    handlers raise [TypeError] at the comparison with the balance: the
    provider is not called, whatever it would answer, and nothing is
    written. *)
Theorem vas_amount_must_be_a_number env request st wallet :
  Wallet_objects_get (by_user (request_user request)) st = (Ok wallet, st) ->
  is_number (dict_get "amount" (request_data request)) = false ->
  exists message,
    AirtimeView_post env request st = (Raise (TypeError message), st)
    /\ DataView_post env request st = (Raise (TypeError message), st).
Proof.
  intros Hget Hamt. eexists.
  rewrite AirtimeView_post_course, DataView_post_course. unfold vas_course.
  rewrite Hget. cbn zeta.
  destruct (dict_get "amount" (request_data request)); try discriminate;
    split; reflexivity.
Qed.

(** A float amount, a JSON number with a fractional part, is never
    recorded: both handlers leave the store as it was.  The comparison
    with the balance accepts the float, so the provider is called; when
    the float is within the balance and the provider reports success, the
    handler raises instead of answering, [wallet.balance -= amount] cannot
    subtract a float, and the purchase that the provider made is neither
    debited nor listed. *)
Theorem vas_float_amount_is_never_recorded env request st m e :
  dict_get "amount" (request_data request) = VFloat m e ->
  snd (AirtimeView_post env request st) = st
  /\ snd (DataView_post env request st) = st
  /\ forall wallet body,
       Wallet_objects_get (by_user (request_user request)) st = (Ok wallet, st) ->
       decimal_lt_float (Wallet.balance wallet) m e = false ->
       (airtime_call env request = Ok (true, body) ->
        exists x, AirtimeView_post env request st = (Raise x, st))
       /\ (data_call env request = Ok (true, body) ->
           exists x, DataView_post env request st = (Raise x, st)).
Proof.
  intros Hamt.
  assert (Hstore : forall call ty md, snd (vas_course env request call ty md st) = st).
  { intros call ty md.
    destruct (vas_course_store env request call ty md st)
      as [E|(wallet & a & body & r & _ & Ha & _)]; [exact E|].
    rewrite Hamt in Ha. discriminate. }
  assert (Hraise : forall call ty md wallet body,
            Wallet_objects_get (by_user (request_user request)) st = (Ok wallet, st) ->
            decimal_lt_float (Wallet.balance wallet) m e = false ->
            call = Ok (true, body) ->
            exists x, vas_course env request call ty md st = (Raise x, st)).
  { intros call ty md wallet body Hget Hge ->. unfold vas_course.
    rewrite Hget. cbn zeta. rewrite Hamt. cbn [decimal_lt]. rewrite Hge.
    match goal with |- context [create_vas_transaction_of ?a ?wl ?x ?t ?md0 ?s] =>
      pose proof (create_vas_transaction_of_cases a wl x t md0 s) as Hc;
      destruct (create_vas_transaction_of a wl x t md0 s) as [[r|err] s1]
    end.
    - destruct Hc as (a & Ha & _). discriminate.
    - eexists. reflexivity. }
  rewrite AirtimeView_post_course, DataView_post_course.
  split; [apply Hstore|]. split; [apply Hstore|].
  intros wallet body Hget Hge. split; intros Hcall.
  - apply (Hraise _ _ _ wallet body); assumption.
  - apply (Hraise _ _ _ wallet body); assumption.
Qed.

(** The airtime handler on a purchase that goes through: the amount is an
    [int], a [bool] or a [Decimal] within the balance, the provider
    reports success, and the generated reference is new.  The row and the
    debit are committed; what the handler then answers is up to the
    serializer. *)
Lemma airtime_purchase_committed env request st wallet amount body :
  well_formed st ->
  Wallet_objects_get (by_user (request_user request)) st = (Ok wallet, st) ->
  Wallet.wallet_id wallet <> "" ->
  as_decimal (dict_get "amount" (request_data request)) = Some amount ->
  amount <= Wallet.balance wallet ->
  fits_decimal_12_2 amount = true ->
  fits_decimal_12_2 (Wallet.balance wallet - amount) = true ->
  airtime_call env request = Ok (true, body) ->
  let reference := "AIR-" ++ upper (prefix_of 8 (uuid4_hex env)) in
  ~ In reference (map Transaction.reference (transactions st)) ->
  let txn := inserted env st wallet amount "AIRTIME" "SUCCESS" reference
               (airtime_metadata request body) in
  AirtimeView_post env request st
  = (match TransactionSerializer_of (dict_get "amount" (request_data request)) txn with
     | Ok data => Ok {| response_data := data; response_status := HTTP_200_OK |}
     | Raise x => Raise x
     end,
     {| wallets := <[Wallet.id wallet := saved env (Wallet.balance wallet - amount) wallet]>
                     (wallets st);
        transactions := txn :: transactions st;
        txn_seq := txn_seq st + 1 |}).
Proof.
  intros (Hkey & Huniq & _ & _) Hget Hwid Hamt Hle Hfa Hfb Hcall reference Hfresh txn.
  pose proof (Wallet_objects_get_keyed_row _ _ _ _ Hkey Hget) as Hrow.
  assert (Hpost : post_entry env wallet amount (Wallet.balance wallet - amount) "AIRTIME"
                    reference (airtime_metadata request body) st
                  = (Ok (txn, saved env (Wallet.balance wallet - amount) wallet),
                     {| wallets := <[Wallet.id wallet :=
                                       saved env (Wallet.balance wallet - amount) wallet]>
                                     (wallets st);
                        transactions := txn :: transactions st;
                        txn_seq := txn_seq st + 1 |})).
  { apply post_entry_succeeds; try assumption.
    apply not_true_iff_false. intros Hex. apply Hfresh.
    apply existsb_exists in Hex as [x [Hin Hx]]. apply String.eqb_eq in Hx.
    apply in_map_iff. exists x. auto. }
  rewrite AirtimeView_post_course. unfold vas_course.
  rewrite Hget. cbn zeta. rewrite (decimal_lt_number _ _ _ Hamt), Hcall.
  assert ((Wallet.balance wallet <? amount) = false) as -> by (apply Z.ltb_ge; lia).
  assert (Hof : create_vas_transaction_of env wallet
                  (dict_get "amount" (request_data request)) "AIRTIME"
                  (airtime_metadata request body) st
                = post_entry env wallet amount (Wallet.balance wallet - amount) "AIRTIME"
                    reference (airtime_metadata request body) st).
  { destruct (dict_get "amount" (request_data request)); try discriminate;
      injection Hamt as <-; reflexivity. }
  rewrite Hof, Hpost. cbn [fst].
  destruct (TransactionSerializer_of _ txn); reflexivity.
Qed.

(** A purchase that the provider accepts is recorded once and debited
    once: on a well-formed ledger, for an [int] or [Decimal] amount
    within the balance and a reference not yet in the ledger, the airtime
    handler answers 200, adds one AIRTIME row of that amount whose
    reference is AIR- followed by the first eight uuid digits in upper
    case, and leaves the balance lower by exactly the amount.  The sign of
    the amount is not looked at. *)
Theorem airtime_purchase_is_recorded_and_debited env request st wallet amount body :
  well_formed st ->
  Wallet_objects_get (by_user (request_user request)) st = (Ok wallet, st) ->
  Wallet.wallet_id wallet <> "" ->
  as_decimal (dict_get "amount" (request_data request)) = Some amount ->
  (forall b, dict_get "amount" (request_data request) <> VBool b) ->
  amount <= Wallet.balance wallet ->
  fits_decimal_12_2 amount = true ->
  fits_decimal_12_2 (Wallet.balance wallet - amount) = true ->
  airtime_call env request = Ok (true, body) ->
  let reference := "AIR-" ++ upper (prefix_of 8 (uuid4_hex env)) in
  ~ In reference (map Transaction.reference (transactions st)) ->
  exists resp txn w st',
    AirtimeView_post env request st = (Ok resp, st')
    /\ response_status resp = HTTP_200_OK
    /\ transactions st' = txn :: transactions st
    /\ Transaction.wallet txn = Wallet.id wallet
    /\ Transaction.transaction_type txn = "AIRTIME"
    /\ Transaction.amount txn = amount
    /\ Transaction.reference txn = reference
    /\ wallets st' !! Wallet.id wallet = Some w
    /\ Wallet.balance w = Wallet.balance wallet - amount.
Proof.
  intros Hwf Hget Hwid Hamt Hnb Hle Hfa Hfb Hcall reference Hfresh.
  rewrite (airtime_purchase_committed env request st wallet amount body); try assumption.
  assert (Hser : forall txn,
            TransactionSerializer_of (dict_get "amount" (request_data request)) txn
            = Ok (TransactionSerializer txn)).
  { intros txn. destruct (dict_get "amount" (request_data request)); try reflexivity.
    exfalso. apply (Hnb b). reflexivity. }
  rewrite Hser.
  eexists _, _, _, _. split; [reflexivity|].
  repeat split; [apply lookup_insert_eq|apply saved_balance].
Qed.

(** The amount [true] or [false] of a JSON body counts as 1 or 0 in the
    comparison, at the provider and in the ledger: under the conditions
    of the purchase above the AIRTIME row is committed and the wallet
    debited by 1.00 (or 0.00).  The handler then raises
    [decimal.InvalidOperation] instead of answering: the row it
    serializes still holds the [bool], which the serializer's decimal
    field cannot convert. *)
Theorem vas_bool_amount_is_debited_then_raises env request st wallet b body :
  well_formed st ->
  Wallet_objects_get (by_user (request_user request)) st = (Ok wallet, st) ->
  Wallet.wallet_id wallet <> "" ->
  dict_get "amount" (request_data request) = VBool b ->
  let amount := if b then 100 else 0 in
  amount <= Wallet.balance wallet ->
  fits_decimal_12_2 (Wallet.balance wallet - amount) = true ->
  airtime_call env request = Ok (true, body) ->
  let reference := "AIR-" ++ upper (prefix_of 8 (uuid4_hex env)) in
  ~ In reference (map Transaction.reference (transactions st)) ->
  exists txn w st',
    AirtimeView_post env request st = (Raise InvalidOperation, st')
    /\ transactions st' = txn :: transactions st
    /\ Transaction.wallet txn = Wallet.id wallet
    /\ Transaction.transaction_type txn = "AIRTIME"
    /\ Transaction.amount txn = amount
    /\ wallets st' !! Wallet.id wallet = Some w
    /\ Wallet.balance w = Wallet.balance wallet - amount.
Proof.
  intros Hwf Hget Hwid Hraw amount Hle Hfb Hcall reference Hfresh.
  rewrite (airtime_purchase_committed env request st wallet amount body); try assumption.
  - rewrite Hraw. cbn [TransactionSerializer_of].
    eexists _, _, _. split; [reflexivity|].
    repeat split; [apply lookup_insert_eq|apply saved_balance].
  - rewrite Hraw. reflexivity.
  - unfold amount. destruct b; reflexivity.
Qed.

(** *** The service methods *)

(** Both service methods are all or nothing.  A call that raises leaves
    the store as it was, also when the row had been inserted before the
    wallet write failed; a call that returns has inserted the returned row
    in front of the ledger and written the wallet with the new balance,
    and the row's reference was not in the ledger before. *)
Theorem service_methods_all_or_nothing env wallet amount reference service_type metadata st :
  let outcome (m : M (Transaction.t * Wallet.t)) (new_balance : Decimal) :=
    match m st with
    | (Raise _, st') => st' = st
    | (Ok (txn, w), st') =>
        transactions st' = txn :: transactions st
        /\ wallets st' = <[Wallet.id wallet := w]> (wallets st)
        /\ Wallet.balance w = new_balance
        /\ Transaction.wallet txn = Wallet.id wallet
        /\ Transaction.amount txn = amount
        /\ ~ In (Transaction.reference txn) (map Transaction.reference (transactions st))
    end in
  outcome (TransactionService.create_deposit env wallet amount reference metadata)
    (Wallet.balance wallet + amount)
  /\ outcome (TransactionService.create_vas_transaction env wallet amount service_type
                metadata)
       (Wallet.balance wallet - amount).
Proof.
  assert (H : forall nb ty r md,
             match post_entry env wallet amount nb ty r md st with
             | (Raise _, st') => st' = st
             | (Ok (txn, w), st') =>
                 transactions st' = txn :: transactions st
                 /\ wallets st' = <[Wallet.id wallet := w]> (wallets st)
                 /\ Wallet.balance w = nb
                 /\ Transaction.wallet txn = Wallet.id wallet
                 /\ Transaction.amount txn = amount
                 /\ ~ In (Transaction.reference txn)
                         (map Transaction.reference (transactions st))
             end).
  { intros nb ty r md.
    destruct (post_entry_cases env wallet amount nb ty r md st)
      as [[e He]|[He (_ & _ & Hfresh)]]; rewrite He; [reflexivity|].
    repeat split; [apply written_balance|].
    cbn. intros Hin. apply in_map_iff in Hin as [x [Hx Hin]].
    assert (existsb (fun x => String.eqb (Transaction.reference x) r) (transactions st)
            = true); [|congruence].
    apply existsb_exists. exists x. split; [exact Hin|]. apply String.eqb_eq, Hx. }
  cbn zeta. rewrite create_deposit_unfold, create_vas_transaction_unfold.
  split; apply H.
Qed.

(** The reference is an idempotency key: a deposit under a reference that
    is already in the ledger raises [IntegrityError] and changes nothing,
    so a notice delivered twice is credited once. *)
Theorem duplicate_reference_is_refused env wallet amount reference metadata st :
  wallets st !! Wallet.id wallet = Some wallet ->
  fits_decimal_12_2 amount = true ->
  reference <> "" ->
  In reference (map Transaction.reference (transactions st)) ->
  exists message,
    TransactionService.create_deposit env wallet amount (Some reference) metadata st
    = (Raise (IntegrityError message), st).
Proof.
  intros _ Hfit Href Hin.
  unfold TransactionService.create_deposit, atomic, bind, Transaction_objects_create.
  apply String.eqb_neq in Href. rewrite Href, Hfit. cbn [negb].
  assert (existsb (fun x => String.eqb (Transaction.reference x) reference)
            (transactions st) = true) as ->.
  { apply in_map_iff in Hin as [x [Hx Hin]]. apply existsb_exists.
    exists x. split; [exact Hin|]. apply String.eqb_eq, Hx. }
  eexists. reflexivity.
Qed.

(** *** References *)

Lemma upper_length s : String.length (upper s) = String.length s.
Proof. induction s as [|c s IH]; cbn; [reflexivity|]. now rewrite IH. Qed.

Lemma upper_hex_digit c :
  is_lower_hex_digit c = true ->
  existsb (Ascii.eqb (upper_char c)) (list_ascii_of_string "0123456789ABCDEF") = true.
Proof.
  unfold is_lower_hex_digit. cbn. intros Hc.
  repeat (apply orb_true_iff in Hc as [Hc|Hc];
          [apply Ascii.eqb_eq in Hc; subst c; reflexivity|]).
  discriminate.
Qed.

Lemma all_chars_upper_hex s :
  all_chars is_lower_hex_digit s = true ->
  all_chars (fun c => existsb (Ascii.eqb c) (list_ascii_of_string "0123456789ABCDEF"))
    (upper s) = true.
Proof.
  induction s as [|c s IH]; cbn [all_chars upper]; [reflexivity|].
  intros H. apply andb_true_iff in H as [Hc Hs].
  rewrite (upper_hex_digit c Hc), (IH Hs). reflexivity.
Qed.

Lemma substring_prefix_length n : forall s,
  (n <= String.length s)%nat -> String.length (substring 0 n s) = n.
Proof.
  induction n as [|n IH]; intros [|c s]; cbn; intros H; try reflexivity; try lia.
  rewrite IH by lia. reflexivity.
Qed.

Lemma substring_prefix_all_chars p n : forall s,
  all_chars p s = true -> all_chars p (substring 0 n s) = true.
Proof.
  induction n as [|n IH]; intros [|c s]; cbn; intros H; try reflexivity.
  apply andb_true_iff in H as [Hc Hs]. rewrite Hc, (IH s Hs). reflexivity.
Qed.

(** With the hexadecimal form of a uuid (32 lowercase hexadecimal digits),
    a generated reference is the prefix, a hyphen and eight upper-case
    hexadecimal digits. *)
Theorem generate_reference_shape env prefix :
  String.length (uuid4_hex env) = 32%nat ->
  all_chars is_lower_hex_digit (uuid4_hex env) = true ->
  exists suffix,
    TransactionService.generate_reference env prefix = prefix ++ "-" ++ suffix
    /\ String.length suffix = 8%nat
    /\ all_chars (fun c => existsb (Ascii.eqb c) (list_ascii_of_string "0123456789ABCDEF"))
         suffix = true
    /\ String.length (TransactionService.generate_reference env prefix)
       = (String.length prefix + 9)%nat.
Proof.
  intros Hlen Hhex. exists (upper (prefix_of 8 (uuid4_hex env))).
  assert (Hs : String.length (upper (prefix_of 8 (uuid4_hex env))) = 8%nat).
  { rewrite upper_length. apply substring_prefix_length. lia. }
  split; [reflexivity|]. split; [exact Hs|]. split.
  - apply all_chars_upper_hex, substring_prefix_all_chars, Hhex.
  - unfold TransactionService.generate_reference.
    rewrite !length_app_string, Hs. cbn. lia.
Qed.

(** *** Saving a wallet *)

(** A wallet that [save] has written can be looked up again: the saved
    object carries a wallet id (the one it had, or a generated one when it
    had none), and a lookup by that wallet id, like a lookup by its user,
    returns exactly the saved object; the other rows are untouched. *)
Theorem Wallet_save_then_get env w st w' st' :
  Wallet_save env w st = (Ok w', st') ->
  Wallet.wallet_id w' <> ""
  /\ (Wallet.wallet_id w <> "" -> Wallet.wallet_id w' = Wallet.wallet_id w)
  /\ (Wallet.wallet_id w = "" -> Wallet.wallet_id w' = "NEXA" ++ random_wallet_suffix env)
  /\ Wallet_objects_get (by_wallet_id (Wallet.wallet_id w')) st' = (Ok w', st')
  /\ Wallet_objects_get (by_user (Wallet.user w')) st' = (Ok w', st')
  /\ (forall pk, pk <> Wallet.id w -> wallets st' !! pk = wallets st !! pk).
Proof.
  unfold Wallet_save. cbn zeta.
  set (w2 := pre_save env (negb (has_row (Wallet.id w) st)) w).
  assert (Hid : Wallet.id w2 = Wallet.id w).
  { unfold w2, pre_save. destruct (negb _); destruct (String.eqb _ ""); reflexivity. }
  assert (H1 : Wallet.wallet_id w2 <> "").
  { unfold w2, pre_save.
    destruct (negb _); destruct (String.eqb_spec (Wallet.wallet_id w) ""); cbn;
      try discriminate; assumption. }
  assert (H2 : Wallet.wallet_id w <> "" -> Wallet.wallet_id w2 = Wallet.wallet_id w).
  { intros Hne. unfold w2, pre_save.
    destruct (negb _); destruct (String.eqb_spec (Wallet.wallet_id w) "");
      try contradiction; reflexivity. }
  assert (H3 : Wallet.wallet_id w = "" ->
               Wallet.wallet_id w2 = "NEXA" ++ random_wallet_suffix env).
  { intros He. unfold w2, pre_save. rewrite He. destruct (negb _); reflexivity. }
  clearbody w2.
  destruct (negb (fits_decimal_12_2 (Wallet.balance w2))); [discriminate|].
  destruct (other_wallet_with _ (Wallet.id w2) st) eqn:Huser; [discriminate|].
  match goal with
  | |- context [if other_wallet_with ?p ?pk ?s then _ else _] =>
      destruct (other_wallet_with p pk s) eqn:Hwid; [discriminate|]
  end.
  intros [= <- <-].
  split; [exact H1|]. split; [exact H2|]. split; [exact H3|].
  split; [|split].
  - apply (Wallet_objects_get_unique _ _ (Wallet.id w2)).
    + cbn [wallets set_wallets]. apply lookup_insert_eq.
    + apply String.eqb_refl.
    + intros k x Hk Hne. cbn [wallets set_wallets] in Hk.
      rewrite lookup_insert_ne in Hk by congruence.
      apply (other_wallet_with_inv _ _ _ k x Hwid Hk Hne).
  - apply (Wallet_objects_get_unique _ _ (Wallet.id w2)).
    + cbn [wallets set_wallets]. apply lookup_insert_eq.
    + apply Z.eqb_refl.
    + intros k x Hk Hne. cbn [wallets set_wallets] in Hk.
      rewrite lookup_insert_ne in Hk by congruence.
      apply (other_wallet_with_inv _ _ _ k x Huser Hk Hne).
  - intros pk Hpk. cbn [wallets set_wallets]. apply lookup_insert_ne. congruence.
Qed.

(** *** The gateway client, success side *)

(** A gateway call reports success exactly when the provider answered the
    request with a status outside 400..599 and a body that parses as
    JSON; the payload returned is then that body. *)
Theorem gateway_success_iff env call endpoint payload body :
  gateway_request call = Ok (endpoint, payload) ->
  gateway_run env call = Ok (true, body)
  <-> exists response,
      requests_post env (PayscribeService.BASE_URL env ++ endpoint) payload
        (PayscribeService.request_headers env) = Ok response
      /\ ~ (400 <= status_code response < 600)
      /\ json response = Ok body.
Proof.
  intros Hreq. rewrite gateway_run_request, Hreq. cbn [rbind fst snd].
  unfold PayscribeService._make_request, PayscribeService.provider_reply.
  destruct (requests_post env _ payload _) as [response|e]; cbn [rbind].
  - unfold PayscribeService.raise_for_status.
    destruct ((400 <=? status_code response) && (status_code response <? 500)) eqn:H4.
    { cbn. split; [discriminate|]. intros (r & [= <-] & Hcode & _). lia. }
    destruct ((500 <=? status_code response) && (status_code response <? 600)) eqn:H5.
    { cbn. split; [discriminate|]. intros (r & [= <-] & Hcode & _). lia. }
    cbn [rbind]. destruct (json response) as [j|e] eqn:Hjson; cbn.
    + split.
      * intros [= <-]. exists response. split; [reflexivity|]. split; [lia|exact Hjson].
      * intros (r & [= <-] & _ & Hj). congruence.
    + split.
      * destruct (is_RequestException e); discriminate.
      * intros (r & [= <-] & _ & Hj). congruence.
  - cbn. split.
    + destruct (is_RequestException e); discriminate.
    + intros (r & Hr & _). discriminate.
Qed.

(** *** The registration fixture against the phone number rules *)

Lemma pretty_N_char_digit x : is_digit_char (pretty_N_char x) = true.
Proof.
  unfold pretty_N_char.
  repeat match goal with
         | |- context [match ?y with _ => _ end] => destruct y
         end; reflexivity.
Qed.

Lemma pretty_N_go_digits k : forall x s,
  (x < 10 ^ N.of_nat k)%N ->
  all_chars is_digit_char s = true ->
  all_chars is_digit_char (pretty_N_go x s) = true
  /\ (String.length (pretty_N_go x s) <= String.length s + k)%nat.
Proof.
  induction k as [|k IH]; intros x s Hx Hs.
  - assert (x = 0%N) as -> by (cbn in Hx; lia).
    rewrite pretty_N_go_0. split; [exact Hs|lia].
  - destruct (decide (x = 0%N)) as [->|Hpos].
    + rewrite pretty_N_go_0. split; [exact Hs|lia].
    + rewrite pretty_N_go_step by lia.
      destruct (IH (x `div` 10)%N (String (pretty_N_char (x `mod` 10)) s)) as [Hd Hl].
      * apply N.Div0.div_lt_upper_bound.
        rewrite Nat2N.inj_succ, N.pow_succ_r' in Hx. exact Hx.
      * cbn [all_chars]. rewrite pretty_N_char_digit, Hs. reflexivity.
      * split; [exact Hd|]. cbn [String.length] in Hl. lia.
Qed.

Lemma pretty_digits (x : Z) (k : nat) :
  0 <= x < 10 ^ Z.of_nat k -> (0 < k)%nat ->
  all_chars is_digit_char (pretty x) = true
  /\ (String.length (pretty x) <= k)%nat.
Proof.
  intros Hx Hk. destruct x as [|p|p]; [split; [reflexivity|cbn; lia]| |lia].
  change (pretty (Z.pos p)) with (pretty (N.pos p)).
  unfold pretty, pretty_N. destruct (decide (N.pos p = 0%N)) as [E|_]; [discriminate|].
  destruct (pretty_N_go_digits k (N.pos p) "") as [Hd Hl]; [|reflexivity|].
  - apply N2Z.inj_lt. rewrite N2Z.inj_pow, nat_N_Z. cbn. lia.
  - split; [exact Hd|]. cbn in Hl. exact Hl.
Qed.

Lemma all_chars_zeros p n :
  p "0"%char = true -> all_chars p (string_of_list_ascii (repeat "0"%char n)) = true.
Proof. intros Hp. induction n as [|n IH]; cbn; [reflexivity|]. now rewrite Hp, IH. Qed.

Lemma length_zeros n : String.length (string_of_list_ascii (repeat "0"%char n)) = n.
Proof. induction n as [|n IH]; cbn; [reflexivity|]. now rewrite IH. Qed.

(** For every clock value, also a negative one, the phone number that the
    registration fixture builds has exactly 11 characters, all of them
    digits: [validate_phone_number] accepts it, and it respects the
    minimum and the maximum length of the model field. *)
Theorem test_user_phone_number_is_valid timestamp :
  validate_phone_number (test_user_phone_number timestamp)
    = Ok (test_user_phone_number timestamp)
  /\ String.length (test_user_phone_number timestamp) = 11%nat
  /\ (phone_number_min_length <= String.length (test_user_phone_number timestamp)
      <= phone_number_max_length)%nat.
Proof.
  pose proof (Z.mod_pos_bound timestamp 100000000 ltac:(lia)) as Hb.
  destruct (pretty_digits (timestamp mod 100000000) 8) as [Hd Hl]; [cbn; lia|lia|].
  assert (Hfmt : format_0d 8 (timestamp mod 100000000)
                 = zfill 8 (pretty (timestamp mod 100000000))).
  { destruct (timestamp mod 100000000); try reflexivity. lia. }
  assert (Hall : all_chars is_digit_char (test_user_phone_number timestamp) = true).
  { unfold test_user_phone_number. rewrite Hfmt. unfold zfill.
    rewrite !all_chars_app, Hd, all_chars_zeros by reflexivity. reflexivity. }
  assert (Hlen : String.length (test_user_phone_number timestamp) = 11%nat).
  { unfold test_user_phone_number. rewrite Hfmt. unfold zfill.
    rewrite !length_app_string, length_zeros.
    change (String.length "234") with 3%nat. lia. }
  split; [|split; [exact Hlen|
    rewrite Hlen; unfold phone_number_min_length, phone_number_max_length; lia]].
  unfold validate_phone_number, isdigit. rewrite Hall, Hlen.
  destruct (String.eqb_spec (test_user_phone_number timestamp) "") as [E|_];
    [rewrite E in Hlen; discriminate|reflexivity].
Qed.

(** *** The URL of a test request *)

Lemma rstrip_slash_snoc s : rstrip_slash (s ++ "/") = rstrip_slash s.
Proof.
  induction s as [|c s IH]; [reflexivity|].
  change (String c s ++ "/") with (String c (s ++ "/")).
  cbn [rstrip_slash]. rewrite IH. reflexivity.
Qed.

Lemma rstrip_slash_last s : last_char (rstrip_slash s) <> Some "/"%char.
Proof.
  induction s as [|c s IH]; cbn [rstrip_slash]; [discriminate|].
  destruct (Ascii.eqb_spec c "/") as [->|Hc]; cbn [andb].
  - destruct (String.eqb_spec (rstrip_slash s) "") as [E|N]; [discriminate|].
    cbn [last_char]. destruct (rstrip_slash s); [contradiction|exact IH].
  - cbn [last_char]. destruct (rstrip_slash s); [congruence|exact IH].
Qed.

Lemma lstrip_slash_first s : first_char (lstrip_slash s) <> Some "/"%char.
Proof.
  induction s as [|c s IH]; cbn; [discriminate|].
  destruct (Ascii.eqb_spec c "/") as [->|Hc]; [exact IH|].
  assert (lstrip_slash (String c s) = String c s) as E.
  { destruct c as [[] [] [] [] [] [] [] []]; try reflexivity. contradiction. }
  cbn in E. rewrite E. cbn. congruence.
Qed.

(** The URL of a test request does not depend on how the base URL ends
    or the endpoint begins: a slash more at the end of the one or at the
    start of the other gives the same URL, in which the two parts are
    joined by the one slash the tester writes. *)
Theorem APITester_url_is_normalised base_url endpoint :
  APITester_url (base_url ++ "/") endpoint = APITester_url base_url endpoint
  /\ APITester_url base_url ("/" ++ endpoint) = APITester_url base_url endpoint
  /\ last_char (rstrip_slash base_url) <> Some "/"%char
  /\ first_char (lstrip_slash endpoint) <> Some "/"%char.
Proof.
  unfold APITester_url. rewrite rstrip_slash_snoc.
  split; [reflexivity|]. split; [reflexivity|].
  split; [apply rstrip_slash_last|apply lstrip_slash_first].
Qed.

(** *** The properties above on the scenarios *)

Lemma single_wallet_store_well_formed : well_formed (single_wallet_store 0).
Proof.
  split; [|split; [|split]].
  - intros pk w Hw. cbn in Hw. apply lookup_singleton_Some in Hw as [<- <-]. reflexivity.
  - intros k1 k2 w1 w2 H1 H2 Hne. cbn in H1, H2.
    apply lookup_singleton_Some in H1 as [<- _].
    apply lookup_singleton_Some in H2 as [<- _]. contradiction.
  - constructor.
  - apply single_wallet_store_invariant.
Qed.

Lemma funded_store_well_formed : well_formed funded_store.
Proof.
  unfold funded_store. rewrite create_deposit_unfold.
  apply post_entry_well_formed.
  - apply single_wallet_store_well_formed.
  - reflexivity.
  - reflexivity.
Qed.

Lemma serve_all_well_formed_witness :
  well_formed
    (serve_all
       [(scenario_env_webhook (deposit_notice 5000 "DEP-ABC123"), DepositWebhook,
         signed_webhook (deposit_notice 5000 "DEP-ABC123"));
        (scenario_env_online, BuyAirtimeEndpoint, airtime_500_request);
        (scenario_env, TransactionHistory, read_request)]
       (single_wallet_store 0)).
Proof.
  apply serve_all_well_formed. apply single_wallet_store_well_formed.
Defined.

Lemma webhook_for_unknown_wallet_witness :
  DepositWebhookView_post (scenario_env_webhook unknown_wallet_notice)
    (signed_webhook unknown_wallet_notice) (single_wallet_store 0)
  = (Ok {| response_data := error_body (VStr "Wallet not found");
           response_status := HTTP_404_NOT_FOUND |}, single_wallet_store 0).
Proof.
  apply (webhook_for_unknown_wallet (scenario_env_webhook unknown_wallet_notice)
           (signed_webhook unknown_wallet_notice) (single_wallet_store 0)
           (VDict unknown_wallet_notice)
           {| dw_reference := "DEP-0F0F0F0F"; dw_amount := 500000;
              dw_wallet_id := "NEXAFFFFFFFF"; dw_timestamp := 1672531200;
              dw_signature := "provider" |}).
  - vm_compute. reflexivity.
  - vm_compute. reflexivity.
  - vm_compute. reflexivity.
  - intros pk w Hw. cbn in Hw. apply lookup_singleton_Some in Hw as [_ <-].
    discriminate.
Defined.

Lemma webhook_without_signature_header_witness :
  DepositWebhookView_post scenario_env unsigned_webhook (single_wallet_store 0)
  = (Ok {| response_data := error_body (VStr "Invalid signature");
           response_status := HTTP_403_FORBIDDEN |}, single_wallet_store 0).
Proof.
  apply (webhook_without_signature_header scenario_env unsigned_webhook).
  intros k v [H|[]]. injection H as <- <-. vm_compute. discriminate.
Defined.

Lemma webhook_with_missing_field_witness :
  exists message,
    DepositWebhookView_post (scenario_env_webhook notice_without_signature)
      (signed_webhook notice_without_signature) (single_wallet_store 0)
    = (Ok {| response_data := error_body (VStr message);
             response_status := HTTP_400_BAD_REQUEST |}, single_wallet_store 0).
Proof.
  apply (webhook_with_missing_field (scenario_env_webhook notice_without_signature)
           (signed_webhook notice_without_signature) (single_wallet_store 0)
           notice_without_signature "signature").
  - vm_compute. reflexivity.
  - vm_compute. reflexivity.
  - cbn. tauto.
  - reflexivity.
Defined.

Lemma WalletView_get_own_wallet_witness :
  WalletView_get read_request funded_store
  = (Ok {| response_data := WalletSerializer funded_wallet;
           response_status := HTTP_200_OK |}, funded_store).
Proof.
  apply (proj1 (WalletView_get_own_wallet read_request funded_store
                  (proj1 (proj2 funded_store_well_formed))) 1 funded_wallet).
  - vm_compute. reflexivity.
  - reflexivity.
Defined.

Lemma TransactionHistoryView_get_lists_own_rows_witness :
  exists rows,
    TransactionHistoryView_get read_request funded_store
    = (Ok {| response_data := VList (map TransactionSerializer rows);
             response_status := HTTP_200_OK |}, funded_store)
    /\ Permutation rows (List.filter (owned_by funded_wallet) (transactions funded_store))
    /\ newest_first rows
    /\ (forall t, In t rows <->
                  In t (transactions funded_store)
                  /\ Transaction.wallet t = Wallet.id funded_wallet).
Proof.
  apply (TransactionHistoryView_get_lists_own_rows read_request funded_store 1
           funded_wallet).
  - apply funded_store_well_formed.
  - vm_compute. reflexivity.
  - reflexivity.
Defined.

Lemma deposit_is_visible_in_wallet_witness :
  exists shown,
    WalletView_get read_request
      (snd (DepositWebhookView_post (scenario_env_webhook (deposit_notice 5000 "DEP-ABC123"))
              (signed_webhook (deposit_notice 5000 "DEP-ABC123"))
              (single_wallet_store 0)))
    = (Ok {| response_data := WalletSerializer shown; response_status := HTTP_200_OK |},
       snd (DepositWebhookView_post (scenario_env_webhook (deposit_notice 5000 "DEP-ABC123"))
              (signed_webhook (deposit_notice 5000 "DEP-ABC123"))
              (single_wallet_store 0)))
    /\ Wallet.balance shown = 500000.
Proof.
  destruct (DepositWebhookView_post (scenario_env_webhook (deposit_notice 5000 "DEP-ABC123"))
              (signed_webhook (deposit_notice 5000 "DEP-ABC123"))
              (single_wallet_store 0)) as [[resp|e] st'] eqn:Hpost.
  - pose proof Hpost as Hc. vm_compute in Hc. injection Hc as Hresp Hst.
    destruct (deposit_is_visible_in_wallet _ _ _ resp st'
                single_wallet_store_well_formed Hpost)
      as (data & validated & wallet & Hj & Hs & Hrow & Hwid & Hshow).
    + rewrite <- Hresp. reflexivity.
    + vm_compute in Hj. injection Hj as <-.
      vm_compute in Hs. injection Hs as <-.
      cbn in Hrow. apply lookup_singleton_Some in Hrow as [_ Hw].
      destruct (Hshow read_request) as (shown & Hget & Hbal).
      * rewrite <- Hw. reflexivity.
      * exists shown. split; [exact Hget|]. rewrite Hbal, <- Hw. reflexivity.
  - exfalso. vm_compute in Hpost. discriminate.
Defined.

Lemma vas_writes_nothing_without_provider_success_witness :
  snd (AirtimeView_post scenario_env airtime_500_request funded_store) = funded_store.
Proof.
  apply (proj1 (vas_writes_nothing_without_provider_success scenario_env
                  airtime_500_request funded_store)).
  intros body H. vm_compute in H. discriminate.
Defined.

Lemma airtime_provider_failure_is_answered_400_witness :
  AirtimeView_post scenario_env airtime_500_request funded_store
  = (Ok {| response_data := VDict [("error", VStr "Connection refused")];
           response_status := HTTP_400_BAD_REQUEST |}, funded_store).
Proof.
  apply (airtime_provider_failure_is_answered_400 scenario_env airtime_500_request
           funded_store funded_wallet 50000).
  - vm_compute. reflexivity.
  - reflexivity.
  - vm_compute. discriminate.
  - vm_compute. reflexivity.
Defined.

Lemma vas_amount_must_be_a_number_witness :
  exists message,
    AirtimeView_post scenario_env_online airtime_string_request funded_store
      = (Raise (TypeError message), funded_store)
    /\ DataView_post scenario_env_online airtime_string_request funded_store
       = (Raise (TypeError message), funded_store).
Proof.
  apply (vas_amount_must_be_a_number scenario_env_online airtime_string_request
           funded_store funded_wallet).
  - vm_compute. reflexivity.
  - reflexivity.
Defined.

Lemma airtime_purchase_is_recorded_and_debited_witness :
  exists resp txn w st',
    AirtimeView_post scenario_env_online airtime_500_request funded_store = (Ok resp, st')
    /\ response_status resp = HTTP_200_OK
    /\ transactions st' = txn :: transactions funded_store
    /\ Transaction.wallet txn = 1
    /\ Transaction.transaction_type txn = "AIRTIME"
    /\ Transaction.amount txn = 50000
    /\ Transaction.reference txn = "AIR-9F1C2E4A"
    /\ wallets st' !! 1 = Some w
    /\ Wallet.balance w = 450000.
Proof.
  apply (airtime_purchase_is_recorded_and_debited scenario_env_online
           airtime_500_request funded_store funded_wallet 50000 (VDict [])).
  - apply funded_store_well_formed.
  - vm_compute. reflexivity.
  - discriminate.
  - reflexivity.
  - intros b H. vm_compute in H. discriminate.
  - vm_compute. discriminate.
  - reflexivity.
  - reflexivity.
  - vm_compute. reflexivity.
  - vm_compute. intros [H|[]]. discriminate.
Defined.

Lemma vas_float_amount_is_never_recorded_witness :
  snd (AirtimeView_post scenario_env_online airtime_float_request funded_store)
  = funded_store
  /\ exists x,
      AirtimeView_post scenario_env_online airtime_float_request funded_store
      = (Raise x, funded_store).
Proof.
  destruct (vas_float_amount_is_never_recorded scenario_env_online airtime_float_request
              funded_store 1001 (-1) eq_refl) as (Hstore & _ & Hraise).
  split; [exact Hstore|].
  apply (proj1 (Hraise funded_wallet (VDict []) ltac:(vm_compute; reflexivity)
                  ltac:(vm_compute; reflexivity))).
  vm_compute. reflexivity.
Defined.

Lemma vas_bool_amount_is_debited_then_raises_witness :
  exists txn w st',
    AirtimeView_post scenario_env_online airtime_bool_request funded_store
    = (Raise InvalidOperation, st')
    /\ transactions st' = txn :: transactions funded_store
    /\ Transaction.wallet txn = 1
    /\ Transaction.transaction_type txn = "AIRTIME"
    /\ Transaction.amount txn = 100
    /\ wallets st' !! 1 = Some w
    /\ Wallet.balance w = 499900.
Proof.
  apply (vas_bool_amount_is_debited_then_raises scenario_env_online
           airtime_bool_request funded_store funded_wallet true (VDict [])).
  - apply funded_store_well_formed.
  - vm_compute. reflexivity.
  - discriminate.
  - reflexivity.
  - vm_compute. discriminate.
  - reflexivity.
  - vm_compute. reflexivity.
  - vm_compute. intros [H|[]]. discriminate.
Defined.

Lemma duplicate_reference_is_refused_witness :
  exists message,
    TransactionService.create_deposit scenario_env funded_wallet 500000
      (Some "DEP-ABC123") VNone funded_store
    = (Raise (IntegrityError message), funded_store).
Proof.
  apply (duplicate_reference_is_refused scenario_env funded_wallet 500000 "DEP-ABC123"
           VNone funded_store).
  - vm_compute. reflexivity.
  - reflexivity.
  - discriminate.
  - vm_compute. left. reflexivity.
Defined.

Lemma generate_reference_shape_witness :
  exists suffix,
    TransactionService.generate_reference scenario_env "DEP" = "DEP" ++ "-" ++ suffix
    /\ String.length suffix = 8%nat
    /\ all_chars (fun c => existsb (Ascii.eqb c) (list_ascii_of_string "0123456789ABCDEF"))
         suffix = true
    /\ String.length (TransactionService.generate_reference scenario_env "DEP")
       = (String.length "DEP" + 9)%nat.
Proof.
  apply (generate_reference_shape scenario_env "DEP"); reflexivity.
Defined.

Lemma Wallet_save_then_get_witness :
  let w := scenario_wallet 1 10 "" 0 in
  exists w',
    fst (Wallet_save scenario_env w (single_wallet_store 0)) = Ok w'
    /\ Wallet.wallet_id w' = "NEXAQ7ZK2M9XPA"
    /\ Wallet_objects_get (by_wallet_id (Wallet.wallet_id w'))
         (snd (Wallet_save scenario_env w (single_wallet_store 0)))
       = (Ok w', snd (Wallet_save scenario_env w (single_wallet_store 0))).
Proof.
  cbn zeta.
  destruct (Wallet_save scenario_env (scenario_wallet 1 10 "" 0) (single_wallet_store 0))
    as [[w'|e] st'] eqn:Hsave.
  - destruct (Wallet_save_then_get _ _ _ _ _ Hsave) as (_ & _ & Hgen & Hget & _).
    exists w'. split; [reflexivity|].
    specialize (Hgen eq_refl). split; [exact Hgen|exact Hget].
  - exfalso. vm_compute in Hsave. discriminate.
Defined.

Lemma gateway_success_iff_witness :
  gateway_run scenario_env_online
    (BuyAirtime (VStr "2348123456789") (VInt 500) (VStr "mtn"))
  = Ok (true, VDict []).
Proof.
  apply (gateway_success_iff scenario_env_online
           (BuyAirtime (VStr "2348123456789") (VInt 500) (VStr "mtn"))
           "/vas/airtime"
           (VDict [("phone_number", VStr "2348123456789"); ("amount", VInt 500);
                   ("network", VStr "MTN")])
           (VDict [])).
  - reflexivity.
  - exists {| status_code := 200; reason := "OK"; json := Ok (VDict []) |}.
    split; [reflexivity|]. split; [cbn; lia|reflexivity].
Defined.

Lemma balance_matches_SUCCESS_rows_witness :
  let st := apply_ops
              [(scenario_env, 1, Deposit 500000 (Some "DEP-ABC123") VNone);
               (scenario_env, 1, VasPurchase 50000 "AIRTIME" (VDict []))]
              (single_wallet_store 0) in
  keyed st /\ balance_invariant "SUCCESS" st.
Proof.
  apply (balance_matches_SUCCESS_rows
           [(scenario_env, 1, Deposit 500000 (Some "DEP-ABC123") VNone);
            (scenario_env, 1, VasPurchase 50000 "AIRTIME" (VDict []))]
           (single_wallet_store 0)).
  - reflexivity.
  - apply single_wallet_store_well_formed.
  - apply single_wallet_store_invariant.
Defined.

Lemma vas_purchase_keeps_balance_nonnegative_witness :
  exists w',
    wallets (snd (AirtimeView_post scenario_env_online airtime_500_request funded_store))
      !! 1 = Some w'
    /\ 0 <= Wallet.balance w'.
Proof.
  eexists. split.
  - vm_compute. reflexivity.
  - apply (vas_purchase_keeps_balance_nonnegative scenario_env_online airtime_500_request
             funded_store funded_wallet AirtimeView_post).
    + left. reflexivity.
    + apply funded_store_well_formed.
    + vm_compute. reflexivity.
    + vm_compute. discriminate.
    + vm_compute. reflexivity.
Defined.

Lemma create_deposit_succeeds_witness :
  exists txn w st',
    TransactionService.create_deposit scenario_env funded_wallet 250000
      (Some "DEP-5D5D5D5D") VNone funded_store = (Ok (txn, w), st')
    /\ transactions st' = txn :: transactions funded_store
    /\ Transaction.transaction_type txn = "DEPOSIT"
    /\ Transaction.reference txn = "DEP-5D5D5D5D"
    /\ Transaction.amount txn = 250000
    /\ wallets st' !! 1 = Some w
    /\ Wallet.balance w = 750000.
Proof.
  apply (create_deposit_succeeds scenario_env funded_wallet 250000 "DEP-5D5D5D5D" VNone
           funded_store).
  - vm_compute. reflexivity.
  - apply funded_store_well_formed.
  - discriminate.
  - discriminate.
  - reflexivity.
  - reflexivity.
  - reflexivity.
Defined.

(** The column value of a float, on 500.5, 0.1, 0.015, 0.005,
    9999999999.994, 9999999999.995 and -2.675 as binary64 gives them: the
    results are those of [decimal.Context(prec=12).create_decimal_from_float]
    followed by [quantize(Decimal('0.01'))]; the sixth does not fit the
    column. *)
Example float_to_column_samples :
  map (fun f => float_to_column (fst f) (snd f))
    [(1001, -1); (3602879701896397, -55); (1080863910568919, -56);
     (5764607523034235, -60); (2621439999998427, -18); (5242879999997379, -19);
     (-3011782250804019, -50)]
  = [50050; 10; 2; 0; 999999999999; 1000000000000; -268]
  /\ fits_decimal_12_2 1000000000000 = false.
Proof. vm_compute. split; reflexivity. Qed.

(** [upper] on the word "caf\u00e9". *)
Example upper_latin1 :
  upper (String "c" (String "a" (String "f" (String (ascii_of_nat 233) EmptyString))))
  = String "C" (String "A" (String "F" (String (ascii_of_nat 201) EmptyString))).
Proof. reflexivity. Qed.

(** The fixture and the URL builder on sample inputs. *)
Example test_user_phone_numbers :
  map test_user_phone_number [1712345678; 1700000042; -5]
  = ["23412345678"; "23400000042"; "23499999995"].
Proof. vm_compute. reflexivity. Qed.

Example APITester_urls :
  map (fun b => APITester_url b "/wallet/")
    ["http://localhost:8000/api/v1"; "http://localhost:8000/api/v1//"]
  = ["http://localhost:8000/api/v1/wallet/"; "http://localhost:8000/api/v1/wallet/"].
Proof. vm_compute. reflexivity. Qed.
